(** * PlatyLogger: a shallow embedding of [PlatyLogger.h]

    The header defines one class, [Logger], whose state is a handful of
    static members and whose behaviour is a write path
    ([Log] -> [LogToFile] -> [SaveLatestLog] -> [GetOldestLog] / [CountFiles])
    over the console and three fixed paths of the file system.

    The embedding keeps that shape.  The static members are the record
    [Statics]; the part of the machine the class talks to (the directory
    [./logs], the session file, the archive directory, the wall clock) is the
    record [World]; every function of the class is a computation in a small
    state-and-exception monad over [Process].  A [filesystem_error] leaving a
    [std::filesystem] call is the outcome [Thrown]: the class has no handler,
    so it reaches the caller of the logging method.

    Modelling boundaries, the same for every statement below:
    - the formatted payload ([sprintf(messageBuffer, message, format...)]) is
      taken as an argument, a string already formatted;
    - [SET_COLOR] changes a console attribute and prints nothing: it is left
      out; [mutex.lock()] / [mutex.unlock()] are left out, the model is of one
      thread.  [Log] locks without a guard, so a call that throws leaves the
      mutex locked and is the last call the process serves: the states of a
      process ([reachable]) are those reached through calls that return;
    - the order in which the three [GetTime()] arguments of line 123 are
      evaluated is left to the compiler: it is the parameter
      [ARGUMENT_ORDER] of the build, next to [PLATY_WINDOWS];
    - the branch of a build without [PLATY_WINDOWS] is transcribed with the
      rest, although a compiler refuses such a build at lines 297 to 302,
      which define the colour members without the [const] of their
      declarations (lines 55 to 60);
    - creating the two directories succeeds, and [std::filesystem::exists]
      does not fail; whether the session file can be opened is the bit
      [writable] of the world, for the default mode [in | out] of line 196
      as for [out] and [app];
    - the contents of subdirectories of the archive directory are not
      tracked beyond being empty or not, and a copy to a destination below
      one of them is taken to fail like a copy to a name that is no file
      name;
    - the archive directory lists its entries in the order of their
      creation, a new name last, and the copy of a file carries the last
      write time of its source, as [CopyFileW] makes it;
    - the fields of [struct tm] are integers, and the buffers [sprintf]
      writes to are taken to be large enough for them. *)

From Stdlib Require Import ZArith List String Ascii Bool Lia Setoid DecimalString.
From Stdlib Require DecimalZ.
Import ListNotations.

Local Open Scope string_scope.
Local Open Scope Z_scope.

(* ================================================================== *)
(** ** Text: the pieces of [<string>], [<cctype>] and [printf] in use  *)
(* ================================================================== *)

Module Text.

(** [isspace] in the "C" locale: space, and the five controls
    [\t \n \v \f \r] (codes 9 to 13). *)
Definition isspace (c : ascii) : bool :=
  let n := nat_of_ascii c in
  (Nat.eqb n 32 || (Nat.leb 9 n && Nat.leb n 13))%bool.

(** [s.erase(0, n)]: drops the first [n] characters, all of them when the
    string is shorter. *)
Fixpoint erase_front (n : nat) (s : string) : string :=
  match n, s with
  | O, _ => s
  | S _, EmptyString => EmptyString
  | S k, String _ rest => erase_front k rest
  end.

(** [s.erase(std::remove_if(s.begin(), s.end(), p), s.end())]. *)
Fixpoint remove_if (p : ascii -> bool) (s : string) : string :=
  match s with
  | EmptyString => EmptyString
  | String c rest => if p c then remove_if p rest else String c (remove_if p rest)
  end.

(** [std::replace(s.begin(), s.end(), a, b)]. *)
Fixpoint replace (a b : ascii) (s : string) : string :=
  match s with
  | EmptyString => EmptyString
  | String c rest => String (if Ascii.eqb c a then b else c) (replace a b rest)
  end.

Definition newline : ascii := "010"%char.

(** [std::getline] on a stream positioned at the start of [s]: the characters
    before the first newline, or all of them when there is none. *)
Fixpoint getline (s : string) : string :=
  match s with
  | EmptyString => EmptyString
  | String c rest => if Ascii.eqb c newline then EmptyString else String c (getline rest)
  end.

(** The conversion [%i] of [printf]. *)
Definition fmt_i (z : Z) : string := NilZero.string_of_int (Z.to_int z).

(** [strip_prefix p s] is [Some r] when [s] is [p ++ r]. *)
Fixpoint strip_prefix (p s : string) : option string :=
  match p, s with
  | EmptyString, _ => Some s
  | String a p', String b s' => if Ascii.eqb a b then strip_prefix p' s' else None
  | String _ _, EmptyString => None
  end.

End Text.

(* ================================================================== *)
(** ** The machine around the class                                    *)
(* ================================================================== *)

(** [unsigned int] and [unsigned long long]: values wrap. *)
Definition uint (x : Z) : Z := x mod 2 ^ 32.
Definition ulonglong (x : Z) : Z := x mod 2 ^ 64.

(** The fields of [struct tm] the class reads. *)
Record tm := {
  tm_year : Z;
  tm_mon : Z;
  tm_mday : Z;
  tm_hour : Z;
  tm_min : Z;
  tm_sec : Z
}.

(** What a directory entry of the archive directory is.  [CountFiles] tells
    regular files from the rest; [std::filesystem::remove] tells an empty
    directory from one that is not. *)
Inductive file_type :=
| regular_file
| directory_file (nonempty : bool).

(** An entry of [./logs/past_logs/]: its file name, its kind, its creation
    time as [GetFileAttributesExA] reports it (a 64-bit FILETIME), its last
    write time and its contents. *)
Record dir_entry := {
  d_name : string;
  d_type : file_type;
  d_created : Z;
  d_written : Z;
  d_data : string
}.

(** The session file [./logs/latest_log.txt]. *)
Record session_file := {
  s_data : string;
  s_written : Z
}.

(** The directory [./logs] when it exists: the session file when there is
    one, and the entries of the archive directory, in the order a
    [directory_iterator] yields them, when that directory exists. *)
Record logs_dir := {
  latest_log : option session_file;
  past_logs : option (list dir_entry)
}.

Record World := {
  logs : option logs_dir;
  (** can the session file be opened (or created) for writing *)
  writable : bool;
  (** the time stamp the file system gives to what is written now *)
  file_time : Z;
  (** the successive answers of [std::localtime], and how many were read *)
  time_source : nat -> tm;
  time_reads : nat
}.

(** The open modes the class uses: [std::ios::out], [std::ios::app], and
    the default of [std::fstream::open], [in | out]. *)
Inductive openmode := ios_out | ios_app | ios_in_out.

(** What the process does to the outside, in order. *)
Inductive event :=
| ev_printf (s : string)
| ev_create_directory (p : string)
| ev_remove (p : string)
| ev_open (p : string) (m : openmode) (ok : bool)
| ev_insert (s : string)
| ev_copy (src dst : string).

(* ================================================================== *)
(** ** class Logger                                                    *)
(* ================================================================== *)

Module Logger.

(** The enumeration of line 25. *)
Definition LOGLEVEL_NONE : Z := 0.
Definition LOGLEVEL_TRACE : Z := 1.
Definition LOGLEVEL_INFO : Z := Z.shiftl 1 1.
Definition LOGLEVEL_DEBUG : Z := Z.shiftl 1 2.
Definition LOGLEVEL_WARNING : Z := Z.shiftl 1 3.
Definition LOGLEVEL_ERROR : Z := Z.shiftl 1 4.
Definition LOGLEVEL_FATAL : Z := Z.shiftl 1 5.
Definition LOGLEVEL_ALL : Z := 63.

Definition latestLogFilepath : string := "./logs/latest_log.txt".
Definition logsFilepath : string := "./logs".
Definition pastLogsFilepath : string := "./logs/past_logs/".

(** The mutable static members.  [fs] is the one [std::fstream]: [None] when
    closed, the mode it was opened with otherwise. *)
Record Statics := {
  logLevelsToDisplay : Z;
  logLevelsToSave : Z;
  pastLogsToKeep : Z;
  shouldCreateNewFile : bool;
  fs : option openmode
}.

(** The initialisers of lines 309 to 316. *)
Definition initial : Statics := {|
  logLevelsToDisplay := LOGLEVEL_ALL;
  logLevelsToSave := LOGLEVEL_ALL;
  pastLogsToKeep := 5;
  shouldCreateNewFile := true;
  fs := None
|}.

Record Process := {
  statics : Statics;
  world : World;
  trace : list event
}.

(** *** The monad: state, and an exception that carries no value *)

Inductive Result (A : Type) :=
| Returned (a : A) (p : Process)
| Thrown (p : Process).
Arguments Returned {A} a p.
Arguments Thrown {A} p.

Definition M (A : Type) : Type := Process -> Result A.

Definition ret {A} (a : A) : M A := fun p => Returned a p.

Definition bind {A B} (c : M A) (k : A -> M B) : M B :=
  fun p => match c p with
           | Returned a p' => k a p'
           | Thrown p' => Thrown p'
           end.

Definition throw {A} : M A := fun p => Thrown p.

Declare Scope logger_scope.
Delimit Scope logger_scope with logger.
Notation "x <- c ;; k" := (bind c (fun x => k))
  (at level 61, c at next level, right associativity) : logger_scope.
Notation "c ;; k" := (bind c (fun _ => k))
  (at level 61, right associativity) : logger_scope.
Local Open Scope logger_scope.

Definition when (b : bool) (c : M unit) : M unit := if b then c else ret tt.

Definition get_statics : M Statics := fun p => Returned (statics p) p.
Definition get_world : M World := fun p => Returned (world p) p.

Definition put_statics (s : Statics) : M unit :=
  fun p => Returned tt {| statics := s; world := world p; trace := trace p |}.
Definition put_world (w : World) : M unit :=
  fun p => Returned tt {| statics := statics p; world := w; trace := trace p |}.
Definition emit (e : event) : M unit :=
  fun p => Returned tt {| statics := statics p; world := world p;
                          trace := (trace p ++ [e])%list |}.

(** *** The calls to the outside *)

Definition set_logs (w : World) (l : option logs_dir) : World :=
  {| logs := l; writable := writable w; file_time := file_time w;
     time_source := time_source w; time_reads := time_reads w |}.

Definition set_latest_log (w : World) (d : logs_dir) (f : option session_file) : World :=
  set_logs w (Some {| latest_log := f; past_logs := past_logs d |}).

Definition set_past_logs (w : World) (d : logs_dir) (es : option (list dir_entry)) : World :=
  set_logs w (Some {| latest_log := latest_log d; past_logs := es |}).

(** The path a [directory_iterator] over the archive directory gives for an
    entry. *)
Definition entry_path (e : dir_entry) : string := pastLogsFilepath ++ d_name e.

Definition entries (w : World) : list dir_entry :=
  match logs w with
  | Some d => match past_logs d with Some es => es | None => [] end
  | None => []
  end.

Definition find_entry (p : string) (es : list dir_entry) : option dir_entry :=
  find (fun e => String.eqb (entry_path e) p) es.

Definition is_some {A} (o : option A) : bool :=
  match o with Some _ => true | None => false end.

(** [std::filesystem::exists(p)].  The empty path (a default-constructed
    [std::filesystem::path]) exists nowhere. *)
Definition path_exists (w : World) (p : string) : bool :=
  match logs w with
  | None => false
  | Some d =>
      if String.eqb p logsFilepath then true
      else if String.eqb p pastLogsFilepath then is_some (past_logs d)
      else if String.eqb p latestLogFilepath then is_some (latest_log d)
      else is_some (find_entry p (entries w))
  end.

Definition exists_ (p : string) : M bool :=
  w <- get_world ;; ret (path_exists w p).

Definition printf (s : string) : M unit := emit (ev_printf s).

(** [std::filesystem::create_directory(p)], for the two directories of the
    class: nothing happens when [p] is there already, and the parent has to
    exist. *)
Definition create_directory (p : string) : M unit :=
  emit (ev_create_directory p) ;;
  w <- get_world ;;
  if String.eqb p logsFilepath then
    match logs w with
    | Some _ => ret tt
    | None => put_world (set_logs w (Some {| latest_log := None; past_logs := None |}))
    end
  else if String.eqb p pastLogsFilepath then
    match logs w with
    | Some d =>
        match past_logs d with
        | Some _ => ret tt
        | None => put_world (set_past_logs w d (Some []))
        end
    | None => throw
    end
  else throw.

(** [std::filesystem::directory_iterator(p)] over the archive directory: a
    missing directory is a [filesystem_error]. *)
Definition directory_iterator (p : string) : M (list dir_entry) :=
  w <- get_world ;;
  if String.eqb p pastLogsFilepath then
    match logs w with
    | Some d => match past_logs d with Some es => ret es | None => throw end
    | None => throw
    end
  else throw.

Definition is_regular_file (e : dir_entry) : bool :=
  match d_type e with regular_file => true | directory_file _ => false end.

Fixpoint remove_first (p : string) (es : list dir_entry) : list dir_entry :=
  match es with
  | [] => []
  | e :: rest => if String.eqb (entry_path e) p then rest else e :: remove_first p rest
  end.

(** [std::filesystem::remove(p)], applied to what [GetOldestLog] returns: an
    entry of the archive directory or the empty path.  A path that names
    nothing is not an error ([false]); a directory that is not empty is. *)
Definition remove (p : string) : M bool :=
  emit (ev_remove p) ;;
  w <- get_world ;;
  match logs w with
  | Some d =>
      match past_logs d with
      | Some es =>
          match find_entry p es with
          | Some e =>
              match d_type e with
              | directory_file true => throw
              | _ => put_world (set_past_logs w d (Some (remove_first p es))) ;; ret true
              end
          | None => ret false
          end
      | None => ret false
      end
  | None => ret false
  end.

(** What [fs.open(p, m)] does to the file system when it succeeds; [None]
    when it fails.  [out] truncates or creates, [app] creates when the file
    is missing, [in | out] needs the file. *)
Definition open_file (w : World) (p : string) (m : openmode) : option World :=
  if negb (String.eqb p latestLogFilepath) then None
  else if negb (writable w) then None
  else
    match logs w with
    | None => None
    | Some d =>
        let fresh := Some {| s_data := ""; s_written := file_time w |} in
        match m, latest_log d with
        | ios_out, _ => Some (set_latest_log w d fresh)
        | ios_app, Some _ => Some w
        | ios_app, None => Some (set_latest_log w d fresh)
        | ios_in_out, Some _ => Some w
        | ios_in_out, None => None
        end
    end.

Definition set_fs (s : Statics) (h : option openmode) : Statics :=
  {| logLevelsToDisplay := logLevelsToDisplay s; logLevelsToSave := logLevelsToSave s;
     pastLogsToKeep := pastLogsToKeep s; shouldCreateNewFile := shouldCreateNewFile s;
     fs := h |}.

(** [fs.open(p, m)].  On a stream that is open already the call fails and
    the stream stays as it is. *)
Definition fs_open (p : string) (m : openmode) : M unit :=
  s <- get_statics ;;
  w <- get_world ;;
  match fs s, open_file w p m with
  | None, Some w' => emit (ev_open p m true) ;; put_world w' ;; put_statics (set_fs s (Some m))
  | _, _ => emit (ev_open p m false)
  end.

Definition fs_is_open : M bool := s <- get_statics ;; ret (is_some (fs s)).

Definition fs_close : M unit := s <- get_statics ;; put_statics (set_fs s None).

(** [fs << s].  Nothing is written through a stream that is not open.  The
    class inserts only after [out] or [app], where the put position is the
    end of the file. *)
Definition fs_insert (s : string) : M unit :=
  st <- get_statics ;;
  w <- get_world ;;
  match fs st, logs w with
  | Some _, Some d =>
      match latest_log d with
      | Some f =>
          emit (ev_insert s) ;;
          put_world (set_latest_log w d
                       (Some {| s_data := s_data f ++ s; s_written := file_time w |}))
      | None => ret tt
      end
  | _, _ => ret tt
  end.

(** [std::getline(fs, line)] right after the stream was opened. *)
Definition fs_getline : M string :=
  st <- get_statics ;;
  w <- get_world ;;
  match fs st, logs w with
  | Some _, Some d =>
      match latest_log d with
      | Some f => ret (Text.getline (s_data f))
      | None => ret ""
      end
  | _, _ => ret ""
  end.

(** *** The class, function by function *)

(** The [sprintf] of line 123 has three calls of [GetTime] among its
    arguments, and C++ leaves the order in which the arguments of a call are
    evaluated to the compiler.  A build has one of the six orders; each is
    named by the three arguments in the order they are evaluated, so
    [sec_min_hour] is right to left. *)
Inductive argument_order :=
| hour_min_sec
| hour_sec_min
| min_hour_sec
| min_sec_hour
| sec_hour_min
| sec_min_hour.

(** Which of the three readings of the clock, counted from 0, the hour, the
    minute and the second of the header come from. *)
Definition reading_of_hour (o : argument_order) : nat :=
  match o with
  | hour_min_sec | hour_sec_min => 0
  | min_hour_sec | sec_hour_min => 1
  | min_sec_hour | sec_min_hour => 2
  end.

Definition reading_of_min (o : argument_order) : nat :=
  match o with
  | min_hour_sec | min_sec_hour => 0
  | hour_min_sec | sec_min_hour => 1
  | hour_sec_min | sec_hour_min => 2
  end.

Definition reading_of_sec (o : argument_order) : nat :=
  match o with
  | sec_hour_min | sec_min_hour => 0
  | hour_sec_min | min_sec_hour => 1
  | hour_min_sec | min_hour_sec => 2
  end.

Section Build.

(** The macro the build defines or not. *)
Variable PLATY_WINDOWS : bool.

(** The order in which the build evaluates the arguments of line 123. *)
Variable ARGUMENT_ORDER : argument_order.

(** The end of line, [\n]. *)
Definition nl : string := String Text.newline EmptyString.

(** Can [name] be the name of a file directly inside a directory.  A slash
    would make it a path into a subdirectory; Windows also refuses the
    backslash, the control characters, the double quote and [< > | ? *]. *)
Definition refused_in_name (c : ascii) : bool :=
  let n := nat_of_ascii c in
  (Nat.eqb n 47
   || (PLATY_WINDOWS
       && (Nat.ltb n 32
           || existsb (Nat.eqb n) [92; 60; 62; 34; 124; 63; 42]%nat)))%bool.

(** No character of [name] is refused. *)
Fixpoint plain_name (name : string) : bool :=
  match name with
  | EmptyString => true
  | String c rest => (negb (refused_in_name c) && plain_name rest)%bool
  end.

(** The archive directory after the session file [f] was copied to [name]
    with [copy_options::update_existing]: a new entry when the name is free,
    listed after the others and with the last write time of [f]; a regular
    file of that name is replaced only when it is older than [f] (by last
    write time) and is left alone otherwise; into a directory of that name
    the file is copied under its own name. *)
Fixpoint copy_into (f : session_file) (name : string) (now : Z)
         (es : list dir_entry) : list dir_entry :=
  match es with
  | [] => [ {| d_name := name; d_type := regular_file; d_created := now;
               d_written := s_written f; d_data := s_data f |} ]
  | e :: rest =>
      if String.eqb (d_name e) name then
        match d_type e with
        | regular_file =>
            if d_written e <? s_written f
            then {| d_name := name; d_type := regular_file; d_created := d_created e;
                    d_written := s_written f; d_data := s_data f |} :: rest
            else e :: rest
        | directory_file _ =>
            {| d_name := name; d_type := directory_file true; d_created := d_created e;
               d_written := d_written e; d_data := d_data e |} :: rest
        end
      else e :: copy_into f name now rest
  end.

(** [std::filesystem::copy(from, to, copy_options::update_existing)] from
    the session file to a file of the archive directory.  A source that is
    missing is a [filesystem_error], and so is, in this model, a destination
    that is not a file name directly inside the archive directory: what lies
    below its subdirectories is not tracked. *)
Definition copy (from to : string) : M unit :=
  emit (ev_copy from to) ;;
  w <- get_world ;;
  if negb (String.eqb from latestLogFilepath) then throw
  else
    match logs w with
    | None => throw
    | Some d =>
        match latest_log d, past_logs d, Text.strip_prefix pastLogsFilepath to with
        | Some f, Some es, Some name =>
            if plain_name name
            then put_world (set_past_logs w d (Some (copy_into f name (file_time w) es)))
            else throw
        | _, _, _ => throw
        end
    end.

(** The three setters, lines 37 to 51.  The parameter is an [unsigned int]:
    the argument arrives converted. *)
Definition SetLevelsToDisplay (logLevels : Z) : M unit :=
  s <- get_statics ;;
  put_statics {| logLevelsToDisplay := uint logLevels;
                 logLevelsToSave := logLevelsToSave s;
                 pastLogsToKeep := pastLogsToKeep s;
                 shouldCreateNewFile := shouldCreateNewFile s;
                 fs := fs s |}.

Definition SetLevelsToSave (logLevels : Z) : M unit :=
  s <- get_statics ;;
  put_statics {| logLevelsToDisplay := logLevelsToDisplay s;
                 logLevelsToSave := uint logLevels;
                 pastLogsToKeep := pastLogsToKeep s;
                 shouldCreateNewFile := shouldCreateNewFile s;
                 fs := fs s |}.

Definition SetNumberOfFilesToSave (numberToSave : Z) : M unit :=
  s <- get_statics ;;
  put_statics {| logLevelsToDisplay := logLevelsToDisplay s;
                 logLevelsToSave := logLevelsToSave s;
                 pastLogsToKeep := uint numberToSave;
                 shouldCreateNewFile := shouldCreateNewFile s;
                 fs := fs s |}.

(** The assignment of line 150. *)
Definition set_shouldCreateNewFile (b : bool) : M unit :=
  s <- get_statics ;;
  put_statics {| logLevelsToDisplay := logLevelsToDisplay s;
                 logLevelsToSave := logLevelsToSave s;
                 pastLogsToKeep := pastLogsToKeep s;
                 shouldCreateNewFile := b;
                 fs := fs s |}.

(** Lines 219 to 223. *)
Definition CreateLoggingDirectories : M unit :=
  create_directory logsFilepath ;;
  create_directory pastLogsFilepath.

(** [GetTime]: one more answer of [std::localtime]. *)
Definition GetTime : M tm :=
  w <- get_world ;;
  put_world {| logs := logs w; writable := writable w; file_time := file_time w;
               time_source := time_source w; time_reads := S (time_reads w) |} ;;
  ret (time_source w (time_reads w)).

(** [GetFileCreationTime], lines 231 to 252: zero for a path that does not
    exist; the creation FILETIME on Windows; elsewhere a line on the console
    and zero. *)
Definition GetFileCreationTime (filePath : string) : M Z :=
  w <- get_world ;;
  if negb (path_exists w filePath) then ret 0
  else if PLATY_WINDOWS then
    match find_entry filePath (entries w) with
    | Some e => ret (ulonglong (d_created e))
    | None => ret 0
    end
  else printf "fuck you no unix support" ;; ret 0.

(** The loop of [GetOldestLog], lines 262 to 268, over the paths the
    iterator yields; the operands of [>] are read left to right. *)
Fixpoint GetOldestLog_loop (files : list string) (oldestFile : string) : M string :=
  match files with
  | [] => ret oldestFile
  | file :: rest =>
      a <- GetFileCreationTime oldestFile ;;
      b <- GetFileCreationTime file ;;
      replace_it <- (if a >? b then ret true
                     else c <- GetFileCreationTime oldestFile ;; ret (c =? 0)) ;;
      GetOldestLog_loop rest (if replace_it : bool then file else oldestFile)
  end.

Definition GetOldestLog : M string :=
  es <- directory_iterator pastLogsFilepath ;;
  GetOldestLog_loop (map entry_path es) "".

(** The loop of [CountFiles], lines 276 to 280. *)
Fixpoint CountFiles_loop (es : list dir_entry) (fileCount : Z) : Z :=
  match es with
  | [] => fileCount
  | e :: rest =>
      CountFiles_loop rest (if is_regular_file e then uint (fileCount + 1) else fileCount)
  end.

Definition CountFiles (directory : string) : M Z :=
  es <- directory_iterator directory ;;
  ret (CountFiles_loop es 0).

(** The new name, lines 209 to 212. *)
Definition format_new_name (firstLine : string) : string :=
  let newFilename := Text.erase_front 10 firstLine in
  let newFilename := Text.remove_if Text.isspace newFilename in
  let newFilename := Text.replace ":"%char "-"%char newFilename in
  "log_" ++ newFilename ++ ".txt".

(** Lines 185 to 192: "If the past_logs folder is full it deletes the oldest
    log". *)
Definition remove_oldest_if_full : M unit :=
  fileCount <- CountFiles pastLogsFilepath ;;
  s <- get_statics ;;
  when (fileCount >=? pastLogsToKeep s)
       (fileToRemove <- GetOldestLog ;;
        printf ("Maximum number of past logs reached, removing: " ++ fileToRemove ++ nl) ;;
        _ <- remove fileToRemove ;;
        ret tt).

(** Lines 194 to 206: "Saves the first line of the log to format its new
    name"; the name stays empty when the file does not open. *)
Definition read_first_line : M string :=
  fs_open latestLogFilepath ios_in_out ;;
  opened <- fs_is_open ;;
  firstLine <- (if opened : bool then fs_getline else ret "") ;;
  fs_close ;;
  ret firstLine.

Definition SaveLatestLog : M unit :=
  there <- exists_ latestLogFilepath ;;
  when (negb there) CreateLoggingDirectories ;;
  remove_oldest_if_full ;;
  firstLine <- read_first_line ;;
  let newFilename := format_new_name firstLine in
  let newFileLocation := pastLogsFilepath ++ newFilename in
  copy latestLogFilepath newFileLocation.

(** The banner, line 154, without its two ends of line. *)
Definition creation_banner (t : tm) : string :=
  "Created - " ++ Text.fmt_i (tm_year t + 1900) ++ ". " ++ Text.fmt_i (tm_mon t + 1)
    ++ ". " ++ Text.fmt_i (tm_mday t) ++ ". " ++ Text.fmt_i (tm_hour t)
    ++ ":" ++ Text.fmt_i (tm_min t) ++ ":" ++ Text.fmt_i (tm_sec t).

(** What line 165 (and line 127) puts after the header. *)
Definition record_line (header message : string) : string :=
  header ++ " - " ++ message ++ nl.

Definition LogToFile (header message : string) : M unit :=
  haveLogs <- exists_ logsFilepath ;;
  havePast <- exists_ pastLogsFilepath ;;
  when (negb haveLogs || negb havePast) CreateLoggingDirectories ;;
  s <- get_statics ;;
  (if shouldCreateNewFile s then
     there <- exists_ latestLogFilepath ;;
     when there SaveLatestLog ;;
     fs_open latestLogFilepath ios_out ;;
     set_shouldCreateNewFile false ;;
     t <- GetTime ;;
     fs_insert (creation_banner t ++ nl ++ nl)
   else
     fs_open latestLogFilepath ios_app) ;;
  opened <- fs_is_open ;;
  if opened : bool then
    fs_insert (record_line header message) ;;
    fs_close
  else
    SetLevelsToSave LOGLEVEL_NONE ;;
    fs_close.

(** The header, line 123: the hour of one answer of [GetTime], the minute
    of another and the second of a third. *)
Definition format_header (h m s : tm) (logLevelStr : string) : string :=
  "[" ++ Text.fmt_i (tm_hour h) ++ ":" ++ Text.fmt_i (tm_min m) ++ ":"
      ++ Text.fmt_i (tm_sec s) ++ "] <" ++ logLevelStr ++ ">".

(** Lines 117 to 133.  The three calls of [GetTime] are made in the order
    of the build, and each argument of [sprintf] gets the answer of its own
    call. *)
Definition Log (logLevel : Z) (logLevelStr : string) (messageBuffer : string) : M unit :=
  first <- GetTime ;;
  second <- GetTime ;;
  third <- GetTime ;;
  let reading (k : nat) :=
    match k with O => first | S O => second | _ => third end in
  let header := format_header (reading (reading_of_hour ARGUMENT_ORDER))
                              (reading (reading_of_min ARGUMENT_ORDER))
                              (reading (reading_of_sec ARGUMENT_ORDER))
                              logLevelStr in
  st <- get_statics ;;
  when (negb (Z.land (logLevelsToDisplay st) (uint logLevel) =? 0))
       (printf (record_line header messageBuffer)) ;;
  st <- get_statics ;;
  when (negb (Z.land (logLevelsToSave st) (uint logLevel) =? 0))
       (LogToFile header messageBuffer).

Definition Trace (message : string) : M unit := Log LOGLEVEL_TRACE "Trace" message.
Definition Info (message : string) : M unit := Log LOGLEVEL_INFO "Info" message.
Definition Debug (message : string) : M unit := Log LOGLEVEL_DEBUG "Debug" message.
Definition Warning (message : string) : M unit := Log LOGLEVEL_WARNING "Warning" message.
Definition Error (message : string) : M unit := Log LOGLEVEL_ERROR "Error" message.
Definition Fatal (message : string) : M unit := Log LOGLEVEL_FATAL "Fatal" message.

(** The six public logging methods, as one family. *)
Inductive severity := SevTrace | SevInfo | SevDebug | SevWarning | SevError | SevFatal.

Definition call (v : severity) : string -> M unit :=
  match v with
  | SevTrace => Trace
  | SevInfo => Info
  | SevDebug => Debug
  | SevWarning => Warning
  | SevError => Error
  | SevFatal => Fatal
  end.

(** The public interface of the class: the three setters and the six
    logging methods. *)
Inductive request :=
| SetDisplay (logLevels : Z)
| SetSave (logLevels : Z)
| SetKeep (numberToSave : Z)
| Emit (v : severity) (message : string).

Definition serve (r : request) : M unit :=
  match r with
  | SetDisplay l => SetLevelsToDisplay l
  | SetSave l => SetLevelsToSave l
  | SetKeep n => SetNumberOfFilesToSave n
  | Emit v message => call v message
  end.

(** The states a process goes through: it starts with the initialisers in
    some world; between two requests the rest of the machine may change the
    world; a request that returns gives the next state.  A request that
    throws leaves [Log] with the mutex locked: no later request is served. *)
Inductive reachable : Process -> Prop :=
| reach_start (w : World) :
    reachable {| statics := initial; world := w; trace := [] |}
| reach_world (p : Process) (w : World) :
    reachable p ->
    reachable {| statics := statics p; world := w; trace := trace p |}
| reach_serve (p p' : Process) (r : request) :
    reachable p ->
    serve r p = Returned tt p' ->
    reachable p'.

End Build.

(** The bit and the name each logging method passes to [Log]. *)
Definition level_of (v : severity) : Z :=
  match v with
  | SevTrace => LOGLEVEL_TRACE
  | SevInfo => LOGLEVEL_INFO
  | SevDebug => LOGLEVEL_DEBUG
  | SevWarning => LOGLEVEL_WARNING
  | SevError => LOGLEVEL_ERROR
  | SevFatal => LOGLEVEL_FATAL
  end.

Definition name_of (v : severity) : string :=
  match v with
  | SevTrace => "Trace"
  | SevInfo => "Info"
  | SevDebug => "Debug"
  | SevWarning => "Warning"
  | SevError => "Error"
  | SevFatal => "Fatal"
  end.

(** The position of the bit of a level in a mask. *)
Definition bit_of (v : severity) : Z :=
  match v with
  | SevTrace => 0
  | SevInfo => 1
  | SevDebug => 2
  | SevWarning => 3
  | SevError => 4
  | SevFatal => 5
  end.

(** The state a computation ends in, returned or thrown. *)
Definition final {A} (r : Result A) : Process :=
  match r with
  | Returned _ p => p
  | Thrown p => p
  end.

(** The session file and the archive of a world. *)
Definition session (w : World) : option session_file :=
  match logs w with
  | Some d => latest_log d
  | None => None
  end.

Definition regular_files (es : list dir_entry) : list dir_entry :=
  filter is_regular_file es.

(** Events by kind. *)
Definition is_printf (e : event) : bool :=
  match e with ev_printf _ => true | _ => false end.

Definition is_file_call (e : event) : bool := negb (is_printf e).

Definition is_truncating_open (e : event) : bool :=
  match e with ev_open _ ios_out _ => true | _ => false end.

Definition is_copy (e : event) : bool :=
  match e with ev_copy _ _ => true | _ => false end.

Definition is_insert (e : event) : bool :=
  match e with ev_insert _ => true | _ => false end.

(** What the console received, in order. *)
Definition console (t : list event) : list string :=
  flat_map (fun e => match e with ev_printf s => [s] | _ => [] end) t.

End Logger.

(* ================================================================== *)
(** ** Words for what a run does                                       *)
(* ================================================================== *)

Import Logger.
Local Open Scope logger_scope.

(** [p] with [new] more events. *)
Definition add_events (p : Process) (new : list event) : Process :=
  {| statics := statics p; world := world p; trace := (trace p ++ new)%list |}.

(** The line [GetFileCreationTime] prints where the build is not for
    Windows. *)
Definition is_note (e : event) : Prop := e = ev_printf "fuck you no unix support".

(** A world in which [./logs] and the archive directory exist. *)
Definition settled (l : option session_file) (es : list dir_entry)
           (wr : bool) (ft : Z) (ts : nat -> tm) (n : nat) : World :=
  {| logs := Some {| latest_log := l; past_logs := Some es |};
     writable := wr; file_time := ft; time_source := ts; time_reads := n |}.

(** The archive after [std::filesystem::remove(out)]; [None] when the call
    throws. *)
Definition without (out : string) (es : list dir_entry) : option (list dir_entry) :=
  match find_entry out es with
  | Some e =>
      match d_type e with
      | directory_file true => None
      | _ => Some (remove_first out es)
      end
  | None => Some es
  end.

(** The line of line 190. *)
Definition notice (out : string) : string :=
  "Maximum number of past logs reached, removing: " ++ out ++ nl.

(** The test of line 186. *)
Definition is_full (s : Statics) (es : list dir_entry) : bool :=
  CountFiles_loop es 0 >=? pastLogsToKeep s.

(** [s] after line 169: the persist mask is [LOGLEVEL_NONE]. *)
Definition muted (s : Statics) : Statics :=
  {| logLevelsToDisplay := logLevelsToDisplay s; logLevelsToSave := LOGLEVEL_NONE;
     pastLogsToKeep := pastLogsToKeep s; shouldCreateNewFile := shouldCreateNewFile s;
     fs := fs s |}.

(** [s] after line 150: the rotation flag is down. *)
Definition flipped (s : Statics) : Statics :=
  {| logLevelsToDisplay := logLevelsToDisplay s; logLevelsToSave := logLevelsToSave s;
     pastLogsToKeep := pastLogsToKeep s; shouldCreateNewFile := false;
     fs := fs s |}.

(** What a session file holds, nothing when there is none. *)
Definition data_of (l : option session_file) : string :=
  match l with
  | Some f => s_data f
  | None => ""
  end.

(** Lines 159 to 174 with the flag down: one open in append mode, and one
    line or none. *)
Definition appended (header message : string) (s : Statics)
           (l : option session_file) (es : list dir_entry)
           (wr : bool) (ft : Z) (ts : nat -> tm) (n : nat) (tr : list event) : Process :=
  if wr then
    {| statics := s;
       world := settled (Some {| s_data := data_of l ++ record_line header message;
                                 s_written := ft |}) es wr ft ts n;
       trace := (tr ++ [ev_open latestLogFilepath ios_app true;
                        ev_insert (record_line header message)])%list |}
  else
    {| statics := muted s;
       world := settled l es wr ft ts n;
       trace := (tr ++ [ev_open latestLogFilepath ios_app false])%list |}.

(** Lines 149 to 174 with the flag up, once the archive is dealt with: one
    open in truncate mode, the flag goes down, the clock is read, and the
    banner and the line are written, or nothing is. *)
Definition started (header message : string) (s : Statics)
           (l : option session_file) (es : list dir_entry)
           (wr : bool) (ft : Z) (ts : nat -> tm) (n : nat) (tr : list event) : Process :=
  if wr then
    {| statics := flipped s;
       world := settled (Some {| s_data := (creation_banner (ts n) ++ nl ++ nl)
                                           ++ record_line header message;
                                 s_written := ft |}) es wr ft ts (S n);
       trace := (tr ++ [ev_open latestLogFilepath ios_out true;
                        ev_insert (creation_banner (ts n) ++ nl ++ nl);
                        ev_insert (record_line header message)])%list |}
  else
    {| statics := muted (flipped s);
       world := settled l es wr ft ts (S n);
       trace := (tr ++ [ev_open latestLogFilepath ios_out false])%list |}.

(** Lines 138 to 141: the world once the two directories are there, and the
    calls that made them. *)
Definition settle (w : World) : World :=
  match logs w with
  | Some d =>
      match past_logs d with
      | Some _ => w
      | None => set_past_logs w d (Some [])
      end
  | None => set_logs w (Some {| latest_log := None; past_logs := Some [] |})
  end.

Definition boot_events (w : World) : list event :=
  if (path_exists w logsFilepath && path_exists w pastLogsFilepath)%bool then []
  else [ev_create_directory logsFilepath; ev_create_directory pastLogsFilepath].

(** [LogToFile] in one formula.  [out] is what [GetOldestLog] returns in this
    world and [notes] what it prints on the way. *)
Definition LogToFile_result (PW : bool) (header message : string) (s : Statics)
           (l : option session_file) (es : list dir_entry)
           (wr : bool) (ft : Z) (ts : nat -> tm) (n : nat) (tr : list event)
           (out : string) (notes : list event) : Result unit :=
  if shouldCreateNewFile s then
    match l with
    | None => Returned tt (started header message s None es wr ft ts n tr)
    | Some f =>
        let name := format_new_name (if wr then Text.getline (s_data f) else "") in
        let mid := [ev_open latestLogFilepath ios_in_out wr;
                    ev_copy latestLogFilepath (pastLogsFilepath ++ name)] in
        let pre := if is_full s es
                   then (notes ++ [ev_printf (notice out); ev_remove out])%list
                   else [] in
        match (if is_full s es then without out es else Some es) with
        | None => Thrown {| statics := s; world := settled l es wr ft ts n;
                            trace := (tr ++ pre)%list |}
        | Some es1 =>
            if plain_name PW name
            then Returned tt (started header message s l (copy_into f name ft es1)
                                wr ft ts n (tr ++ pre ++ mid))
            else Thrown {| statics := s; world := settled l es1 wr ft ts n;
                           trace := (tr ++ pre ++ mid)%list |}
        end
    end
  else Returned tt (appended header message s l es wr ft ts n tr).

(** The world after three more readings of the clock. *)
Definition three_reads (w : World) : World :=
  {| logs := logs w; writable := writable w; file_time := file_time w;
     time_source := time_source w; time_reads := S (S (S (time_reads w))) |}.

(** The header a call builds in world [w], in a build of order [o]. *)
Definition header_in (o : argument_order) (w : World) (v : severity) : string :=
  let n := time_reads w in
  format_header (time_source w (reading_of_hour o + n)%nat)
                (time_source w (reading_of_min o + n)%nat)
                (time_source w (reading_of_sec o + n)%nat)
                (name_of v).

(** How many events of a trace are of kind [k]. *)
Definition count (k : event -> bool) (t : list event) : nat :=
  List.length (filter k t).

(** Every character of [s] passes [p]. *)
Fixpoint every (p : ascii -> bool) (s : string) : bool :=
  match s with
  | EmptyString => true
  | String c rest => (p c && every p rest)%bool
  end.

(** What [%i] can print: the ten digits and the minus sign. *)
Definition numeral (c : ascii) : bool :=
  let n := nat_of_ascii c in
  (Nat.eqb n 45 || (Nat.leb 48 n && Nat.leb n 57))%bool.

(** Any character but the end of line. *)
Definition not_newline (c : ascii) : bool := negb (Ascii.eqb c Text.newline).

(** The two ways the archive transition throws are closed in [w]: no entry
    of the archive directory is a directory with something in it, and the
    name derived from the session file is the name of a file. *)
Definition calm (PW : bool) (w : World) : Prop :=
  (forall e, In e (entries w) -> d_type e <> directory_file true)
  /\ plain_name PW (format_new_name
                      (if writable w then Text.getline (data_of (session w)) else ""))
     = true.

(** A clock stopped at 10:30:00 on the fifth of January 2024. *)
Definition january : nat -> tm := fun _ => Build_tm 124 0 5 10 30 0.

(** An empty log of the archive directory, created and written at [stamp]. *)
Definition old_log (name : string) (stamp : Z) : dir_entry :=
  {| d_name := name; d_type := regular_file; d_created := stamp;
     d_written := stamp; d_data := "" |}.

(** An archive directory with five logs, oldest first. *)
Definition five_logs : list dir_entry :=
  [ old_log "log_2023.12.1.9-0-0.txt" 1;
    old_log "log_2023.12.2.9-0-0.txt" 2;
    old_log "log_2023.12.3.9-0-0.txt" 3;
    old_log "log_2023.12.4.9-0-0.txt" 4;
    old_log "log_2023.12.5.9-0-0.txt" 5 ].

(** The session file of the run before. *)
Definition last_session : session_file :=
  {| s_data := "Created - 2024. 1. 4. 8:15:42" ++ nl ++ nl
                 ++ "[8:15:42] <Info> - started" ++ nl;
     s_written := 6 |}.

(** The statics after [SetLevelsToDisplay(LOGLEVEL_NONE)] on a new process. *)
Definition console_off : Statics :=
  {| logLevelsToDisplay := LOGLEVEL_NONE; logLevelsToSave := LOGLEVEL_ALL;
     pastLogsToKeep := 5; shouldCreateNewFile := true; fs := None |}.

(** The calls of [std::filesystem::remove]. *)
Definition is_remove (e : event) : bool :=
  match e with ev_remove _ => true | _ => false end.

(** An archive directory with six logs, oldest first. *)
Definition six_logs : list dir_entry :=
  (five_logs ++ [old_log "log_2023.12.6.9-0-0.txt" 6])%list.

(** The first entry of a directory under a name. *)
Definition find_name (name : string) (es : list dir_entry) : option dir_entry :=
  find (fun e => String.eqb (d_name e) name) es.

(** The entry a copy of [f] makes. *)
Definition copy_of (f : session_file) (name : string) (created : Z) : dir_entry :=
  {| d_name := name; d_type := regular_file; d_created := created;
     d_written := s_written f; d_data := s_data f |}.

(** An earlier archive under the name the session file of the fourth of
    January gives, written after that session file was. *)
Definition kept : dir_entry :=
  {| d_name := "log_2024.1.4.8-15-42.txt"; d_type := regular_file; d_created := 2;
     d_written := 7; d_data := "an archive of the same name" |}.

(** One turn of the loop of [GetOldestLog] when no creation time is zero:
    the candidate [c] gives way to [e] when [e] was created before it. *)
Definition older (c e : dir_entry) : dir_entry :=
  if d_created c >? d_created e then e else c.

(** The header of a call whose first reading of the clock is the [n]-th. *)
Definition header_at (o : argument_order) (ts : nat -> tm) (n : nat)
           (v : severity) : string :=
  format_header (ts (reading_of_hour o + n)%nat) (ts (reading_of_min o + n)%nat)
                (ts (reading_of_sec o + n)%nat) (name_of v).

(** A run of logging calls, one after the other. *)
Fixpoint call_each (PW : bool) (AO : argument_order)
         (calls : list (severity * string)) : M unit :=
  match calls with
  | [] => ret tt
  | (v, message) :: rest => call PW AO v message ;; call_each PW AO rest
  end.

(** The lines of the calls of a run whose levels are in [mask], in order;
    each call reads the clock three times. *)
Fixpoint lines_in (mask : Z) (o : argument_order) (ts : nat -> tm) (n : nat)
         (calls : list (severity * string)) : list string :=
  match calls with
  | [] => []
  | (v, message) :: rest =>
      ((if Z.testbit mask (bit_of v)
        then [record_line (header_at o ts n v) message] else [])
       ++ lines_in mask o ts (S (S (S n))) rest)%list
  end.

(** Lines put end to end. *)
Fixpoint text_of (ls : list string) : string :=
  match ls with
  | [] => ""
  | l :: rest => l ++ text_of rest
  end.

(** What the archive name keeps of a first line: no white space, no colon. *)
Definition kept_in_name (c : ascii) : bool :=
  (negb (Text.isspace c) && negb (Ascii.eqb c ":"))%bool.

(** The paths given to [std::filesystem::remove], in order. *)
Definition removed (t : list event) : list string :=
  flat_map (fun e => match e with ev_remove p => [p] | _ => [] end) t.

(** No number of the banner of [t] prints with a minus sign. *)
Definition no_minus_sign (t : tm) : Prop :=
  0 <= tm_year t + 1900 /\ 0 <= tm_mon t + 1 /\ 0 <= tm_mday t
  /\ 0 <= tm_hour t /\ 0 <= tm_min t /\ 0 <= tm_sec t.

(** The ten digits. *)
Definition digit (c : ascii) : bool :=
  let n := nat_of_ascii c in (Nat.leb 48 n && Nat.leb n 57)%bool.

(** An archive directory with a subdirectory among four logs. *)
Definition with_subdirectory : list dir_entry :=
  [ old_log "log_2023.12.1.9-0-0.txt" 1;
    {| d_name := "kept aside"; d_type := directory_file false; d_created := 2;
       d_written := 2; d_data := "" |};
    old_log "log_2023.12.3.9-0-0.txt" 3;
    old_log "log_2023.12.4.9-0-0.txt" 4;
    old_log "log_2023.12.5.9-0-0.txt" 5 ].

(** The lines a run of logging calls gives to the session file, in order:
    those of the calls whose levels are in [mask].  Each call reads the
    clock three times, and the first call that writes, when the rotation
    flag is up ([fresh]), once more for the banner. *)
Fixpoint lines_of_run (mask : Z) (o : argument_order) (ts : nat -> tm) (n : nat)
         (fresh : bool) (calls : list (severity * string)) : list string :=
  match calls with
  | [] => []
  | (v, message) :: rest =>
      if Z.testbit mask (bit_of v)
      then record_line (header_at o ts n v) message
             :: lines_of_run mask o ts (S (S (S (if fresh then S n else n)))) false rest
      else lines_of_run mask o ts (S (S (S n))) fresh rest
  end.

(** The reading of the clock that dates the banner: the one that follows
    the three readings of the first call that writes. *)
Fixpoint banner_reading (mask : Z) (n : nat) (calls : list (severity * string)) : nat :=
  match calls with
  | [] => n
  | (v, _) :: rest =>
      if Z.testbit mask (bit_of v) then S (S (S n))
      else banner_reading mask (S (S (S n))) rest
  end.

(** What the copy of the session file [f] to the name [name] has made of an
    archive directory, [before] and [after] being its entries before and
    after the copy.  With [copy_options::update_existing]: when no entry
    had the name, a regular file of that name holds what [f] holds; so does
    a regular file of that name that was older than [f]; one that was not
    older is left alone, and the whole directory with it; and the entries
    under other names are the same. *)
Definition archived_as (f : session_file) (name : string)
           (before after : list dir_entry) : Prop :=
  ((forall e, In e before -> d_name e <> name) ->
   exists e, In e after /\ d_name e = name /\ d_type e = regular_file
             /\ d_data e = s_data f)
  /\ (forall e0, find_name name before = Some e0 -> d_type e0 = regular_file ->
                 d_written e0 < s_written f ->
                 exists e, In e after /\ d_name e = name /\ d_type e = regular_file
                           /\ d_data e = s_data f)
  /\ (forall e0, find_name name before = Some e0 -> d_type e0 = regular_file ->
                 s_written f <= d_written e0 -> after = before)
  /\ (forall e, d_name e <> name -> (In e after <-> In e before)).


(** An archive directory whose oldest entry is a directory with files in
    it, before five logs. *)
Definition blocked_archive : list dir_entry :=
  {| d_name := "kept by hand"; d_type := directory_file true;
     d_created := 1; d_written := 1; d_data := "" |}
  :: map (fun e => old_log (d_name e) (d_created e + 1)) five_logs.

(* ================================================================== *)
(** ** Running the class                                               *)
(* ================================================================== *)

(** *** Bits *)

Lemma land_pow2 (d k : Z) :
  0 <= k -> Z.land d (2 ^ k) = if Z.testbit d k then 2 ^ k else 0.
Proof.
  intros Hk. apply Z.bits_inj'. intros n Hn.
  rewrite Z.land_spec, Z.pow2_bits_eqb by assumption.
  destruct (Z.eqb_spec k n) as [->|Hne].
  - destruct (Z.testbit d n) eqn:E.
    + now rewrite Z.pow2_bits_true.
    + now rewrite Z.bits_0.
  - rewrite andb_false_r. destruct (Z.testbit d k).
    + symmetry. apply Z.pow2_bits_false. assumption.
    + now rewrite Z.bits_0.
Qed.

Lemma level_is_bit (v : severity) : level_of v = 2 ^ bit_of v /\ 0 <= bit_of v < 6.
Proof. destruct v; split; try reflexivity; cbn; lia. Qed.

Lemma uint_level (v : severity) : uint (level_of v) = level_of v.
Proof. destruct v; reflexivity. Qed.

Lemma mask_test (d : Z) (v : severity) :
  negb (Z.land d (uint (level_of v)) =? 0) = Z.testbit d (bit_of v).
Proof.
  destruct (level_is_bit v) as [E [H0 _]].
  rewrite uint_level, E, land_pow2 by assumption.
  destruct (Z.testbit d (bit_of v)); [|reflexivity].
  destruct (Z.eqb_spec (2 ^ bit_of v) 0) as [H|H]; [|reflexivity].
  assert (0 < 2 ^ bit_of v) by (apply Z.pow_pos_nonneg; lia). lia.
Qed.

(** *** The two loops *)

Lemma bind_returned {A B} (c : M A) (k : A -> M B) (p q : Process) (a : A) :
  c p = Returned a q -> bind c k p = k a q.
Proof. unfold bind. now intros ->. Qed.

Lemma bind_thrown {A B} (c : M A) (k : A -> M B) (p q : Process) :
  c p = Thrown q -> bind c k p = Thrown q.
Proof. unfold bind. now intros ->. Qed.

Lemma add_events_nil (p : Process) : add_events p [] = p.
Proof. destruct p; unfold add_events; cbn. now rewrite app_nil_r. Qed.

Lemma add_events_app (p : Process) (a b : list event) :
  add_events (add_events p a) b = add_events p (a ++ b).
Proof. unfold add_events; cbn. now rewrite app_assoc. Qed.

Lemma GetFileCreationTime_run (PW : bool) (path : string) (p : Process) :
  exists t notes,
    GetFileCreationTime PW path p = Returned t (add_events p notes)
    /\ Forall is_note notes
    /\ 0 <= t
    /\ (path = "" -> t = 0)
    /\ (PW = true -> notes = []).
Proof.
  unfold GetFileCreationTime, bind, get_world, ret.
  destruct (path_exists (world p) path) eqn:Hex; cbn.
  - destruct PW.
    + destruct (find_entry path (entries (world p))) as [e|] eqn:Hf.
      * exists (ulonglong (d_created e)), []. rewrite add_events_nil.
        repeat split; auto.
        -- apply Z.mod_pos_bound. reflexivity.
        -- intros ->. unfold find_entry in Hf. apply find_some in Hf.
           destruct Hf as [_ Hf]. discriminate.
      * exists 0, []. rewrite add_events_nil. repeat split; auto. lia.
    + exists 0, [ev_printf "fuck you no unix support"]. repeat split; auto.
      * repeat constructor.
      * lia.
      * discriminate.
  - exists 0, []. rewrite add_events_nil. repeat split; auto. lia.
Qed.

Lemma GetOldestLog_loop_run (PW : bool) (files : list string) :
  forall (cand : string) (p : Process),
  exists out notes,
    GetOldestLog_loop PW files cand p = Returned out (add_events p notes)
    /\ Forall is_note notes
    /\ (out = cand \/ In out files)
    /\ (PW = true -> notes = []).
Proof.
  induction files as [|file rest IH]; intros cand p.
  - exists cand, []. rewrite add_events_nil. cbn. auto.
  - cbn [GetOldestLog_loop]. unfold bind at 1.
    destruct (GetFileCreationTime_run PW cand p) as (a & n1 & E1 & F1 & _ & _ & W1).
    rewrite E1. unfold bind at 1.
    destruct (GetFileCreationTime_run PW file (add_events p n1))
      as (b & n2 & E2 & F2 & _ & _ & W2).
    rewrite E2, add_events_app. unfold bind at 1.
    destruct (a >? b).
    + unfold ret at 1.
      destruct (IH file (add_events p (n1 ++ n2))) as (out & n3 & E3 & F3 & O3 & W3).
      rewrite E3, add_events_app. exists out, ((n1 ++ n2) ++ n3)%list.
      repeat split.
      * repeat (apply Forall_app; split); assumption.
      * right. destruct O3; [left; congruence | right; assumption].
      * intros H. now rewrite W1, W2, W3.
    + unfold bind at 1.
      destruct (GetFileCreationTime_run PW cand (add_events p (n1 ++ n2)))
        as (c & n3 & E3 & F3 & _ & _ & W3).
      rewrite E3, add_events_app. unfold ret at 1.
      destruct (IH (if c =? 0 then file else cand) (add_events p ((n1 ++ n2) ++ n3)))
        as (out & n4 & E4 & F4 & O4 & W4).
      rewrite E4, add_events_app. exists out, (((n1 ++ n2) ++ n3) ++ n4)%list.
      repeat split.
      * repeat (apply Forall_app; split); assumption.
      * destruct O4 as [O4|O4]; [|right; right; assumption].
        destruct (c =? 0); [right; left; congruence | left; assumption].
      * intros H. now rewrite W1, W2, W3, W4.
Qed.

Lemma GetOldestLog_run (PW : bool) (p : Process) (d : logs_dir) (es : list dir_entry) :
  logs (world p) = Some d -> past_logs d = Some es ->
  exists out notes,
    GetOldestLog PW p = Returned out (add_events p notes)
    /\ Forall is_note notes
    /\ (es = [] -> out = "")
    /\ (es <> [] -> In out (map entry_path es))
    /\ (PW = true -> notes = []).
Proof.
  intros Hl Hp.
  unfold GetOldestLog, directory_iterator, bind at 1 2, get_world. cbn.
  rewrite Hl, Hp. unfold ret at 1.
  destruct es as [|e rest].
  - exists "", []. rewrite add_events_nil. cbn. repeat split; auto.
  - cbn [map GetOldestLog_loop]. unfold bind at 1.
    destruct (GetFileCreationTime_run PW "" p) as (a & n1 & E1 & F1 & _ & Z1 & W1).
    rewrite E1. unfold bind at 1.
    destruct (GetFileCreationTime_run PW (entry_path e) (add_events p n1))
      as (b & n2 & E2 & F2 & B2 & _ & W2).
    rewrite E2, add_events_app. unfold bind at 1.
    rewrite (Z1 eq_refl).
    replace (0 >? b) with false
      by (symmetry; rewrite Z.gtb_ltb; apply Z.ltb_ge; exact B2).
    unfold bind at 1.
    destruct (GetFileCreationTime_run PW "" (add_events p (n1 ++ n2)))
      as (c & n3 & E3 & F3 & _ & Z3 & W3).
    rewrite E3, add_events_app, (Z3 eq_refl). unfold ret at 1. cbn [Z.eqb].
    destruct (GetOldestLog_loop_run PW (map entry_path rest) (entry_path e)
                (add_events p ((n1 ++ n2) ++ n3))) as (out & n4 & E4 & F4 & O4 & W4).
    rewrite E4, add_events_app.
    exists out, (((n1 ++ n2) ++ n3) ++ n4)%list. repeat split.
    + repeat (apply Forall_app; split); assumption.
    + discriminate.
    + intros _. destruct O4 as [->|O4]; [left; reflexivity | right; exact O4].
    + intros H. now rewrite W1, W2, W3, W4.
Qed.

Lemma CountFiles_loop_count (es : list dir_entry) :
  forall c, 0 <= c -> c + Z.of_nat (List.length es) < 2 ^ 32 ->
  CountFiles_loop es c = c + Z.of_nat (List.length (regular_files es)).
Proof.
  induction es as [|e rest IH]; intros c H0 Hb.
  - cbn. lia.
  - cbn [CountFiles_loop regular_files filter]. cbn [List.length] in Hb.
    destruct (is_regular_file e).
    + unfold uint. rewrite Z.mod_small by lia.
      fold (regular_files rest). rewrite IH by lia. cbn [List.length]. lia.
    + fold (regular_files rest). apply IH; lia.
Qed.

(** *** The archive transition, block by block *)

Lemma remove_oldest_if_full_run (PW : bool) s l es wr ft ts n tr :
  let p := {| statics := s; world := settled l es wr ft ts n; trace := tr |} in
  exists out notes,
    Forall is_note notes
    /\ (es = [] -> out = "")
    /\ (es <> [] -> In out (map entry_path es))
    /\ (PW = true -> notes = [])
    /\ remove_oldest_if_full PW p =
       if is_full s es then
         let pre := (notes ++ [ev_printf (notice out); ev_remove out])%list in
         match without out es with
         | Some es1 =>
             Returned tt {| statics := s; world := settled l es1 wr ft ts n;
                            trace := (tr ++ pre)%list |}
         | None => Thrown (add_events p pre)
         end
       else Returned tt p.
Proof.
  intros p.
  destruct (GetOldestLog_run PW p {| latest_log := l; past_logs := Some es |} es
              eq_refl eq_refl) as (out & notes & E & F & O1 & O2 & W).
  exists out, notes. repeat split; try assumption.
  unfold remove_oldest_if_full, CountFiles, directory_iterator, is_full.
  cbn -[GetOldestLog Z.geb CountFiles_loop].
  destruct (CountFiles_loop es 0 >=? pastLogsToKeep s); [|reflexivity].
  cbn -[GetOldestLog]. fold p. rewrite (bind_returned _ _ _ _ _ E).
  unfold without, remove, printf, emit, add_events, bind, get_world. cbn.
  destruct (find_entry out es) as [e|]; [destruct (d_type e) as [|[|]]|];
    cbn; rewrite <- ?app_assoc; reflexivity.
Qed.

Lemma SaveLatestLog_run (PW : bool) s f es wr ft ts n tr :
  fs s = None ->
  let p := {| statics := s; world := settled (Some f) es wr ft ts n; trace := tr |} in
  let name := format_new_name (if wr then Text.getline (s_data f) else "") in
  let mid := [ev_open latestLogFilepath ios_in_out wr;
              ev_copy latestLogFilepath (pastLogsFilepath ++ name)] in
  exists out notes,
    Forall is_note notes
    /\ (es = [] -> out = "")
    /\ (es <> [] -> In out (map entry_path es))
    /\ (PW = true -> notes = [])
    /\ let pre := if is_full s es
                  then (notes ++ [ev_printf (notice out); ev_remove out])%list
                  else [] in
       SaveLatestLog PW p =
       match (if is_full s es then without out es else Some es) with
       | None => Thrown (add_events p pre)
       | Some es1 =>
           if plain_name PW name
           then Returned tt {| statics := s;
                               world := settled (Some f) (copy_into f name ft es1) wr ft ts n;
                               trace := (tr ++ pre ++ mid)%list |}
           else Thrown {| statics := s;
                          world := settled (Some f) es1 wr ft ts n;
                          trace := (tr ++ pre ++ mid)%list |}
       end.
Proof.
  intros Hfs p name mid.
  destruct (remove_oldest_if_full_run PW s (Some f) es wr ft ts n tr)
    as (out & notes & F & O1 & O2 & W & E).
  exists out, notes. repeat split; try assumption.
  cbv zeta in E. fold p in E.
  unfold SaveLatestLog. cbv zeta. fold p.
  rewrite (bind_returned (exists_ latestLogFilepath) _ p p true) by reflexivity.
  cbn [negb when]. rewrite (bind_returned (ret tt) _ p p tt) by reflexivity.
  assert (Rest : forall es1 tr1,
    (firstLine <- read_first_line ;;
     copy PW latestLogFilepath (pastLogsFilepath ++ format_new_name firstLine))
      {| statics := s; world := settled (Some f) es1 wr ft ts n; trace := tr1 |}
    = if plain_name PW name
      then Returned tt {| statics := s;
                          world := settled (Some f) (copy_into f name ft es1) wr ft ts n;
                          trace := (tr1 ++ mid)%list |}
      else Thrown {| statics := s;
                     world := settled (Some f) es1 wr ft ts n;
                     trace := (tr1 ++ mid)%list |}).
  { intros es1 tr1. subst name mid.
    destruct s as [dm sm k flag h]. cbn in Hfs. subst h.
    destruct wr; cbn -[format_new_name plain_name copy_into Text.getline];
      destruct (plain_name PW _); cbn -[format_new_name copy_into Text.getline];
      rewrite <- ?app_assoc; reflexivity. }
  destruct (is_full s es).
  - destruct (without out es) as [es1|].
    + rewrite (bind_returned _ _ _ _ _ E). etransitivity; [apply Rest|].
      rewrite <- !app_assoc. reflexivity.
    + rewrite (bind_thrown _ _ _ _ E). reflexivity.
  - rewrite (bind_returned _ _ _ _ _ E). etransitivity; [apply Rest|].
    cbn [app]. reflexivity.
Qed.

(** *** [LogToFile], case by case *)

Lemma LogToFile_active (PW : bool) header message s l es wr ft ts n tr :
  shouldCreateNewFile s = false -> fs s = None ->
  LogToFile PW header message
    {| statics := s; world := settled l es wr ft ts n; trace := tr |}
  = Returned tt (appended header message s l es wr ft ts n tr).
Proof.
  intros Hflag Hfs. destruct s as [dm sm k flag h]. cbn in Hflag, Hfs. subst flag h.
  unfold appended, muted.
  destruct wr, l as [f|];
    cbn -[record_line]; rewrite <- ?app_assoc; reflexivity.
Qed.

Lemma LogToFile_fresh (PW : bool) header message s l es wr ft ts n tr :
  shouldCreateNewFile s = true -> fs s = None ->
  let p := {| statics := s; world := settled l es wr ft ts n; trace := tr |} in
  let name := format_new_name (if wr then Text.getline (data_of l) else "") in
  let mid := [ev_open latestLogFilepath ios_in_out wr;
              ev_copy latestLogFilepath (pastLogsFilepath ++ name)] in
  exists out notes,
    Forall is_note notes
    /\ (es = [] -> out = "")
    /\ (es <> [] -> In out (map entry_path es))
    /\ (PW = true -> notes = [])
    /\ let pre := if is_full s es
                  then (notes ++ [ev_printf (notice out); ev_remove out])%list
                  else [] in
       LogToFile PW header message p =
       match l with
       | None => Returned tt (started header message s None es wr ft ts n tr)
       | Some f =>
           match (if is_full s es then without out es else Some es) with
           | None => Thrown (add_events p pre)
           | Some es1 =>
               if plain_name PW name
               then Returned tt (started header message s (Some f)
                                   (copy_into f name ft es1) wr ft ts n
                                   (tr ++ pre ++ mid))
               else Thrown {| statics := s;
                              world := settled (Some f) es1 wr ft ts n;
                              trace := (tr ++ pre ++ mid)%list |}
           end
       end.
Proof.
  intros Hflag Hfs p name mid.
  destruct l as [f|].
  - destruct (SaveLatestLog_run PW s f es wr ft ts n tr Hfs)
      as (out & notes & F & O1 & O2 & W & E).
    exists out, notes. repeat split; try assumption.
    subst name mid. cbn [data_of]. cbv zeta in E |- *. fold p in E.
    remember (format_new_name (if wr then Text.getline (s_data f) else "")) as nm.
    unfold LogToFile, bind.
    cbn -[SaveLatestLog fs_open set_shouldCreateNewFile GetTime fs_insert fs_is_open
          fs_close SetLevelsToSave].
    rewrite Hflag.
    cbn -[SaveLatestLog fs_open set_shouldCreateNewFile GetTime fs_insert fs_is_open
          fs_close SetLevelsToSave].
    fold p. rewrite E.
    destruct (if is_full s es then without out es else Some es) as [es1|];
      [|reflexivity].
    destruct (plain_name PW nm); [|reflexivity].
    destruct s as [dm sm k flag h]. cbn in Hflag, Hfs. subst flag h.
    unfold started, muted, flipped.
    clear. destruct wr; cbn -[record_line creation_banner nl];
      rewrite <- ?app_assoc; reflexivity.
  - destruct (GetOldestLog_run PW p {| latest_log := None; past_logs := Some es |} es
                eq_refl eq_refl) as (out & notes & _ & F & O1 & O2 & W).
    exists out, notes. repeat split; try assumption.
    cbv zeta. subst p name mid.
    destruct s as [dm sm k flag h]. cbn in Hflag, Hfs. subst flag h.
    unfold started, muted, flipped.
    clear. destruct wr; cbn -[record_line creation_banner nl];
      rewrite <- ?app_assoc; reflexivity.
Qed.

Lemma settle_shape (w : World) :
  settle w = settled (session w) (entries w) (writable w) (file_time w)
                     (time_source w) (time_reads w).
Proof.
  destruct w as [[[l [es|]]|] wr ft ts n]; reflexivity.
Qed.

Lemma LogToFile_boot (PW : bool) header message s w tr :
  LogToFile PW header message {| statics := s; world := w; trace := tr |}
  = LogToFile PW header message
      {| statics := s; world := settle w; trace := (tr ++ boot_events w)%list |}.
Proof.
  destruct w as [[[l [es|]]|] wr ft ts n].
  - unfold boot_events, settle. cbn. now rewrite app_nil_r.
  - unfold LogToFile, bind, boot_events, settle.
    cbn -[SaveLatestLog fs_open set_shouldCreateNewFile GetTime fs_insert fs_is_open
          fs_close SetLevelsToSave].
    rewrite <- app_assoc. reflexivity.
  - unfold LogToFile, bind, boot_events, settle.
    cbn -[SaveLatestLog fs_open set_shouldCreateNewFile GetTime fs_insert fs_is_open
          fs_close SetLevelsToSave].
    rewrite <- app_assoc. reflexivity.
Qed.

Lemma LogToFile_run (PW : bool) header message s w tr :
  fs s = None ->
  exists out notes,
    Forall is_note notes
    /\ (entries w = [] -> out = "")
    /\ (entries w <> [] -> In out (map entry_path (entries w)))
    /\ (PW = true -> notes = [])
    /\ LogToFile PW header message {| statics := s; world := w; trace := tr |}
       = LogToFile_result PW header message s (session w) (entries w) (writable w)
           (file_time w) (time_source w) (time_reads w) (tr ++ boot_events w)
           out notes.
Proof.
  intros Hfs. rewrite LogToFile_boot, settle_shape.
  set (es := entries w). set (l := session w). set (tr1 := (tr ++ boot_events w)%list).
  unfold LogToFile_result.
  destruct (shouldCreateNewFile s) eqn:Hflag.
  - destruct (LogToFile_fresh PW header message s l es (writable w) (file_time w)
                (time_source w) (time_reads w) tr1 Hflag Hfs)
      as (out & notes & F & O1 & O2 & W & E).
    exists out, notes. repeat split; try assumption.
    cbv zeta in E. rewrite E. destruct l as [f|]; reflexivity.
  - destruct (GetOldestLog_run PW {| statics := s; world := settled l es (writable w)
                (file_time w) (time_source w) (time_reads w); trace := tr1 |}
                {| latest_log := l; past_logs := Some es |} es eq_refl eq_refl)
      as (out & notes & _ & F & O1 & O2 & W).
    exists out, notes. repeat split; try assumption.
    now apply LogToFile_active.
Qed.

(** [Log], lines 119 to 132. *)
Lemma call_run (PW : bool) (AO : argument_order) (v : severity) (message : string) s w tr :
  let header := header_in AO w v in
  let shown := if Z.testbit (logLevelsToDisplay s) (bit_of v)
               then [ev_printf (record_line header message)] else [] in
  let p1 := {| statics := s; world := three_reads w; trace := (tr ++ shown)%list |} in
  call PW AO v message {| statics := s; world := w; trace := tr |}
  = if Z.testbit (logLevelsToSave s) (bit_of v)
    then LogToFile PW header message p1
    else Returned tt p1.
Proof.
  intros header shown p1.
  assert (E : call PW AO v message = Log PW AO (level_of v) (name_of v) message)
    by (destruct v; reflexivity).
  rewrite E. unfold Log, GetTime, get_world, put_world, get_statics, ret, bind.
  cbn [world statics trace logs writable file_time time_source time_reads].
  rewrite mask_test. subst p1 shown header. unfold header_in, three_reads.
  cbn [time_source time_reads].
  destruct AO; cbn [reading_of_hour reading_of_min reading_of_sec Nat.add];
  destruct (Z.testbit (logLevelsToDisplay s) (bit_of v));
    cbn [when printf emit ret world statics trace]; rewrite mask_test;
    destruct (Z.testbit (logLevelsToSave s) (bit_of v));
    cbn [when ret]; rewrite ?app_nil_r; reflexivity.
Qed.

(** *** Counting events *)

Lemma count_app (k : event -> bool) (a b : list event) :
  count k (a ++ b) = (count k a + count k b)%nat.
Proof. unfold count. now rewrite filter_app, length_app. Qed.

Lemma count_notes (k : event -> bool) (notes : list event) :
  k (ev_printf "fuck you no unix support") = false ->
  Forall is_note notes -> count k notes = 0%nat.
Proof.
  intros Hk F. induction F as [|e rest He _ IH]; [reflexivity|].
  unfold count in *. cbn [filter]. rewrite He, Hk. exact IH.
Qed.

Lemma count_boot (k : event -> bool) (w : World) :
  k (ev_create_directory logsFilepath) = false ->
  k (ev_create_directory pastLogsFilepath) = false ->
  count k (boot_events w) = 0%nat.
Proof.
  intros H1 H2. unfold boot_events, count.
  destruct (_ && _)%bool; cbn [filter]; rewrite ?H1, ?H2; reflexivity.
Qed.

(** The events [LogToFile] adds, in the formula of [LogToFile_result]:
    what the trace ends as, whatever the outcome. *)
Lemma LogToFile_result_trace (PW : bool) header message s l es wr ft ts n tr out notes :
  exists new,
    trace (final (LogToFile_result PW header message s l es wr ft ts n tr out notes))
    = (tr ++ new)%list
    /\ (shouldCreateNewFile s = false ->
        new = if wr
              then [ev_open latestLogFilepath ios_app true;
                    ev_insert (record_line header message)]
              else [ev_open latestLogFilepath ios_app false])
    /\ (Forall is_note notes ->
        (count is_file_call new > 0)%nat
        /\ (count is_truncating_open new <= 1)%nat
        /\ (count is_copy new <= 1)%nat
        /\ (forall x, In (ev_printf x) new ->
            x = "fuck you no unix support" \/ x = notice out)).
Proof.
  unfold LogToFile_result, started, appended.
  destruct (shouldCreateNewFile s).
  - destruct l as [f|].
    + destruct (is_full s es); [destruct (without out es)|];
        try destruct (plain_name PW _); try destruct wr;
        cbn [final trace]; rewrite <- ?app_assoc; (eexists; split; [reflexivity|]);
        (split; [discriminate|]); intros F;
        rewrite ?count_app, ?(count_notes _ notes) by (reflexivity || assumption);
        cbn -[notice]; (repeat split; try lia);
        intros x Hx; rewrite ?in_app_iff in Hx; cbn in Hx;
        repeat (destruct Hx as [Hx|Hx]); try discriminate; try contradiction;
        try (injection Hx as <-; auto);
        rewrite Forall_forall in F; apply F in Hx; injection Hx as <-; auto.
    + destruct wr; cbn [final trace]; (eexists; split; [reflexivity|]);
        (split; [discriminate|]); intros F; cbn; (repeat split; try lia);
        intros x Hx; repeat (destruct Hx as [Hx|Hx]); try discriminate; contradiction.
  - destruct wr; cbn [final trace]; (eexists; split; [reflexivity|]);
      (split; [reflexivity|]); intros F; cbn; (repeat split; try lia);
      intros x Hx; repeat (destruct Hx as [Hx|Hx]); try discriminate; contradiction.
Qed.

Lemma LogToFile_result_statics (PW : bool) header message s l es wr ft ts n tr out notes q :
  LogToFile_result PW header message s l es wr ft ts n tr out notes = Returned tt q ->
  shouldCreateNewFile (statics q) = false
  /\ fs (statics q) = fs s
  /\ logLevelsToDisplay (statics q) = logLevelsToDisplay s
  /\ pastLogsToKeep (statics q) = pastLogsToKeep s
  /\ logLevelsToSave (statics q) = (if wr then logLevelsToSave s else LOGLEVEL_NONE).
Proof.
  unfold LogToFile_result, started, appended.
  destruct (shouldCreateNewFile s) eqn:Hflag.
  - destruct l as [f|];
      [destruct (if is_full s es then without out es else Some es);
       [destruct (plain_name PW _)|]|];
      try discriminate; destruct wr; intros [= <-]; cbn; auto.
  - destruct wr; intros [= <-]; cbn; auto.
Qed.

(** *** What holds of every state of a process *)

Lemma reachable_inv (PW : bool) (AO : argument_order) (p : Process) :
  reachable PW AO p ->
  fs (statics p) = None
  /\ (count is_truncating_open (trace p) <= 1)%nat
  /\ (count is_copy (trace p) <= 1)%nat
  /\ (shouldCreateNewFile (statics p) = true ->
      count is_truncating_open (trace p) = 0%nat /\ count is_copy (trace p) = 0%nat).
Proof.
  induction 1 as [w | p w _ IH | p p' r _ IH Hr].
  - cbn. repeat split; lia.
  - exact IH.
  - destruct IH as (Hfs & Ht & Hc & Hup).
    destruct r as [lv | lv | nb | v message]; cbn [serve] in Hr.
    1-3: injection Hr as <-; cbn; auto.
    destruct p as [s w tr]. cbn [statics trace] in *.
    rewrite call_run in Hr. cbv zeta in Hr.
    set (shown := if Z.testbit (logLevelsToDisplay s) (bit_of v)
                  then [ev_printf (record_line (header_in AO w v) message)] else []) in Hr.
    assert (Hq : forall k, k (ev_printf (record_line (header_in AO w v) message)) = false ->
                           count k shown = 0%nat)
      by (intros k Hk; subst shown;
          destruct (Z.testbit (logLevelsToDisplay s) (bit_of v)); unfold count;
          cbn [filter]; rewrite ?Hk; reflexivity).
    destruct (Z.testbit (logLevelsToSave s) (bit_of v)).
    + destruct (LogToFile_run PW (header_in AO w v) message s (three_reads w)
                  (tr ++ shown)%list Hfs) as (out & notes & F & _ & _ & _ & E).
      rewrite E in Hr.
      destruct (LogToFile_result_statics _ _ _ _ _ _ _ _ _ _ _ _ _ _ Hr)
        as (Hdown & Hfs' & _).
      destruct (LogToFile_result_trace PW (header_in AO w v) message s
                  (session (three_reads w)) (entries (three_reads w))
                  (writable (three_reads w)) (file_time (three_reads w))
                  (time_source (three_reads w)) (time_reads (three_reads w))
                  ((tr ++ shown) ++ boot_events (three_reads w))%list out notes)
        as (new & Htr & Hact & Hcnt).
      rewrite Hr in Htr. cbn [final] in Htr.
      destruct (Hcnt F) as (_ & Hn1 & Hn2 & _).
      rewrite Hdown, Hfs', Htr, !count_app, !Hq, !count_boot by reflexivity.
      repeat split; try assumption; try discriminate.
      * destruct (shouldCreateNewFile s) eqn:Hflag.
        -- destruct (Hup eq_refl) as [-> _]. lia.
        -- rewrite (Hact eq_refl). destruct (writable (three_reads w)); cbn; lia.
      * destruct (shouldCreateNewFile s) eqn:Hflag.
        -- destruct (Hup eq_refl) as [_ ->]. lia.
        -- rewrite (Hact eq_refl). destruct (writable (three_reads w)); cbn; lia.
    + injection Hr as <-. cbn [statics trace].
      rewrite !count_app, !Hq by reflexivity.
      repeat split; try assumption; try lia;
        match goal with H : shouldCreateNewFile s = true |- _ => destruct (Hup H) end;
        lia.
Qed.

Lemma land_level (d : Z) (v : severity) :
  Z.land d (level_of v) <> 0 <-> Z.testbit d (bit_of v) = true.
Proof.
  rewrite <- mask_test, uint_level.
  destruct (Z.eqb_spec (Z.land d (level_of v)) 0) as [E|E]; cbn; split;
    intros H; congruence.
Qed.

(** The line of a call differs from everything else the class prints. *)
Lemma record_line_not_chatter (AO : argument_order) (w : World) (v : severity)
      (message out : string) :
  record_line (header_in AO w v) message <> "fuck you no unix support"
  /\ record_line (header_in AO w v) message <> notice out.
Proof. split; discriminate. Qed.

(* ================================================================== *)
(** ** The configuration setters                                       *)
(* ================================================================== *)

(** C10.  Each of the three setters writes its own static member and nothing
    else: [SetLevelsToDisplay] only [logLevelsToDisplay], [SetLevelsToSave]
    only [logLevelsToSave], [SetNumberOfFilesToSave] only [pastLogsToKeep].
    The other two members, the rotation flag [shouldCreateNewFile], the
    stream, the world and the trace are those of before; the three paths are
    constants of the class and no state at all. *)
Theorem setters_frame (v : Z) (p : Process) :
  (exists s',
      SetLevelsToDisplay v p
      = Returned tt {| statics := s'; world := world p; trace := trace p |}
      /\ logLevelsToDisplay s' = uint v
      /\ logLevelsToSave s' = logLevelsToSave (statics p)
      /\ pastLogsToKeep s' = pastLogsToKeep (statics p)
      /\ shouldCreateNewFile s' = shouldCreateNewFile (statics p)
      /\ fs s' = fs (statics p))
  /\ (exists s',
      SetLevelsToSave v p
      = Returned tt {| statics := s'; world := world p; trace := trace p |}
      /\ logLevelsToSave s' = uint v
      /\ logLevelsToDisplay s' = logLevelsToDisplay (statics p)
      /\ pastLogsToKeep s' = pastLogsToKeep (statics p)
      /\ shouldCreateNewFile s' = shouldCreateNewFile (statics p)
      /\ fs s' = fs (statics p))
  /\ (exists s',
      SetNumberOfFilesToSave v p
      = Returned tt {| statics := s'; world := world p; trace := trace p |}
      /\ pastLogsToKeep s' = uint v
      /\ logLevelsToDisplay s' = logLevelsToDisplay (statics p)
      /\ logLevelsToSave s' = logLevelsToSave (statics p)
      /\ shouldCreateNewFile s' = shouldCreateNewFile (statics p)
      /\ fs s' = fs (statics p)).
Proof.
  repeat split; eexists; (split; [reflexivity|]); cbn; auto.
Qed.

(* ================================================================== *)
(** ** The level filter                                                *)
(* ================================================================== *)

(** What [LogToFile] adds to the trace, in the formula of
    [LogToFile_result]: the console gets nothing but the lines of the
    archive transition, and only on a first file write that finds a session
    file; and when the session file opens and the call returns, the line is
    inserted and is the end of the session file. *)
Lemma Returned_inj {A} (a b : A) (p q : Process) :
  Returned a p = Returned b q -> p = q.
Proof. now intros [= _ ->]. Qed.

Lemma LogToFile_result_new (PW : bool) header message s l es wr ft ts n tr out notes :
  Forall is_note notes ->
  exists new,
    trace (final (LogToFile_result PW header message s l es wr ft ts n tr out notes))
    = (tr ++ new)%list
    /\ (forall x, In (ev_printf x) new ->
        (x = "fuck you no unix support" \/ x = notice out)
        /\ shouldCreateNewFile s = true /\ l <> None)
    /\ (wr = true ->
        forall q,
          LogToFile_result PW header message s l es wr ft ts n tr out notes
          = Returned tt q ->
          In (ev_insert (record_line header message)) new
          /\ exists before,
               data_of (session (world q)) = before ++ record_line header message).
Proof.
  intros F.
  assert (Hn : forall x, In (ev_printf x) notes -> x = "fuck you no unix support").
  { intros x H. rewrite Forall_forall in F. apply F in H. now injection H. }
  unfold LogToFile_result, started, appended.
  destruct (shouldCreateNewFile s).
  - destruct l as [f|].
    + destruct (is_full s es); [destruct (without out es)|];
        try destruct (plain_name PW _); destruct wr;
        cbn [final trace]; rewrite <- ?app_assoc; (eexists; split; [reflexivity|]);
        (split;
         [ intros x Hx; rewrite ?in_app_iff in Hx; cbn [In] in Hx;
           (split; [|split; [reflexivity | discriminate]]);
           repeat (destruct Hx as [Hx|Hx]); try discriminate; try contradiction;
           try (injection Hx as <-); auto
         | intros Hw q Hq; try discriminate; apply Returned_inj in Hq; subst q;
           (split; [rewrite ?in_app_iff; cbn [In]; auto 10|]);
           cbn [world session settled logs latest_log data_of s_data];
           eexists; reflexivity ]).
    + destruct wr; cbn [final trace]; (eexists; split; [reflexivity|]);
        (split;
         [ intros x Hx; cbn [In] in Hx;
           repeat (destruct Hx as [Hx|Hx]); try discriminate; contradiction
         | intros Hw q Hq; try discriminate; apply Returned_inj in Hq; subst q;
           (split; [rewrite ?in_app_iff; cbn [In]; auto|]);
           cbn [world session settled logs latest_log data_of s_data];
           eexists; reflexivity ]).
  - destruct wr; cbn [final trace]; (eexists; split; [reflexivity|]);
      (split;
       [ intros x Hx; cbn [In] in Hx;
         repeat (destruct Hx as [Hx|Hx]); try discriminate; contradiction
       | intros Hw q Hq; try discriminate; apply Returned_inj in Hq; subst q;
         (split; [rewrite ?in_app_iff; cbn [In]; auto|]);
           cbn [world session settled logs latest_log data_of s_data];
           eexists; reflexivity ]).
Qed.

Lemma session_three_reads (w : World) : session (three_reads w) = session w.
Proof. now destruct w. Qed.

(** C5, as stated, fails.  Display mask [NONE] and persist mask [ALL] on a
    new process, a session file that cannot be opened and five logs in the
    archive directory.  The level is in the persist mask and nothing is
    persisted: nothing is inserted and the session file is what it was.  The
    level is not in the display mask and the console is written to: the
    line of line 190.  And with a session file that opens, in an archive
    directory whose oldest entry [remove] refuses, the call throws and
    nothing is persisted either. *)
Lemma level_filter_counterexample :
  let p := {| statics := console_off;
              world := settled (Some last_session) five_logs false 9 january 0;
              trace := [] |} in
  let p' := {| statics := console_off;
               world := settled (Some last_session) blocked_archive true 9 january 0;
               trace := [] |} in
  reachable true sec_min_hour p
  /\ reachable true sec_min_hour p'
  /\ Z.land (logLevelsToDisplay console_off) (level_of SevInfo) = 0
  /\ Z.land (logLevelsToSave console_off) (level_of SevInfo) <> 0
  /\ (exists q,
         call true sec_min_hour SevInfo "hello" p = Returned tt q
         /\ console (trace q)
            = ["Maximum number of past logs reached, removing: "
                 ++ "./logs/past_logs/log_2023.12.1.9-0-0.txt" ++ nl]
         /\ count is_insert (trace q) = 0%nat
         /\ session (world q) = session (world p))
  /\ (exists q',
         call true sec_min_hour SevInfo "hello" p' = Thrown q'
         /\ count is_insert (trace q') = 0%nat
         /\ session (world q') = session (world p')).
Proof.
  intros p p'.
  assert (Hreach : forall w, reachable true sec_min_hour
                               {| statics := console_off; world := w; trace := [] |}).
  { intros w.
    apply (reach_serve true sec_min_hour
             {| statics := initial; world := w; trace := [] |} _
             (SetDisplay LOGLEVEL_NONE)); [apply reach_start | reflexivity]. }
  split; [apply Hreach|]. split; [apply Hreach|].
  split; [reflexivity|]. split; [discriminate|]. split.
  - eexists. split; [vm_compute; reflexivity|].
    split; [reflexivity|]. split; reflexivity.
  - eexists. split; [vm_compute; reflexivity|]. split; reflexivity.
Qed.

(** C5, amended.  For each of the six levels and any two masks, a logging
    call prints its own line on the console if and only if the display mask
    and the level have a bit in common; anything else it prints comes from
    the archive transition, on a first file write that finds a session
    file.  It goes to the file system (that is, enters [LogToFile]) if and
    only if the persist mask and the level have a bit in common: without a
    common bit it makes no call to the file system and leaves [./logs] as it
    is, and with one, when the session file opens and the call returns, its
    line has been inserted and is the end of the session file.  Each test reads one mask only, so
    neither decision depends on the other mask; and "a bit in common" is:
    the bit of the level is set in the mask.  The stream is closed, as it is
    between any two calls. *)
Theorem level_filter (PW : bool) (AO : argument_order) (v : severity)
        (message : string) (p : Process) :
  fs (statics p) = None ->
  let display := logLevelsToDisplay (statics p) in
  let save := logLevelsToSave (statics p) in
  let line := record_line (header_in AO (world p) v) message in
  let r := call PW AO v message p in
  exists new,
    trace (final r) = (trace p ++ new)%list
    /\ (In (ev_printf line) new <-> Z.land display (level_of v) <> 0)
    /\ (forall x, In (ev_printf x) new -> x <> line ->
        Z.land save (level_of v) <> 0
        /\ shouldCreateNewFile (statics p) = true /\ session (world p) <> None)
    /\ ((count is_file_call new > 0)%nat <-> Z.land save (level_of v) <> 0)
    /\ (Z.land save (level_of v) = 0 -> logs (world (final r)) = logs (world p))
    /\ (In (ev_insert line) new -> Z.land save (level_of v) <> 0)
    /\ (Z.land save (level_of v) <> 0 -> writable (world p) = true ->
        forall q, r = Returned tt q ->
          In (ev_insert line) new
          /\ exists before, data_of (session (world q)) = before ++ line)
    /\ (Z.land display (level_of v) <> 0 <-> Z.testbit display (bit_of v) = true)
    /\ (Z.land save (level_of v) <> 0 <-> Z.testbit save (bit_of v) = true).
Proof.
  intros Hfs display save line r. destruct p as [s w tr].
  cbn [statics world trace] in *. subst display save r.
  assert (Hd := land_level (logLevelsToDisplay s) v).
  assert (Hs := land_level (logLevelsToSave s) v).
  rewrite call_run. cbv zeta. fold line.
  set (shown := if Z.testbit (logLevelsToDisplay s) (bit_of v)
                then [ev_printf line] else []).
  assert (Hshown : forall x, In (ev_printf x) shown ->
                             x = line /\ Z.testbit (logLevelsToDisplay s) (bit_of v) = true).
  { intros x. subst shown.
    destruct (Z.testbit (logLevelsToDisplay s) (bit_of v)); cbn [In];
      [intros [H|[]]; injection H as <-; auto | contradiction]. }
  assert (Hboot : forall e, In e (boot_events (three_reads w)) ->
                            exists d, e = ev_create_directory d).
  { intros e. unfold boot_events. destruct (_ && _)%bool; cbn [In];
      intros H; repeat (destruct H as [<-|H]); try contradiction; eexists; reflexivity. }
  destruct (Z.testbit (logLevelsToSave s) (bit_of v)) eqn:Hsave.
  - destruct (LogToFile_run PW (header_in AO w v) message s (three_reads w)
                (tr ++ shown)%list Hfs) as (out & notes & F & _ & _ & _ & E).
    rewrite E.
    destruct (LogToFile_result_new PW (header_in AO w v) message s
                (session (three_reads w)) (entries (three_reads w))
                (writable (three_reads w)) (file_time (three_reads w))
                (time_source (three_reads w)) (time_reads (three_reads w))
                ((tr ++ shown) ++ boot_events (three_reads w))%list out notes F)
      as (new & Htr & Hprint & Hins).
    fold line in Hins.
    assert (Hcalls : (count is_file_call new > 0)%nat).
    { destruct (LogToFile_result_trace PW (header_in AO w v) message s
                  (session (three_reads w)) (entries (three_reads w))
                  (writable (three_reads w)) (file_time (three_reads w))
                  (time_source (three_reads w)) (time_reads (three_reads w))
                  ((tr ++ shown) ++ boot_events (three_reads w))%list out notes)
        as (new2 & Htr2 & _ & Hcnt).
      rewrite Htr in Htr2. apply app_inv_head in Htr2. subst new2.
      now destruct (Hcnt F). }
    exists (shown ++ boot_events (three_reads w) ++ new)%list.
    rewrite Htr, <- !app_assoc. split; [reflexivity|].
    split; [|split; [|split; [|split; [|split; [|split; [|split; assumption]]]]]].
    + rewrite Hd, !in_app_iff. split.
      * intros [H|[H|H]].
        -- now apply Hshown in H.
        -- apply Hboot in H. destruct H as [d H]. discriminate.
        -- destruct (record_line_not_chatter AO w v message out) as [N1 N2].
           fold line in N1, N2. destruct (Hprint _ H) as [[K|K] _]; contradiction.
      * intros H. left. subst shown. rewrite H. now left.
    + intros x Hx Hne. rewrite !in_app_iff in Hx. destruct Hx as [H|[H|H]].
      * apply Hshown in H. now destruct H.
      * apply Hboot in H. destruct H as [d H]. discriminate.
      * destruct (Hprint _ H) as (_ & Hflag & Hl).
        rewrite session_three_reads in Hl.
        split; [now apply Hs | auto].
    + split; [intros _; now apply Hs | intros _; rewrite !count_app; lia].
    + intros H. now destruct (proj2 Hs eq_refl).
    + intros _. now apply Hs.
    + intros _ Hw q Hq. rewrite app_assoc in Hq.
      assert (Hw' : writable (three_reads w) = true) by (now destruct w).
      destruct (Hins Hw' q Hq) as [H1 H2]. split; [|exact H2].
      rewrite !in_app_iff. auto.
  - exists shown. cbn [final trace world].
    split; [reflexivity|].
    split; [|split; [|split; [|split; [|split; [|split; [|split; assumption]]]]]].
    + rewrite Hd. split.
      * intros H. now apply Hshown in H.
      * intros H. subst shown. rewrite H. now left.
    + intros x Hx Hne. apply Hshown in Hx. now destruct Hx.
    + assert (Hnone : count is_file_call shown = 0%nat)
        by (subst shown; now destruct (Z.testbit (logLevelsToDisplay s) (bit_of v))).
      rewrite Hnone. split; [lia | intros H; apply Hs in H; discriminate].
    + intros _. now destruct w.
    + intros H. subst shown.
      destruct (Z.testbit (logLevelsToDisplay s) (bit_of v)); cbn [In] in H;
        repeat (destruct H as [H|H]); try discriminate; contradiction.
    + intros H. apply Hs in H. discriminate.
Qed.

(** The theorem at work: [Warning] on a fresh process, at 10:30:00. *)
Lemma level_filter_witness :
  let p := {| statics := initial; world := settled None [] true 0 january 0;
              trace := [] |} in
  exists new,
    trace (final (call true sec_min_hour SevWarning "disk is nearly full" p))
    = (trace p ++ new)%list
    /\ In (ev_printf ("[10:30:0] <Warning> - disk is nearly full" ++ nl)) new
    /\ In (ev_insert ("[10:30:0] <Warning> - disk is nearly full" ++ nl)) new.
Proof.
  intros p.
  destruct (level_filter true sec_min_hour SevWarning "disk is nearly full" p eq_refl)
    as (new & H1 & H2 & _ & _ & _ & _ & H6 & _).
  exists new. split; [exact H1|]. split.
  - apply H2. discriminate.
  - apply (H6 ltac:(discriminate) eq_refl
              (final (call true sec_min_hour SevWarning "disk is nearly full" p))
              eq_refl).
Defined.

(* ================================================================== *)
(** ** A session file that does not open                               *)
(* ================================================================== *)



(* ================================================================== *)
(** ** Text                                                            *)
(* ================================================================== *)

Lemma every_app (p : ascii -> bool) (a b : string) :
  every p (a ++ b) = (every p a && every p b)%bool.
Proof.
  induction a as [|c a IH]; cbn; [reflexivity|]. now rewrite IH, andb_assoc.
Qed.

Lemma every_weaken (p q : ascii -> bool) (s : string) :
  (forall c, p c = true -> q c = true) -> every p s = true -> every q s = true.
Proof.
  intros Hpq. induction s as [|c s IH]; cbn; [reflexivity|].
  rewrite !andb_true_iff. intros [Hc Hs]. auto.
Qed.

Lemma numeral_facts (c : ascii) :
  numeral c = true ->
  not_newline c = true /\ Text.isspace c = false /\ Ascii.eqb c ":" = false.
Proof.
  destruct c as [[|] [|] [|] [|] [|] [|] [|] [|]]; cbn; intros H;
    try discriminate; repeat split.
Qed.

Lemma uint_numeral (d : Decimal.uint) :
  every numeral (NilEmpty.string_of_uint d) = true.
Proof. induction d; cbn; auto. Qed.

Lemma fmt_i_numeral (z : Z) : every numeral (Text.fmt_i z) = true.
Proof.
  assert (H : forall d, every numeral (NilZero.string_of_uint d) = true)
    by (intros d; destruct d; try reflexivity; apply uint_numeral).
  unfold Text.fmt_i, NilZero.string_of_int.
  destruct (Z.to_int z) as [d|d]; [apply H|].
  cbn [every]. now rewrite H.
Qed.

Lemma getline_app (a b : string) :
  every not_newline a = true -> Text.getline (a ++ String Text.newline b) = a.
Proof.
  induction a as [|c a IH]; cbn -[Text.newline].
  - intros _. now rewrite Ascii.eqb_refl.
  - unfold not_newline at 1. rewrite andb_true_iff, negb_true_iff.
    intros [-> Ha]. now rewrite IH.
Qed.

Lemma remove_if_app (p : ascii -> bool) (a b : string) :
  Text.remove_if p (a ++ b) = Text.remove_if p a ++ Text.remove_if p b.
Proof.
  induction a as [|c a IH]; cbn; [reflexivity|]. rewrite IH. now destruct (p c).
Qed.

Lemma replace_app (x y : ascii) (a b : string) :
  Text.replace x y (a ++ b) = Text.replace x y a ++ Text.replace x y b.
Proof. induction a as [|c a IH]; cbn; [reflexivity|]. now rewrite IH. Qed.

Lemma remove_if_numeral (s : string) :
  every numeral s = true -> Text.remove_if Text.isspace s = s.
Proof.
  induction s as [|c s IH]; cbn -[Text.isspace]; [reflexivity|].
  rewrite andb_true_iff. intros [Hc Hs].
  destruct (numeral_facts c Hc) as (_ & -> & _). now rewrite IH.
Qed.

Lemma replace_numeral (s : string) :
  every numeral s = true -> Text.replace ":" "-" s = s.
Proof.
  induction s as [|c s IH]; cbn; [reflexivity|].
  rewrite andb_true_iff. intros [Hc Hs].
  destruct (numeral_facts c Hc) as (_ & _ & ->). now rewrite IH.
Qed.

Lemma append_assoc (a b c : string) : (a ++ b) ++ c = a ++ (b ++ c).
Proof. induction a as [|x a IH]; cbn; [reflexivity|]. now rewrite IH. Qed.

Lemma append_empty_r (s : string) : s ++ "" = s.
Proof. induction s as [|c s IH]; cbn; [reflexivity|]. now rewrite IH. Qed.

(** The banner is one line: what [std::getline] reads back from a session
    file this class started is the banner. *)
Lemma banner_first_line (t : tm) (rest : string) :
  Text.getline ((creation_banner t ++ nl ++ nl) ++ rest) = creation_banner t.
Proof.
  unfold nl. rewrite append_assoc. cbn [append].
  apply getline_app. unfold creation_banner.
  repeat (rewrite every_app; apply andb_true_iff; split);
    try reflexivity;
    apply (every_weaken numeral); try apply fmt_i_numeral;
    intros c Hc; apply (numeral_facts c Hc).
Qed.

(** The name the archive transition makes out of the banner of line 154,
    whatever the date: the ten characters dropped are the label
    [Created - ], what is left is the date with its blanks gone and its
    colons turned into hyphens. *)
Lemma format_new_name_banner (t : tm) :
  format_new_name (creation_banner t)
  = "log_" ++ Text.fmt_i (tm_year t + 1900) ++ "." ++ Text.fmt_i (tm_mon t + 1)
      ++ "." ++ Text.fmt_i (tm_mday t) ++ "." ++ Text.fmt_i (tm_hour t)
      ++ "-" ++ Text.fmt_i (tm_min t) ++ "-" ++ Text.fmt_i (tm_sec t) ++ ".txt".
Proof.
  unfold format_new_name, creation_banner. cbn [append Text.erase_front].
  repeat first
    [ rewrite remove_if_app, remove_if_numeral by apply fmt_i_numeral
    | rewrite remove_if_numeral by apply fmt_i_numeral
    | progress cbn [Text.remove_if]
    | match goal with
      | |- context [Text.isspace ?c] =>
          let b := eval vm_compute in (Text.isspace c) in
          change (Text.isspace c) with b
      end
    | progress cbv iota ].
  repeat first
    [ rewrite replace_app, replace_numeral by apply fmt_i_numeral
    | rewrite replace_numeral by apply fmt_i_numeral
    | progress cbn [Text.replace Ascii.eqb Bool.eqb] ].
  repeat first [ rewrite append_assoc | progress cbn [append] ].
  reflexivity.
Qed.

(* ================================================================== *)
(** ** When a transition cannot throw                                  *)
(* ================================================================== *)

Lemma without_some (out : string) (es : list dir_entry) :
  (forall e, In e es -> d_type e <> directory_file true) ->
  without out es = Some (if is_some (find_entry out es) then remove_first out es else es).
Proof.
  intros H. unfold without. destruct (find_entry out es) as [e|] eqn:Hf; [|reflexivity].
  apply find_some in Hf. destruct Hf as [Hin _]. specialize (H e Hin).
  destruct (d_type e) as [|[|]]; try reflexivity. now elim H.
Qed.

Lemma LogToFile_returns (PW : bool) header message s w tr :
  fs s = None -> calm PW w ->
  exists q, LogToFile PW header message {| statics := s; world := w; trace := tr |}
            = Returned tt q.
Proof.
  intros Hfs [Hdir Hname].
  destruct (LogToFile_run PW header message s w tr Hfs)
    as (out & notes & _ & _ & _ & _ & E).
  rewrite E. unfold LogToFile_result.
  destruct (shouldCreateNewFile s); [|eexists; reflexivity].
  destruct (session w) as [f|]; [|eexists; reflexivity].
  cbn [data_of] in Hname. rewrite Hname.
  destruct (is_full s (entries w)); [rewrite (without_some _ _ Hdir)|];
    eexists; reflexivity.
Qed.

Lemma calm_three_reads (PW : bool) (w : World) : calm PW w -> calm PW (three_reads w).
Proof. destruct w; exact (fun H => H). Qed.

(* ================================================================== *)
(** ** What the session file holds                                     *)
(* ================================================================== *)

(** The first file write of a process, when the session file opens and the
    archive transition cannot throw. *)
Lemma LogToFile_first (PW : bool) header message s w tr :
  fs s = None -> shouldCreateNewFile s = true -> writable w = true -> calm PW w ->
  exists es' tr',
    LogToFile PW header message {| statics := s; world := w; trace := tr |}
    = Returned tt
        {| statics := flipped s;
           world := settled
                      (Some {| s_data := (creation_banner (time_source w (time_reads w))
                                            ++ nl ++ nl)
                                         ++ record_line header message;
                               s_written := file_time w |})
                      es' true (file_time w) (time_source w) (S (time_reads w));
           trace := tr' |}.
Proof.
  intros Hfs Hflag Hw [Hdir Hname].
  destruct (LogToFile_run PW header message s w tr Hfs)
    as (out & notes & _ & _ & _ & _ & E).
  rewrite E. unfold LogToFile_result, started. rewrite Hflag, Hw.
  destruct (session w) as [f|]; [|eexists; eexists; reflexivity].
  rewrite Hw in Hname. cbn [data_of] in Hname. rewrite Hname.
  destruct (is_full s (entries w)); [rewrite (without_some _ _ Hdir)|];
    eexists; eexists; reflexivity.
Qed.

(** A run of calls while the session file opens and nobody else touches the
    disk: what the session file holds at the end. *)
Lemma run_of_calls (PW : bool) (AO : argument_order) (calls : list (severity * string)) :
  forall (s : Statics) (w : World) (tr : list event),
    fs s = None ->
    writable w = true ->
    (shouldCreateNewFile s = true -> calm PW w) ->
    exists q,
      call_each PW AO calls {| statics := s; world := w; trace := tr |} = Returned tt q
      /\ (lines_of_run (logLevelsToSave s) AO (time_source w) (time_reads w)
                       (shouldCreateNewFile s) calls = [] ->
          session (world q) = session w)
      /\ data_of (session (world q))
         = if shouldCreateNewFile s
           then match lines_of_run (logLevelsToSave s) AO (time_source w) (time_reads w)
                                   true calls with
                | [] => data_of (session w)
                | lines =>
                    (creation_banner
                       (time_source w (banner_reading (logLevelsToSave s)
                                                      (time_reads w) calls))
                       ++ nl ++ nl) ++ text_of lines
                end
           else data_of (session w)
                  ++ text_of (lines_of_run (logLevelsToSave s) AO (time_source w)
                                           (time_reads w) false calls).
Proof.
  induction calls as [|[v message] rest IH]; intros s w tr Hfs Hw Hcalm.
  - eexists. split; [reflexivity|]. cbn [world lines_of_run text_of].
    split; [reflexivity|]. destruct (shouldCreateNewFile s); [reflexivity|].
    now rewrite append_empty_r.
  - cbn [call_each lines_of_run banner_reading].
    assert (Hcall := call_run PW AO v message s w tr). cbv zeta in Hcall.
    change (header_in AO w v) with (header_at AO (time_source w) (time_reads w) v)
      in Hcall.
    set (line := record_line (header_at AO (time_source w) (time_reads w) v) message)
      in *.
    assert (Hw3 : writable (three_reads w) = true) by (now destruct w).
    destruct (Z.testbit (logLevelsToSave s) (bit_of v)).
    + destruct (shouldCreateNewFile s) eqn:Hflag.
      * match type of Hcall with
        | _ = LogToFile _ _ _ {| statics := _; world := _; trace := ?t1 |} =>
            destruct (LogToFile_first PW
                        (header_at AO (time_source w) (time_reads w) v) message s
                        (three_reads w) t1 Hfs Hflag Hw3
                        (calm_three_reads PW w (Hcalm eq_refl))) as (es' & tr' & E)
        end.
        rewrite E in Hcall. fold line in Hcall.
        rewrite (bind_returned _ _ _ _ _ Hcall).
        match goal with
        | |- context [call_each PW AO rest {| statics := ?s1; world := ?w1; trace := ?t1 |}] =>
            destruct (IH s1 w1 t1 Hfs eq_refl ltac:(discriminate))
              as (q & Eq & _ & Hd)
        end.
        exists q. split; [exact Eq|]. split; [discriminate|].
        cbn [flipped shouldCreateNewFile logLevelsToSave session settled logs
             latest_log data_of s_data time_source time_reads three_reads] in Hd.
        rewrite Hd. cbn [text_of]. now rewrite !append_assoc.
      * rewrite LogToFile_boot, settle_shape, LogToFile_active in Hcall by assumption.
        unfold appended in Hcall. rewrite Hw3 in Hcall. fold line in Hcall.
        rewrite (bind_returned _ _ _ _ _ Hcall).
        match goal with
        | |- context [call_each PW AO rest {| statics := ?s1; world := ?w1; trace := ?t1 |}] =>
            destruct (IH s1 w1 t1 Hfs eq_refl ltac:(congruence))
              as (q & Eq & _ & Hd)
        end.
        exists q. split; [exact Eq|]. split; [discriminate|].
        rewrite Hflag in Hd.
        cbn [session settled logs latest_log data_of s_data time_source time_reads
             three_reads] in Hd.
        rewrite Hd, session_three_reads. cbn [text_of]. now rewrite !append_assoc.
    + rewrite (bind_returned _ _ _ _ _ Hcall).
      match type of Hcall with
      | _ = Returned tt {| statics := _; world := _; trace := ?t1 |} =>
          destruct (IH s (three_reads w) t1 Hfs Hw3
                      (fun H => calm_three_reads PW w (Hcalm H)))
            as (q & Eq & Hs & Hd)
      end.
      exists q. split; [exact Eq|].
      cbn [three_reads time_source time_reads] in Hs, Hd.
      rewrite session_three_reads in Hs, Hd. split; [exact Hs | exact Hd].
Qed.

(** C7, as stated, fails.  A process writes its first line, someone else
    deletes the session file, and the process writes a second line: the
    rotation flag is down, the file is opened in append mode, which creates
    it, and its first line is the line of the call, not a banner. *)
Lemma session_file_format_counterexample :
  let p0 := {| statics := initial; world := settled None [] true 9 january 0;
               trace := [] |} in
  exists p1 q,
    serve true sec_min_hour (Emit SevInfo "first") p0 = Returned tt p1
    /\ serve true sec_min_hour (Emit SevInfo "second")
             {| statics := statics p1; world := settled None [] true 9 january 4;
                trace := trace p1 |} = Returned tt q
    /\ reachable true sec_min_hour q
    /\ data_of (session (world q)) = "[10:30:0] <Info> - second" ++ nl
    /\ Text.getline (data_of (session (world q))) = "[10:30:0] <Info> - second"
    /\ forall t, Text.getline (data_of (session (world q))) <> creation_banner t.
Proof.
  intros p0.
  set (p1 := final (serve true sec_min_hour (Emit SevInfo "first") p0)).
  set (p1' := {| statics := statics p1; world := settled None [] true 9 january 4;
                 trace := trace p1 |}).
  set (q := final (serve true sec_min_hour (Emit SevInfo "second") p1')).
  assert (E1 : serve true sec_min_hour (Emit SevInfo "first") p0 = Returned tt p1)
    by (vm_compute; reflexivity).
  assert (E2 : serve true sec_min_hour (Emit SevInfo "second") p1' = Returned tt q)
    by (vm_compute; reflexivity).
  exists p1, q. split; [exact E1|]. split; [exact E2|].
  split; [|split; [vm_compute; reflexivity
                  |split; [vm_compute; reflexivity|intros t; vm_compute; discriminate]]].
  apply (reach_serve true sec_min_hour p1' q (Emit SevInfo "second")); [|exact E2].
  apply (reach_world true sec_min_hour p1 (settled None [] true 9 january 4)).
  apply (reach_serve true sec_min_hour p0 p1 (Emit SevInfo "first")); [|exact E1].
  apply reach_start.
Qed.

(** C7, amended.  The header of a call is [[<hour>:<min>:<sec>] <LevelName>],
    the level name between angle brackets as in the format string of line
    123, the three numbers in plain decimal, each from its own reading of
    the clock, the three readings in the order of the build; the line of a
    call is [<header> - <message>]; the banner is
    [Created - <year>. <month>. <day>. <hour>:<min>:<sec>].  A process whose
    session file opens and whose archive transition cannot throw makes a
    run of logging calls, and nobody else touches the disk.  When none of
    the calls has its level in the persist mask the session file is left as
    it was.  Otherwise the session file holds the banner, dated by the
    reading of the clock that follows those of the first call that writes,
    an empty line, and then the line of each call whose level is in the
    persist mask, in the order of the calls, and nothing else; the banner
    is its first line. *)
Theorem session_file_format
        (PW : bool) (AO : argument_order) (calls : list (severity * string))
        (s : Statics) (w : World) (tr : list event) :
  fs s = None ->
  shouldCreateNewFile s = true ->
  writable w = true ->
  calm PW w ->
  let lines := lines_of_run (logLevelsToSave s) AO (time_source w) (time_reads w)
                            true calls in
  let t := time_source w (banner_reading (logLevelsToSave s) (time_reads w) calls) in
  (forall o ts n v,
      header_at o ts n v
      = "[" ++ Text.fmt_i (tm_hour (ts (reading_of_hour o + n)%nat)) ++ ":"
            ++ Text.fmt_i (tm_min (ts (reading_of_min o + n)%nat)) ++ ":"
            ++ Text.fmt_i (tm_sec (ts (reading_of_sec o + n)%nat))
            ++ "] <" ++ name_of v ++ ">")
  /\ (forall header message,
         record_line header message = header ++ " - " ++ message ++ nl)
  /\ (forall t',
         creation_banner t'
         = "Created - " ++ Text.fmt_i (tm_year t' + 1900) ++ ". "
             ++ Text.fmt_i (tm_mon t' + 1) ++ ". " ++ Text.fmt_i (tm_mday t')
             ++ ". " ++ Text.fmt_i (tm_hour t') ++ ":" ++ Text.fmt_i (tm_min t')
             ++ ":" ++ Text.fmt_i (tm_sec t'))
  /\ exists q,
       call_each PW AO calls {| statics := s; world := w; trace := tr |}
       = Returned tt q
       /\ (lines = [] -> session (world q) = session w)
       /\ (lines <> [] ->
           data_of (session (world q))
           = creation_banner t ++ nl ++ nl ++ text_of lines
           /\ Text.getline (data_of (session (world q))) = creation_banner t).
Proof.
  intros Hfs Hflag Hw Hcalm lines t.
  split; [reflexivity|]. split; [reflexivity|]. split; [reflexivity|].
  destruct (run_of_calls PW AO calls s w tr Hfs Hw (fun _ => Hcalm))
    as (q & E & Hs & Hd).
  rewrite Hflag in Hs, Hd. fold lines in Hs, Hd. fold t in Hd.
  exists q. split; [exact E|]. split; [exact Hs|].
  intros Hne. destruct lines as [|l ls]; [now elim Hne|].
  rewrite Hd. split; [now rewrite !append_assoc | apply banner_first_line].
Qed.

(** The theorem at work: a fresh process that finds no session file, at
    10:30:00 on the fifth of January 2024, with [Info] and [Error] in its
    persist mask; the second call is a [Trace]. *)
Lemma session_file_format_witness :
  let s := {| logLevelsToDisplay := LOGLEVEL_ALL;
              logLevelsToSave := Z.lor LOGLEVEL_INFO LOGLEVEL_ERROR;
              pastLogsToKeep := 5; shouldCreateNewFile := true; fs := None |} in
  let w := settled None [] true 0 january 0 in
  exists q,
    call_each true sec_min_hour
              [(SevInfo, "listening on port 8080"); (SevTrace, "tick");
               (SevError, "connection lost")]
              {| statics := s; world := w; trace := [] |} = Returned tt q
    /\ data_of (session (world q))
       = "Created - 2024. 1. 5. 10:30:0" ++ nl ++ nl
           ++ "[10:30:0] <Info> - listening on port 8080" ++ nl
           ++ "[10:30:0] <Error> - connection lost" ++ nl.
Proof.
  intros s w.
  destruct (session_file_format true sec_min_hour
              [(SevInfo, "listening on port 8080"); (SevTrace, "tick");
               (SevError, "connection lost")] s w [] eq_refl eq_refl eq_refl)
    as (_ & _ & _ & q & E & _ & H).
  - split; [intros e [] | reflexivity].
  - exists q. split; [exact E|].
    destruct H as [H _]; [discriminate|]. rewrite H. reflexivity.
Defined.

(* ================================================================== *)
(** ** Console off, file on                                            *)
(* ================================================================== *)

Lemma console_app (a b : list event) : console (a ++ b) = (console a ++ console b)%list.
Proof. unfold console. apply flat_map_app. Qed.

Lemma console_boot (w : World) : console (boot_events w) = [].
Proof. unfold boot_events. now destruct (_ && _)%bool. Qed.

(** C8, as stated, fails on the first file write of a process.  Display
    mask [NONE], persist mask [ALL], a session file of the run before and
    five logs in the archive: the call prints the line of line 190 on the
    console, and the session file is not the old one with a line more, it
    is a new one of three lines. *)
Lemma quiet_call_counterexample :
  let p := {| statics := console_off;
              world := settled (Some last_session) five_logs true 9 january 0;
              trace := [] |} in
  reachable true sec_min_hour p
  /\ logLevelsToDisplay (statics p) = LOGLEVEL_NONE
  /\ logLevelsToSave (statics p) = LOGLEVEL_ALL
  /\ exists q,
       call true sec_min_hour SevInfo "hello" p = Returned tt q
       /\ console (trace q)
          = ["Maximum number of past logs reached, removing: "
               ++ "./logs/past_logs/log_2023.12.1.9-0-0.txt" ++ nl]
       /\ console (trace q) <> console (trace p)
       /\ data_of (session (world q))
          = "Created - 2024. 1. 5. 10:30:0" ++ nl ++ nl
              ++ "[10:30:0] <Info> - hello" ++ nl
       /\ data_of (session (world q))
          <> data_of (session (world p))
               ++ record_line (header_in sec_min_hour (world p) SevInfo) "hello".
Proof.
  intros p. split; [|split; [reflexivity|split; [reflexivity|]]].
  - apply (reach_serve true sec_min_hour
             {| statics := initial; world := world p; trace := [] |} p
             (SetDisplay LOGLEVEL_NONE)); [apply reach_start | reflexivity].
  - eexists. split; [vm_compute; reflexivity|].
    repeat split; try reflexivity; discriminate.
Qed.

(** C8, amended.  Display mask [NONE], persist mask [ALL], the rotation flag
    down and a session file that opens: the call prints nothing, and the
    session file is what it was with the line of the call appended, by one
    open in append mode and one insertion.  Nothing else changes, the clock
    apart. *)
Theorem quiet_call_appends_one_line
        (PW : bool) (AO : argument_order) (v : severity) (message : string) (p : Process) :
  fs (statics p) = None ->
  logLevelsToDisplay (statics p) = LOGLEVEL_NONE ->
  logLevelsToSave (statics p) = LOGLEVEL_ALL ->
  shouldCreateNewFile (statics p) = false ->
  writable (world p) = true ->
  let line := record_line (header_in AO (world p) v) message in
  exists q,
    call PW AO v message p = Returned tt q
    /\ console (trace q) = console (trace p)
    /\ data_of (session (world q)) = data_of (session (world p)) ++ line
    /\ trace q = (trace p ++ boot_events (world p)
                  ++ [ev_open latestLogFilepath ios_app true; ev_insert line])%list
    /\ entries (world q) = entries (world p)
    /\ statics q = statics p.
Proof.
  intros Hfs Hd Hs Hflag Hw line. destruct p as [s w tr].
  cbn [statics world trace] in *.
  rewrite call_run. cbv zeta. rewrite Hd, Hs.
  replace (Z.testbit LOGLEVEL_NONE (bit_of v)) with false by (now destruct v).
  replace (Z.testbit LOGLEVEL_ALL (bit_of v)) with true by (now destruct v).
  rewrite LogToFile_boot, settle_shape, LogToFile_active by assumption.
  unfold appended. cbn [writable three_reads]. rewrite Hw.
  eexists. split; [reflexivity|]. cbn [statics world trace].
  rewrite app_nil_r, <- app_assoc.
  split; [|split; [|split; [reflexivity|split; [|reflexivity]]]].
  - rewrite !console_app, console_boot. cbn. now rewrite app_nil_r.
  - destruct w as [[[l [es|]]|] wr ft ts n]; reflexivity.
  - destruct w as [[[l [es|]]|] wr ft ts n]; reflexivity.
Qed.

(** The theorem at work: the second call of the process above. *)
Lemma quiet_call_witness :
  let s := {| logLevelsToDisplay := LOGLEVEL_NONE; logLevelsToSave := LOGLEVEL_ALL;
              pastLogsToKeep := 5; shouldCreateNewFile := false; fs := None |} in
  let p := {| statics := s;
              world := settled (Some last_session) five_logs true 9 january 4;
              trace := [] |} in
  exists q,
    call true sec_min_hour SevDebug "cache warmed" p = Returned tt q
    /\ console (trace q) = []
    /\ data_of (session (world q))
       = s_data last_session ++ "[10:30:0] <Debug> - cache warmed" ++ nl.
Proof.
  intros s p.
  destruct (quiet_call_appends_one_line true sec_min_hour SevDebug "cache warmed" p)
    as (q & H1 & H2 & H3 & _); try reflexivity.
  exists q. repeat split; assumption.
Defined.

(* ================================================================== *)
(** ** The archive transition                                          *)
(* ================================================================== *)

Lemma copy_into_has_name (f : session_file) (name : string) (now : Z)
      (es : list dir_entry) :
  exists e, In e (copy_into f name now es) /\ d_name e = name.
Proof.
  induction es as [|e rest IH]; cbn [copy_into].
  - eexists. split; [now left | reflexivity].
  - destruct (String.eqb_spec (d_name e) name) as [Heq|Hne].
    + destruct (d_type e); [destruct (d_written e <? s_written f)|];
        eexists; (split; [now left|]); cbn; auto.
    + destruct IH as (e' & Hin & Hn). exists e'. split; [now right | exact Hn].
Qed.


(** *** Retention *)

Lemma regular_files_all (es : list dir_entry) :
  (forall e, In e es -> d_type e = regular_file) -> regular_files es = es.
Proof.
  induction es as [|e rest IH]; intros H; [reflexivity|].
  unfold regular_files in *. cbn [filter]. unfold is_regular_file at 1.
  rewrite (H e) by now left. f_equal. apply IH. intros e' He'. apply H. now right.
Qed.

Lemma remove_first_length (p : string) (es : list dir_entry) :
  In p (map entry_path es) ->
  S (List.length (remove_first p es)) = List.length es.
Proof.
  induction es as [|e rest IH]; cbn [map In remove_first List.length]; [contradiction|].
  destruct (String.eqb_spec (entry_path e) p) as [Heq|Hne]; [reflexivity|].
  intros [H|H]; [contradiction|]. cbn [List.length]. now rewrite IH.
Qed.

Lemma remove_first_incl (p : string) (es : list dir_entry) (e : dir_entry) :
  In e (remove_first p es) -> In e es.
Proof.
  induction es as [|e' rest IH]; cbn [remove_first]; [contradiction|].
  destruct (String.eqb (entry_path e') p); [now right|].
  intros [H|H]; [now left | right; auto].
Qed.

Lemma find_entry_in (p : string) (es : list dir_entry) :
  In p (map entry_path es) -> is_some (find_entry p es) = true.
Proof.
  induction es as [|e rest IH]; cbn [map In find_entry find]; [contradiction|].
  unfold find_entry in IH.
  destruct (String.eqb_spec (entry_path e) p) as [Heq|Hne]; [reflexivity|].
  intros [H|H]; [contradiction | auto].
Qed.

Lemma copy_into_regular (f : session_file) (name : string) (now : Z)
      (es : list dir_entry) :
  (forall e, In e es -> d_type e = regular_file) ->
  forall e, In e (copy_into f name now es) -> d_type e = regular_file.
Proof.
  induction es as [|e' rest IH]; intros H e; cbn [copy_into].
  - intros [<-|[]]. reflexivity.
  - assert (He' := H e' (or_introl eq_refl)).
    assert (Hrest : forall x, In x rest -> d_type x = regular_file)
      by (intros x Hx; apply H; now right).
    destruct (String.eqb (d_name e') name).
    + rewrite He'. destruct (d_written e' <? s_written f).
      * intros [<-|Hin]; [reflexivity | auto].
      * intros [<-|Hin]; auto.
    + intros [<-|Hin]; [assumption | apply (IH Hrest e Hin)].
Qed.

Lemma copy_into_length (f : session_file) (name : string) (now : Z)
      (es : list dir_entry) :
  List.length (copy_into f name now es)
  = if existsb (fun e => String.eqb (d_name e) name) es
    then List.length es else S (List.length es).
Proof.
  induction es as [|e rest IH]; cbn [copy_into existsb List.length]; [reflexivity|].
  destruct (String.eqb (d_name e) name); cbn [orb].
  - destruct (d_type e); [destruct (d_written e <? s_written f)|]; reflexivity.
  - cbn [List.length]. rewrite IH.
    now destruct (existsb (fun e0 => String.eqb (d_name e0) name) rest).
Qed.

Lemma name_free (name : string) (es : list dir_entry) :
  (forall e, In e es -> d_name e <> name) ->
  existsb (fun e => String.eqb (d_name e) name) es = false.
Proof.
  intros H. destruct (existsb _ es) eqn:E; [|reflexivity].
  apply existsb_exists in E. destruct E as (e & Hin & He).
  apply String.eqb_eq in He. now elim (H e Hin).
Qed.

(** C2, as stated, fails.  Retention limit 5 and six logs in the archive
    directory: the transition deletes one file and adds one, and the
    directory holds six files when the new archive has landed, more than
    the limit. *)
Lemma retention_counterexample :
  let p := {| statics := initial;
              world := settled (Some last_session) six_logs true 9 january 0;
              trace := [] |} in
  pastLogsToKeep (statics p) = 5
  /\ List.length (regular_files (entries (world p))) = 6%nat
  /\ exists q,
       SaveLatestLog true p = Returned tt q
       /\ count is_remove (trace q) = 1%nat
       /\ List.length (regular_files (entries (world q))) = 6%nat
       /\ Z.of_nat (List.length (regular_files (entries (world q))))
          > pastLogsToKeep (statics q).
Proof.
  intros p. split; [reflexivity|]. split; [reflexivity|].
  eexists. split; [vm_compute; reflexivity|]. repeat split.
Qed.

(** With a limit of zero and an empty archive directory there is nothing to
    delete: [GetOldestLog] returns the empty path, [remove] finds nothing,
    and the new archive lands in a directory that then holds one file. *)
Lemma retention_of_none :
  let s := {| logLevelsToDisplay := LOGLEVEL_ALL; logLevelsToSave := LOGLEVEL_ALL;
              pastLogsToKeep := 0; shouldCreateNewFile := true; fs := None |} in
  let p := {| statics := s;
              world := settled (Some last_session) [] true 9 january 0;
              trace := [] |} in
  exists q,
    SaveLatestLog true p = Returned tt q
    /\ In (ev_remove "") (trace q)
    /\ List.length (regular_files (entries (world q))) = 1%nat.
Proof.
  intros s p. eexists. split; [vm_compute; reflexivity|].
  split; [cbn; auto | reflexivity].
Qed.

(** With five logs, one of them under the name the transition derives and
    not the oldest, four are left: one is deleted and the copy lands on the
    file of the same name. *)
Lemma retention_same_name :
  let es := [ old_log "log_2023.12.1.9-0-0.txt" 1;
              old_log "log_2023.12.2.9-0-0.txt" 2;
              old_log "log_2024.1.4.8-15-42.txt" 3;
              old_log "log_2023.12.4.9-0-0.txt" 4;
              old_log "log_2023.12.5.9-0-0.txt" 5 ] in
  let p := {| statics := initial;
              world := settled (Some last_session) es true 9 january 0;
              trace := [] |} in
  exists q,
    SaveLatestLog true p = Returned tt q
    /\ List.length (regular_files (entries (world q))) = 4%nat.
Proof.
  intros es p. eexists. split; [vm_compute; reflexivity|]. reflexivity.
Qed.

(** [CountFiles] counts regular files and [GetOldestLog] looks at every
    entry: with five logs and an older, empty subdirectory the transition
    removes the subdirectory, and six files are left. *)
Lemma retention_subdirectory :
  let es := [ {| d_name := "keep"; d_type := directory_file false; d_created := 1;
                 d_written := 1; d_data := "" |};
              old_log "log_2023.12.1.9-0-0.txt" 2;
              old_log "log_2023.12.2.9-0-0.txt" 3;
              old_log "log_2023.12.3.9-0-0.txt" 4;
              old_log "log_2023.12.4.9-0-0.txt" 5;
              old_log "log_2023.12.5.9-0-0.txt" 6 ] in
  let p := {| statics := initial;
              world := settled (Some last_session) es true 9 january 0;
              trace := [] |} in
  exists q,
    SaveLatestLog true p = Returned tt q
    /\ In (ev_remove "./logs/past_logs/keep") (trace q)
    /\ List.length (regular_files (entries (world q))) = 6%nat.
Proof.
  intros es p. eexists. split; [vm_compute; reflexivity|].
  split; [cbn; auto | reflexivity].
Qed.

Lemma is_full_regular (s : Statics) (es : list dir_entry) :
  (forall e, In e es -> d_type e = regular_file) ->
  Z.of_nat (List.length es) < 2 ^ 32 ->
  is_full s es = (pastLogsToKeep s <=? Z.of_nat (List.length es)).
Proof.
  intros Hreg Hlen. unfold is_full.
  rewrite CountFiles_loop_count, (regular_files_all es Hreg) by lia.
  cbn [Z.add]. now rewrite Z.geb_leb.
Qed.

(** C2, amended.  An archive transition in an archive directory that holds
    regular files only, with a derived name that is a file name.  When the
    directory holds at least [R] files and is not empty, exactly one of them
    is deleted, and before the copy; when it holds fewer than [R], none is.
    For [R >= 1] the directory then holds at most [max R n] files, [n] the
    number before: a directory within the limit stays within it, a
    directory above the limit is not brought back under it.  With exactly
    [R] files, none of them under the derived name, exactly [R] are left. *)
Theorem retention_on_transition
        (PW : bool) (s : Statics) (f : session_file) (es : list dir_entry)
        (wr : bool) (ft : Z) (ts : nat -> tm) (n : nat) (tr : list event) :
  fs s = None ->
  (forall e, In e es -> d_type e = regular_file) ->
  Z.of_nat (List.length es) < 2 ^ 32 ->
  let name := format_new_name (if wr then Text.getline (s_data f) else "") in
  plain_name PW name = true ->
  let p := {| statics := s; world := settled (Some f) es wr ft ts n; trace := tr |} in
  let R := pastLogsToKeep s in
  let mid := [ev_open latestLogFilepath ios_in_out wr;
              ev_copy latestLogFilepath (pastLogsFilepath ++ name)] in
  exists q,
    SaveLatestLog PW p = Returned tt q
    /\ (R <= Z.of_nat (List.length es) -> es <> [] ->
        exists victim notes,
          In victim (map entry_path es)
          /\ Forall is_note notes
          /\ trace q = (tr ++ notes ++ [ev_printf (notice victim); ev_remove victim]
                        ++ mid)%list
          /\ entries (world q) = copy_into f name ft (remove_first victim es)
          /\ S (List.length (remove_first victim es)) = List.length es)
    /\ (Z.of_nat (List.length es) < R ->
        trace q = (tr ++ mid)%list
        /\ entries (world q) = copy_into f name ft es)
    /\ (1 <= R ->
        Z.of_nat (List.length (regular_files (entries (world q))))
        <= Z.max R (Z.of_nat (List.length es)))
    /\ (Z.of_nat (List.length es) = R -> es <> [] ->
        (forall e, In e es -> d_name e <> name) ->
        List.length (regular_files (entries (world q))) = List.length es).
Proof.
  intros Hfs Hreg Hlen name Hname p R mid.
  destruct (SaveLatestLog_run PW s f es wr ft ts n tr Hfs)
    as (out & notes & F & O1 & O2 & _ & E).
  cbv zeta in E. fold name in E. rewrite Hname, (is_full_regular s es Hreg Hlen) in E.
  fold R in E. subst p.
  assert (Hdir : forall e, In e es -> d_type e <> directory_file true)
    by (intros e He; rewrite (Hreg e He); discriminate).
  rewrite (without_some out es Hdir) in E.
  destruct (Z.leb_spec R (Z.of_nat (List.length es))) as [Hfull|Hroom].
  - destruct es as [|e0 rest].
    + (* nothing to delete: the limit is zero or less *)
      cbn [find_entry find is_some] in E. rewrite E.
      eexists. split; [reflexivity|]. cbn [List.length] in *.
      repeat split; try congruence; try lia.
    + assert (Hne : e0 :: rest <> []) by discriminate.
      specialize (O2 Hne).
      rewrite (find_entry_in _ _ O2) in E. rewrite E.
      eexists. split; [reflexivity|].
      cbn [world trace settled entries logs past_logs].
      assert (Hrem := remove_first_length _ _ O2).
      assert (Hreg' : forall e, In e (remove_first out (e0 :: rest)) ->
                                d_type e = regular_file)
        by (intros e He; apply Hreg; eapply remove_first_incl; exact He).
      assert (Hall := copy_into_regular f name ft _ Hreg').
      rewrite (regular_files_all _ Hall), copy_into_length.
      split; [|split; [|split]].
      * intros _ _. exists out, notes. repeat split; try assumption.
        now rewrite <- !app_assoc.
      * intros H. lia.
      * intros HR. destruct (existsb _ _); lia.
      * intros HR _ Hfree. rewrite name_free; [lia|].
        intros e He. apply Hfree. eapply remove_first_incl; exact He.
  - rewrite E. eexists. split; [reflexivity|].
    cbn [world trace settled entries logs past_logs app].
    assert (Hall := copy_into_regular f name ft _ Hreg).
    rewrite (regular_files_all _ Hall), copy_into_length.
    split; [|split; [|split]].
    + intros H. lia.
    + intros _. split; reflexivity.
    + intros HR. destruct (existsb _ _); lia.
    + intros HR. lia.
Qed.

(** The theorem at work: limit five, five logs, and the session file of the
    fourth of January. *)
Lemma retention_witness :
  let p := {| statics := initial;
              world := settled (Some last_session) five_logs true 9 january 0;
              trace := [] |} in
  exists q,
    SaveLatestLog true p = Returned tt q
    /\ List.length (regular_files (entries (world q))) = 5%nat.
Proof.
  intros p.
  destruct (retention_on_transition true initial last_session five_logs true 9
              january 0 [])
    as (q & H1 & _ & _ & _ & H2); try reflexivity.
  - intros e He. cbn in He.
    repeat (destruct He as [<-|He]; [reflexivity|]). contradiction.
  - exists q. split; [exact H1|]. apply H2; try reflexivity; try discriminate.
    intros e He. cbn in He.
    repeat (destruct He as [<-|He]; [discriminate|]). contradiction.
Defined.

(** *** Copying *)

Lemma copy_into_fresh (f : session_file) (name : string) (now : Z)
      (es : list dir_entry) :
  (forall e, In e es -> d_name e <> name) ->
  copy_into f name now es = (es ++ [copy_of f name now])%list.
Proof.
  induction es as [|e rest IH]; intros H; cbn [copy_into app]; [reflexivity|].
  destruct (String.eqb_spec (d_name e) name) as [Heq|_].
  - now elim (H e (or_introl eq_refl)).
  - f_equal. apply IH. intros e' He'. apply H. now right.
Qed.

Lemma copy_into_kept (f : session_file) (name : string) (now : Z)
      (es : list dir_entry) (e : dir_entry) :
  find_name name es = Some e -> d_type e = regular_file ->
  s_written f <= d_written e ->
  copy_into f name now es = es.
Proof.
  unfold find_name. induction es as [|e' rest IH]; cbn [find copy_into]; [discriminate|].
  destruct (String.eqb (d_name e') name).
  - intros [= ->] -> Hle.
    destruct (Z.ltb_spec (d_written e) (s_written f)); [lia | reflexivity].
  - intros Hf Ht Hle. f_equal. now apply IH.
Qed.

Lemma copy_into_replaced (f : session_file) (name : string) (now : Z)
      (es : list dir_entry) (e : dir_entry) :
  find_name name es = Some e -> d_type e = regular_file ->
  d_written e < s_written f ->
  exists a b,
    es = (a ++ e :: b)%list
    /\ copy_into f name now es = (a ++ copy_of f name (d_created e) :: b)%list.
Proof.
  unfold find_name. induction es as [|e' rest IH]; cbn [find copy_into]; [discriminate|].
  destruct (String.eqb (d_name e') name).
  - intros [= ->] -> Hlt. exists [], rest. split; [reflexivity|].
    destruct (Z.ltb_spec (d_written e) (s_written f)); [reflexivity | lia].
  - intros Hf Ht Hlt. destruct (IH Hf Ht Hlt) as (a & b & -> & ->).
    exists (e' :: a), b. split; reflexivity.
Qed.

Lemma copy_into_others (f : session_file) (name : string) (now : Z)
      (es : list dir_entry) (e : dir_entry) :
  d_name e <> name -> (In e (copy_into f name now es) <-> In e es).
Proof.
  intros Hne. induction es as [|e' rest IH]; cbn [copy_into In].
  - split; [intros [<-|[]]; now elim Hne | contradiction].
  - destruct (String.eqb_spec (d_name e') name) as [Heq|Hdiff].
    + assert (Hee : e' <> e) by (intros ->; contradiction).
      destruct (d_type e'); [destruct (d_written e' <? s_written f)|]; cbn [In];
        (split; intros [H|H]; [| now right | now left | now right]);
        try (subst e; cbn in Hne; contradiction).
    + cbn [In]. rewrite IH. reflexivity.
Qed.

Lemma without_incl (out : string) (es es1 : list dir_entry) :
  without out es = Some es1 -> forall e, In e es1 -> In e es.
Proof.
  unfold without. destruct (find_entry out es) as [e0|].
  - destruct (d_type e0) as [|[|]]; intros [= <-] e He;
      try (eapply remove_first_incl; exact He).
  - intros [= <-] e He. exact He.
Qed.

Lemma entry_path_not_session (e : dir_entry) : entry_path e <> latestLogFilepath.
Proof. unfold entry_path. cbn. discriminate. Qed.

(** C9, as stated, fails.  The archive directory holds a file under the
    derived name that is not older than the session file: the copy with
    [update_existing] leaves it alone, the session file is then truncated,
    and what the session file held is in no file afterwards. *)
Lemma copy_counterexample :
  let p := {| statics := initial;
              world := settled (Some last_session) [kept] true 9 january 0;
              trace := [] |} in
  exists q,
    LogToFile true "[10:30:0] <Info>" "hello" p = Returned tt q
    /\ In (ev_copy latestLogFilepath "./logs/past_logs/log_2024.1.4.8-15-42.txt")
          (trace q)
    /\ entries (world q) = [kept]
    /\ (forall e, In e (entries (world q)) -> d_data e <> s_data last_session)
    /\ data_of (session (world q)) <> s_data last_session.
Proof.
  intros p. eexists. split; [vm_compute; reflexivity|].
  split; [cbn; auto|]. split; [reflexivity|]. split.
  - intros e [<-|[]]. discriminate.
  - discriminate.
Qed.

(** C9, amended.  The first file write of a process that finds a session
    file [f], when it returns.  The session file is copied, not moved: one
    copy to the derived name in the archive directory, the session path is
    never removed, and the next thing done to it is the open in truncate
    mode, after which it holds the new banner and line, or still [f] when
    that open fails.  What the copy does to the archive left by the
    eviction (the archive itself when it was not full): a new entry with
    the contents of [f] when the name is free; a
    regular file of that name that is older than [f] gets the contents of
    [f]; one that is not older is left as it is and nothing is copied;
    entries under other names are untouched.  The call returns when the
    transition cannot throw. *)
Theorem archive_is_a_copy
        (PW : bool) (header message : string) (s : Statics) (w : World)
        (tr : list event) (f : session_file) :
  fs s = None ->
  shouldCreateNewFile s = true ->
  session w = Some f ->
  let name := format_new_name (if writable w then Text.getline (s_data f) else "") in
  let p := {| statics := s; world := w; trace := tr |} in
  (calm PW w -> exists q, LogToFile PW header message p = Returned tt q)
  /\ forall q,
      LogToFile PW header message p = Returned tt q ->
      exists es1 before after,
        (forall e, In e es1 -> In e (entries w))
        /\ (is_full s (entries w) = false -> es1 = entries w)
        /\ entries (world q) = copy_into f name (file_time w) es1
        /\ trace q = (tr ++ before
                      ++ [ev_copy latestLogFilepath (pastLogsFilepath ++ name);
                          ev_open latestLogFilepath ios_out (writable w)]
                      ++ after)%list
        /\ ~ In (ev_remove latestLogFilepath) (before ++ after)
        /\ count is_copy (before ++ after) = 0%nat
        /\ session (world q)
           = (if writable w
              then Some {| s_data := (creation_banner (time_source w (time_reads w))
                                        ++ nl ++ nl)
                                     ++ record_line header message;
                           s_written := file_time w |}
              else Some f)
        /\ ((forall e, In e es1 -> d_name e <> name) ->
            entries (world q) = (es1 ++ [copy_of f name (file_time w)])%list)
        /\ (forall e, find_name name es1 = Some e -> d_type e = regular_file ->
                      d_written e < s_written f ->
                      exists a b,
                        es1 = (a ++ e :: b)%list
                        /\ entries (world q)
                           = (a ++ copy_of f name (d_created e) :: b)%list)
        /\ (forall e, find_name name es1 = Some e -> d_type e = regular_file ->
                      s_written f <= d_written e ->
                      entries (world q) = es1)
        /\ (forall e, d_name e <> name -> (In e (entries (world q)) <-> In e es1)).
Proof.
  intros Hfs Hflag Hsess name p. split; [now apply LogToFile_returns|].
  intros q Hq. subst p.
  destruct (LogToFile_run PW header message s w tr Hfs)
    as (out & notes & F & O1 & O2 & _ & E).
  rewrite E in Hq. unfold LogToFile_result in Hq. rewrite Hflag, Hsess in Hq.
  fold name in Hq.
  set (pre := if is_full s (entries w)
              then (notes ++ [ev_printf (notice out); ev_remove out])%list else [])
    in Hq.
  destruct (if is_full s (entries w) then without out (entries w)
            else Some (entries w)) as [es1|] eqn:Hes; [|discriminate].
  destruct (plain_name PW name); [|discriminate].
  injection Hq as <-.
  assert (Hout : out <> latestLogFilepath).
  { destruct (entries w) as [|e0 rest] eqn:Hent.
    - rewrite (O1 eq_refl). discriminate.
    - assert (Hin : In out (map entry_path (e0 :: rest))) by (apply O2; discriminate).
      apply in_map_iff in Hin. destruct Hin as (e & <- & _).
      apply entry_path_not_session. }
  assert (Hpre : ~ In (ev_remove latestLogFilepath) pre /\ count is_copy pre = 0%nat).
  { subst pre. destruct (is_full s (entries w)); [|split; [intros []|reflexivity]].
    split.
    - rewrite in_app_iff. intros [H|H].
      + rewrite Forall_forall in F. apply F in H. discriminate.
      + cbn in H. destruct H as [H|[H|[]]]; [discriminate|]. congruence.
    - rewrite count_app, (count_notes _ notes) by (reflexivity || assumption).
      reflexivity. }
  destruct Hpre as [Hp1 Hp2].
  exists es1,
    (boot_events w ++ pre ++ [ev_open latestLogFilepath ios_in_out (writable w)])%list,
    (if writable w
     then [ev_insert (creation_banner (time_source w (time_reads w)) ++ nl ++ nl);
           ev_insert (record_line header message)]
     else []).
  split.
  { destruct (is_full s (entries w)).
    - now apply without_incl with (out := out).
    - injection Hes as <-. auto. }
  split.
  { intros Hroom. rewrite Hroom in Hes. now injection Hes as <-. }
  unfold started.
  destruct (writable w) eqn:Hw; cbn [world trace settled entries logs past_logs session
                                     latest_log].
  all: split; [reflexivity|].
  all: split; [rewrite <- !app_assoc; reflexivity|].
  all: split;
    [ rewrite !in_app_iff; intros [[H|[H|H]]|H];
      [ unfold boot_events in H; destruct (_ && _)%bool; cbn in H;
        repeat (destruct H as [H|H]); try discriminate; contradiction
      | contradiction
      | cbn in H; destruct H as [H|[]]; discriminate
      | cbn in H; repeat (destruct H as [H|H]); try discriminate; contradiction ]
    | ].
  all: split;
    [ rewrite !count_app, count_boot, Hp2 by reflexivity; reflexivity | ].
  all: split; [reflexivity|].
  all: split; [apply copy_into_fresh|].
  all: split; [intros e; apply copy_into_replaced|].
  all: split; [intros e; apply copy_into_kept | intros e; apply copy_into_others].
Qed.

(** The theorem at work: the session file of the fourth of January and an
    archive directory that holds an older log under another name. *)
Lemma archive_is_a_copy_witness :
  let es := [old_log "log_2023.12.1.9-0-0.txt" 1] in
  let w := settled (Some last_session) es true 9 january 0 in
  exists q,
    LogToFile true "[10:30:0] <Info>" "hello"
              {| statics := initial; world := w; trace := [] |} = Returned tt q
    /\ entries (world q)
       = (es ++ [copy_of last_session "log_2024.1.4.8-15-42.txt" 9])%list.
Proof.
  intros es w.
  destruct (archive_is_a_copy true "[10:30:0] <Info>" "hello" initial w []
              last_session eq_refl eq_refl eq_refl) as [Hret Hcopy].
  destruct Hret as [q Hq].
  - split; [|reflexivity]. intros e [<-|[]]. discriminate.
  - exists q. split; [exact Hq|].
    destruct (Hcopy q Hq) as (es1 & before & after & _ & H0 & _ & _ & _ & _ & _ & H1 & _).
    rewrite (H0 eq_refl) in H1. apply H1.
    intros e [<-|[]]. discriminate.
Defined.

Lemma copy_into_archived (f : session_file) (name : string) (now : Z)
      (es : list dir_entry) :
  archived_as f name es (copy_into f name now es).
Proof.
  unfold archived_as. split; [|split; [|split]].
  - intros Hfree. rewrite (copy_into_fresh f name now es Hfree).
    exists (copy_of f name now). rewrite in_app_iff. cbn. auto.
  - intros e0 Hf Ht Hlt.
    destruct (copy_into_replaced f name now es e0 Hf Ht Hlt) as (a & b & _ & ->).
    exists (copy_of f name (d_created e0)). rewrite in_app_iff. cbn. auto.
  - intros e0 Hf Ht Hle. apply (copy_into_kept f name now es e0 Hf Ht Hle).
  - intros e Hne. apply copy_into_others. exact Hne.
Qed.





(* ================================================================== *)
(** ** One rotation                                                    *)
(* ================================================================== *)

Lemma serve_keeps_flag_down (PW : bool) (AO : argument_order) (p q : Process) (r : request) :
  fs (statics p) = None ->
  shouldCreateNewFile (statics p) = false ->
  serve PW AO r p = Returned tt q ->
  shouldCreateNewFile (statics q) = false.
Proof.
  intros Hfs Hflag Hr.
  destruct r as [lv | lv | nb | v message]; cbn [serve] in Hr.
  1-3: injection Hr as <-; exact Hflag.
  destruct p as [s w tr]. cbn [statics] in *.
  rewrite call_run in Hr. cbv zeta in Hr.
  destruct (Z.testbit (logLevelsToSave s) (bit_of v)).
  - match type of Hr with
    | LogToFile _ _ _ {| statics := _; world := _; trace := ?t1 |} = _ =>
        destruct (LogToFile_run PW (header_in AO w v) message s (three_reads w) t1 Hfs)
          as (out & notes & _ & _ & _ & _ & E)
    end.
    rewrite E in Hr.
    now destruct (LogToFile_result_statics _ _ _ _ _ _ _ _ _ _ _ _ _ _ Hr).
  - injection Hr as <-. exact Hflag.
Qed.

(** C6, as stated, fails.  The first file write of a process, in an archive
    directory that is full and whose oldest entry is a directory with files
    in it: [remove] throws, the call ends there, and the rotation flag is
    still up; the session file has not been opened for truncation, no
    banner has been written, and nothing has been archived.  And the first
    file write of a process whose session file does not open: the flag goes
    down, and the session file is neither truncated nor given a banner. *)
Lemma rotation_counterexample :
  let p := {| statics := initial;
              world := settled (Some last_session) blocked_archive true 9 january 0;
              trace := [] |} in
  let p' := {| statics := initial;
               world := settled (Some last_session) five_logs false 9 january 0;
               trace := [] |} in
  reachable true sec_min_hour p
  /\ reachable true sec_min_hour p'
  /\ shouldCreateNewFile initial = true
  /\ (exists q,
         call true sec_min_hour SevInfo "hello" p = Thrown q
         /\ shouldCreateNewFile (statics q) = true
         /\ count is_truncating_open (trace q) = 0%nat
         /\ count is_insert (trace q) = 0%nat
         /\ count is_copy (trace q) = 0%nat
         /\ session (world q) = Some last_session)
  /\ (exists q',
         call true sec_min_hour SevInfo "hello" p' = Returned tt q'
         /\ shouldCreateNewFile (statics q') = false
         /\ In (ev_open latestLogFilepath ios_out false) (trace q')
         /\ count is_insert (trace q') = 0%nat
         /\ session (world q') = Some last_session).
Proof.
  intros p p'. split; [apply reach_start|]. split; [apply reach_start|].
  split; [reflexivity|]. split.
  - eexists. split; [vm_compute; reflexivity|].
    repeat split; reflexivity.
  - eexists. split; [vm_compute; reflexivity|].
    split; [reflexivity|]. split; [cbn; auto 10|]. split; reflexivity.
Qed.

(** C6, amended.  The rotation flag [shouldCreateNewFile] is up when the
    process starts.  A file write that finds it up and throws leaves it up
    and has neither truncated the session file nor inserted anything.  A
    file write that finds it up and returns has put it down, and has done
    this, in this order: archived the session file of the run before if
    there was one (one copy to the derived name, after which, the name
    being a file name, the archive directory holds the copy as
    [copy_options::update_existing] makes it; no copy otherwise), opened the session file in truncate mode, once, and
    written the banner and the line if the open succeeded, and they are
    then what the session file holds; it returns when the transition cannot
    throw.  No request puts the flag up again.  A file write that finds it
    down opens the session file in append mode and in no other, and adds
    its line to what the file holds.  So a process truncates its session
    file at most once and archives at most once, and has done neither while
    the flag is up. *)
Theorem one_rotation_per_process (PW : bool) (AO : argument_order) :
  shouldCreateNewFile initial = true
  /\ (forall header message s w tr,
         fs s = None -> shouldCreateNewFile s = true ->
         let p := {| statics := s; world := w; trace := tr |} in
         (calm PW w -> exists q, LogToFile PW header message p = Returned tt q)
         /\ (forall q,
                LogToFile PW header message p = Thrown q ->
                shouldCreateNewFile (statics q) = true
                /\ session (world q) = session w
                /\ exists new,
                     trace q = (tr ++ new)%list
                     /\ count is_truncating_open new = 0%nat
                     /\ count is_insert new = 0%nat)
         /\ forall q,
             LogToFile PW header message p = Returned tt q ->
             shouldCreateNewFile (statics q) = false
             /\ session (world q)
                = (if writable w
                   then Some {| s_data := (creation_banner (time_source w (time_reads w))
                                             ++ nl ++ nl)
                                          ++ record_line header message;
                                s_written := file_time w |}
                   else session w)
             /\ exists before after,
                 trace q = (tr ++ before
                            ++ [ev_open latestLogFilepath ios_out (writable w)]
                            ++ after)%list
                 /\ count is_truncating_open (before ++ after) = 0%nat
                 /\ count is_insert before = 0%nat
                 /\ (session w = None ->
                     count is_copy before = 0%nat
                     /\ entries (world q) = entries w)
                 /\ (forall f,
                        session w = Some f ->
                        let name := format_new_name
                                      (if writable w then Text.getline (s_data f)
                                       else "") in
                        count is_copy before = 1%nat
                        /\ In (ev_copy latestLogFilepath (pastLogsFilepath ++ name))
                              before
                        /\ (plain_name PW name = true ->
                            exists es1,
                              (forall e, In e es1 -> In e (entries w))
                              /\ (is_full s (entries w) = false -> es1 = entries w)
                              /\ archived_as f name es1 (entries (world q))))
                 /\ after
                    = if writable w
                      then [ev_insert (creation_banner (time_source w (time_reads w))
                                         ++ nl ++ nl);
                            ev_insert (record_line header message)]
                      else [])
  /\ (forall p r q,
         reachable PW AO p ->
         shouldCreateNewFile (statics p) = false ->
         serve PW AO r p = Returned tt q ->
         shouldCreateNewFile (statics q) = false)
  /\ (forall header message s w tr,
         fs s = None -> shouldCreateNewFile s = false ->
         exists q,
           LogToFile PW header message {| statics := s; world := w; trace := tr |}
           = Returned tt q
           /\ shouldCreateNewFile (statics q) = false
           /\ trace q = (tr ++ boot_events w
                         ++ [ev_open latestLogFilepath ios_app (writable w)]
                         ++ (if writable w
                             then [ev_insert (record_line header message)]
                             else []))%list
           /\ session (world q)
              = (if writable w
                 then Some {| s_data := data_of (session w)
                                        ++ record_line header message;
                              s_written := file_time w |}
                 else session w))
  /\ (forall p,
         reachable PW AO p ->
         (count is_truncating_open (trace p) <= 1)%nat
         /\ (count is_copy (trace p) <= 1)%nat
         /\ (shouldCreateNewFile (statics p) = true ->
             count is_truncating_open (trace p) = 0%nat
             /\ count is_copy (trace p) = 0%nat)).
Proof.
  split; [reflexivity|]. split; [|split; [|split]].
  - intros header message s w tr Hfs Hflag p.
    split; [now apply LogToFile_returns|]. subst p.
    destruct (LogToFile_run PW header message s w tr Hfs)
      as (out & notes & F & _ & _ & _ & E).
    rewrite E. unfold LogToFile_result. rewrite Hflag.
    set (after := if writable w
                  then [ev_insert (creation_banner (time_source w (time_reads w))
                                     ++ nl ++ nl);
                        ev_insert (record_line header message)]
                  else []).
    destruct (session w) as [f|] eqn:Hsess.
    + set (name := format_new_name (if writable w then Text.getline (s_data f) else "")).
      set (pre := if is_full s (entries w)
                  then (notes ++ [ev_printf (notice out); ev_remove out])%list
                  else []).
      assert (Hpre : count is_truncating_open pre = 0%nat
                     /\ count is_insert pre = 0%nat /\ count is_copy pre = 0%nat).
      { subst pre. destruct (is_full s (entries w)); [|repeat split; reflexivity].
        rewrite !count_app, !(count_notes _ notes) by (reflexivity || assumption).
        repeat split; reflexivity. }
      destruct Hpre as (Hp1 & Hp2 & Hp3).
      assert (Hes : forall es1,
                 (if is_full s (entries w) then without out (entries w)
                  else Some (entries w)) = Some es1 ->
                 (forall e, In e es1 -> In e (entries w))
                 /\ (is_full s (entries w) = false -> es1 = entries w)).
      { intros es1. destruct (is_full s (entries w)).
        - intros H. split; [now apply without_incl with (out := out) | discriminate].
        - intros [= <-]. auto. }
      destruct (if is_full s (entries w) then without out (entries w)
                else Some (entries w)) as [es1|].
      * destruct (Hes es1 eq_refl) as [Hincl Hsame].
        destruct (plain_name PW name) eqn:Hplain.
        -- split.
           { intros q Hq. discriminate. }
           intros q Hq. apply Returned_inj in Hq. subst q. unfold started. subst after.
           destruct (writable w);
             cbn [statics world trace flipped muted shouldCreateNewFile session
                  settled logs latest_log entries past_logs];
             (split; [reflexivity|]); (split; [reflexivity|]);
             (eexists (boot_events w ++ pre ++ [_; _])%list; eexists;
              split; [rewrite <- !app_assoc; reflexivity|]);
             rewrite !count_app, !count_boot, Hp1, Hp2, Hp3 by reflexivity;
             (split; [reflexivity|]); (split; [reflexivity|]);
             (split; [discriminate|]);
             (split; [|reflexivity]);
             intros f' [= <-]; cbv zeta;
             (split; [reflexivity|]);
             (split; [rewrite !in_app_iff; cbn [In]; auto 10|]);
             intros _;
             exists es1; (split; [exact Hincl|]); (split; [exact Hsame|]);
             apply copy_into_archived.
        -- split; [|intros q Hq; discriminate].
           intros q [= <-]. cbn [statics world trace session settled logs latest_log].
           split; [exact Hflag|]. split; [reflexivity|].
           eexists. split; [rewrite <- !app_assoc; reflexivity|].
           rewrite !count_app, !count_boot, Hp1, Hp2 by reflexivity.
           split; reflexivity.
      * split; [|intros q Hq; discriminate].
        intros q [= <-]. cbn [statics world trace session settled logs latest_log].
        split; [exact Hflag|]. split; [reflexivity|].
        eexists. split; [rewrite <- !app_assoc; reflexivity|].
        rewrite !count_app, !count_boot, Hp1, Hp2 by reflexivity.
        split; reflexivity.
    + split; [intros q Hq; discriminate|].
      intros q Hq. apply Returned_inj in Hq. subst q. unfold started. subst after.
      assert (Hse : session (settled None (entries w) (writable w) (file_time w)
                               (time_source w) (S (time_reads w))) = session w)
        by (now rewrite Hsess).
      destruct (writable w);
        cbn [statics world trace flipped muted shouldCreateNewFile session
             settled logs latest_log entries past_logs];
        (split; [reflexivity|]); (split; [try reflexivity; now rewrite Hsess|]);
        (exists (boot_events w); eexists;
         split; [rewrite <- !app_assoc; reflexivity|]);
        rewrite !count_app, !count_boot by reflexivity;
        (split; [reflexivity|]); (split; [reflexivity|]);
        (split; [intros _; split; reflexivity|]);
        (split; [intros f' Hf'; discriminate | reflexivity]).
  - intros p r q Hreach Hflag Hr.
    apply (serve_keeps_flag_down PW AO p q r); try assumption.
    now destruct (reachable_inv PW AO p Hreach).
  - intros header message s w tr Hfs Hflag.
    rewrite LogToFile_boot, settle_shape, LogToFile_active by assumption.
    eexists. split; [reflexivity|]. unfold appended.
    destruct (writable w);
      cbn [statics world trace muted shouldCreateNewFile session settled logs
           latest_log];
      (split; [assumption|]); (split; [rewrite <- !app_assoc; reflexivity|]);
      reflexivity.
  - intros p Hreach.
    destruct (reachable_inv PW AO p Hreach) as (_ & H1 & H2 & H3). auto.
Qed.

(** The theorem at work: two calls of [Info] in a row, the first one
    rotating into a full archive. *)
Lemma one_rotation_witness :
  let w := settled (Some last_session) five_logs true 9 january 0 in
  exists p1 p2,
    serve true sec_min_hour (Emit SevInfo "first")
          {| statics := initial; world := w; trace := [] |}
    = Returned tt p1
    /\ serve true sec_min_hour (Emit SevInfo "second") p1 = Returned tt p2
    /\ shouldCreateNewFile (statics p2) = false
    /\ count is_truncating_open (trace p2) = 1%nat
    /\ (count is_truncating_open (trace p2) <= 1)%nat
    /\ (count is_copy (trace p2) <= 1)%nat.
Proof.
  intros w.
  destruct (one_rotation_per_process true sec_min_hour) as (_ & _ & _ & _ & Hone).
  set (p0 := {| statics := initial; world := w; trace := [] |}).
  set (p1 := final (serve true sec_min_hour (Emit SevInfo "first") p0)).
  set (p2 := final (serve true sec_min_hour (Emit SevInfo "second") p1)).
  assert (E1 : serve true sec_min_hour (Emit SevInfo "first") p0 = Returned tt p1)
    by (vm_compute; reflexivity).
  assert (E2 : serve true sec_min_hour (Emit SevInfo "second") p1 = Returned tt p2)
    by (vm_compute; reflexivity).
  exists p1, p2. split; [exact E1|]. split; [exact E2|].
  split; [vm_compute; reflexivity|]. split; [vm_compute; reflexivity|].
  assert (Hreach : reachable true sec_min_hour p2).
  { apply (reach_serve true sec_min_hour p1 p2 (Emit SevInfo "second")); [|exact E2].
    apply (reach_serve true sec_min_hour p0 p1 (Emit SevInfo "first")); [|exact E1].
    apply reach_start. }
  destruct (Hone _ Hreach) as (H1 & H2 & _). split; assumption.
Defined.

(* ================================================================== *)
(** ** The oldest log                                                  *)
(* ================================================================== *)

(** C4 fails in the code.  On Windows, two logs in the archive directory,
    the first with a creation time of zero and the second with a creation
    time of five: [GetOldestLog] returns the second, the file with the
    larger creation time.  The test [GetFileCreationTime(oldestFile) == 0]
    of line 264, there for the empty path the loop starts with, also fires
    on a candidate whose own creation time is zero, and the next entry
    takes its place whatever its time.  With the two logs in the other
    order the first is kept: the choice depends on the order in which the
    directory is read. *)
Theorem oldest_log_with_a_zero_time :
  let a := old_log "log_a.txt" 0 in
  let b := old_log "log_b.txt" 5 in
  let p (es : list dir_entry) :=
      {| statics := initial; world := settled None es true 9 january 0; trace := [] |} in
  d_created a < d_created b
  /\ GetOldestLog true (p [a; b]) = Returned (entry_path b) (p [a; b])
  /\ GetOldestLog true (p [b; a]) = Returned (entry_path a) (p [b; a]).
Proof. repeat split. Qed.

(** What the loop does get right: on Windows, when every entry has a
    creation time that is not zero, [GetOldestLog] returns an entry whose
    creation time is the smallest. *)

Lemma append_inj_l (p a b : string) : p ++ a = p ++ b -> a = b.
Proof. induction p as [|c p IH]; cbn; [auto|]. intros [= H]. auto. Qed.

Lemma find_entry_self (es : list dir_entry) (e : dir_entry) :
  NoDup (map d_name es) -> In e es -> find_entry (entry_path e) es = Some e.
Proof.
  unfold find_entry. induction es as [|e' rest IH]; cbn [map In find]; [contradiction|].
  intros Hnd Hin. inversion Hnd as [|x xs Hnot Hnd']; subst.
  destruct (String.eqb_spec (entry_path e') (entry_path e)) as [Heq|Hne].
  - destruct Hin as [->|Hin]; [reflexivity|].
    apply append_inj_l in Heq. elim Hnot. rewrite Heq. now apply in_map.
  - destruct Hin as [->|Hin]; [now elim Hne | now apply IH].
Qed.

Lemma creation_time_of_entry (p : Process) (d : logs_dir) (es : list dir_entry)
      (e : dir_entry) :
  logs (world p) = Some d -> past_logs d = Some es ->
  NoDup (map d_name es) -> In e es -> 0 <= d_created e < 2 ^ 64 ->
  GetFileCreationTime true (entry_path e) p = Returned (d_created e) p.
Proof.
  intros Hl Hp Hnd Hin Hrange.
  assert (Hent : entries (world p) = es) by (unfold entries; now rewrite Hl, Hp).
  assert (Hex : path_exists (world p) (entry_path e) = true).
  { unfold path_exists. rewrite Hl, Hent, Hp.
    destruct (String.eqb (entry_path e) logsFilepath); [reflexivity|].
    destruct (String.eqb (entry_path e) pastLogsFilepath); [reflexivity|].
    destruct (String.eqb_spec (entry_path e) latestLogFilepath) as [H|_];
      [now elim (entry_path_not_session e)|].
    now rewrite (find_entry_self es e Hnd Hin). }
  unfold GetFileCreationTime, bind, get_world, ret. rewrite Hex, Hent.
  cbn [negb]. rewrite (find_entry_self es e Hnd Hin).
  unfold ulonglong. now rewrite Z.mod_small.
Qed.

Lemma GetOldestLog_loop_older (p : Process) (d : logs_dir) (es : list dir_entry) :
  logs (world p) = Some d -> past_logs d = Some es ->
  NoDup (map d_name es) ->
  (forall e, In e es -> 0 < d_created e < 2 ^ 64) ->
  forall rest c,
    In c es -> (forall e, In e rest -> In e es) ->
    GetOldestLog_loop true (map entry_path rest) (entry_path c) p
    = Returned (entry_path (fold_left older rest c)) p.
Proof.
  intros Hl Hp Hnd Hpos.
  induction rest as [|e rest IH]; intros c Hc Hrest; [reflexivity|].
  cbn [map GetOldestLog_loop fold_left].
  assert (He : In e es) by (apply Hrest; now left).
  assert (Hc0 := Hpos c Hc). assert (He0 := Hpos e He).
  rewrite (bind_returned _ _ p p (d_created c))
    by (apply (creation_time_of_entry p d es c); auto; lia).
  rewrite (bind_returned _ _ p p (d_created e))
    by (apply (creation_time_of_entry p d es e); auto; lia).
  unfold older at 2.
  destruct (d_created c >? d_created e).
  - rewrite (bind_returned (ret true) _ p p true) by reflexivity.
    apply IH; [exact He | intros x Hx; apply Hrest; now right].
  - rewrite (bind_returned _ _ p p false).
    + apply IH; [exact Hc | intros x Hx; apply Hrest; now right].
    + rewrite (bind_returned _ _ p p (d_created c))
        by (apply (creation_time_of_entry p d es c); auto; lia).
      unfold ret. f_equal. apply Z.eqb_neq. lia.
Qed.

Lemma fold_older_least (rest : list dir_entry) :
  forall c,
    In (fold_left older rest c) (c :: rest)
    /\ forall e, In e (c :: rest) -> d_created (fold_left older rest c) <= d_created e.
Proof.
  induction rest as [|e rest IH]; intros c; cbn [fold_left].
  - split; [now left|]. intros e [<-|[]]. lia.
  - destruct (IH (older c e)) as [Hin Hle]. split.
    + destruct Hin as [Hin|Hin]; [|now right; right].
      rewrite <- Hin. unfold older. destruct (d_created c >? d_created e) eqn:G;
        [right; now left | now left].
    + assert (Hc : d_created (older c e) <= d_created c
                   /\ d_created (older c e) <= d_created e).
      { unfold older. destruct (Z.gtb_spec (d_created c) (d_created e)); lia. }
      intros x [<-|[<-|Hx]].
      * specialize (Hle (older c e) (or_introl eq_refl)). lia.
      * specialize (Hle (older c e) (or_introl eq_refl)). lia.
      * apply Hle. now right.
Qed.

Lemma GetOldestLog_least (p : Process) (d : logs_dir) (es : list dir_entry) :
  logs (world p) = Some d -> past_logs d = Some es ->
  NoDup (map d_name es) ->
  (forall e, In e es -> 0 < d_created e < 2 ^ 64) ->
  es <> [] ->
  exists e,
    In e es
    /\ GetOldestLog true p = Returned (entry_path e) p
    /\ forall e', In e' es -> d_created e <= d_created e'.
Proof.
  intros Hl Hp Hnd Hpos Hne.
  destruct es as [|c rest]; [now elim Hne|].
  destruct (fold_older_least rest c) as [Hin Hle].
  exists (fold_left older rest c). split; [exact Hin|]. split; [|exact Hle].
  unfold GetOldestLog, directory_iterator.
  rewrite (bind_returned _ _ p p (c :: rest))
    by (unfold bind, get_world; cbn; now rewrite Hl, Hp).
  cbn [map GetOldestLog_loop].
  rewrite (bind_returned (GetFileCreationTime true "") _ p p 0).
  2:{ unfold GetFileCreationTime, bind, get_world, ret.
      replace (path_exists (world p) "") with false; [reflexivity|].
      unfold path_exists. rewrite Hl. cbn.
      unfold entries. rewrite Hl, Hp. unfold find_entry.
      destruct (find _ _) as [x|] eqn:Hf; [|reflexivity].
      apply find_some in Hf. destruct Hf as [_ Hf]. discriminate. }
  assert (Hc : In c (c :: rest)) by now left.
  assert (Hc0 := Hpos c Hc).
  rewrite (bind_returned _ _ p p (d_created c))
    by (apply (creation_time_of_entry p d (c :: rest) c); auto; lia).
  replace (0 >? d_created c) with false
    by (symmetry; rewrite Z.gtb_ltb; apply Z.ltb_ge; lia).
  rewrite (bind_returned _ _ p p true).
  - apply (GetOldestLog_loop_older p d (c :: rest)); auto.
    intros e He. now right.
  - rewrite (bind_returned (GetFileCreationTime true "") _ p p 0); [reflexivity|].
    unfold GetFileCreationTime, bind, get_world, ret.
    replace (path_exists (world p) "") with false; [reflexivity|].
    unfold path_exists. rewrite Hl. cbn.
    unfold entries. rewrite Hl, Hp. unfold find_entry.
    destruct (find _ _) as [x|] eqn:Hf; [|reflexivity].
    apply find_some in Hf. destruct Hf as [_ Hf]. discriminate.
Qed.

(* ================================================================== *)
(** ** Further properties                                              *)
(* ================================================================== *)

(** *** The two directories *)

Lemma LogToFile_result_world (PW : bool) header message s l es wr ft ts n tr out notes :
  exists l' es' n',
    world (final (LogToFile_result PW header message s l es wr ft ts n tr out notes))
    = settled l' es' wr ft ts n'.
Proof.
  unfold LogToFile_result, started, appended.
  destruct (shouldCreateNewFile s);
    [destruct l as [f|];
     [destruct (if is_full s es then without out es else Some es);
      [destruct (plain_name PW _)|]|]|];
    try destruct wr; cbn [final world]; eauto.
Qed.

(** X1.  Whatever the state of the disk, once a logging call has been in
    [LogToFile] the directories [./logs] and [./logs/past_logs/] exist,
    also when the call throws.  When one of them was missing the two
    [create_directory] calls are the first thing the call does; when both
    were there it makes none. *)
Theorem directories_exist_after_write
        (PW : bool) (header message : string) (s : Statics) (w : World)
        (tr : list event) :
  fs s = None ->
  let r := LogToFile PW header message {| statics := s; world := w; trace := tr |} in
  path_exists (world (final r)) logsFilepath = true
  /\ path_exists (world (final r)) pastLogsFilepath = true
  /\ exists rest,
       trace (final r)
       = (tr ++ (if (path_exists w logsFilepath && path_exists w pastLogsFilepath)%bool
                 then []
                 else [ev_create_directory logsFilepath;
                       ev_create_directory pastLogsFilepath]) ++ rest)%list
       /\ ~ In (ev_create_directory logsFilepath) rest
       /\ ~ In (ev_create_directory pastLogsFilepath) rest.
Proof.
  intros Hfs r. subst r.
  destruct (LogToFile_run PW header message s w tr Hfs)
    as (out & notes & F & _ & _ & _ & E).
  rewrite E.
  destruct (LogToFile_result_world PW header message s (session w) (entries w)
              (writable w) (file_time w) (time_source w) (time_reads w)
              (tr ++ boot_events w)%list out notes) as (l' & es' & n' & ->).
  split; [reflexivity|]. split; [reflexivity|].
  destruct (LogToFile_result_trace PW header message s (session w) (entries w)
              (writable w) (file_time w) (time_source w) (time_reads w)
              (tr ++ boot_events w)%list out notes) as (new & Htr & _ & _).
  exists new. rewrite Htr, <- app_assoc. split; [reflexivity|].
  revert Htr. unfold LogToFile_result, started, appended.
  assert (Hn : forall p, ~ In (ev_create_directory p) notes).
  { intros p H. rewrite Forall_forall in F. apply F in H. discriminate. }
  destruct (shouldCreateNewFile s);
    [destruct (session w) as [f|];
     [destruct (is_full s (entries w));
      [destruct (without out (entries w))|];
      try destruct (plain_name PW _)|]|];
    destruct (writable w); cbn [final trace]; rewrite <- ?app_assoc;
    intros Htr; do 2 apply app_inv_head in Htr; subst new;
    rewrite ?in_app_iff; cbn [In];
    split; intros H; repeat (destruct H as [H|H]);
    try discriminate; try contradiction; try (now apply Hn in H).
Qed.

(** Both directories missing: the call makes them first. *)
Lemma directories_exist_witness :
  let w := {| logs := None; writable := true; file_time := 9;
              time_source := january; time_reads := 0 |} in
  let r := LogToFile true "[10:30:0] <Info>" "hello"
             {| statics := initial; world := w; trace := [] |} in
  path_exists (world (final r)) logsFilepath = true
  /\ path_exists (world (final r)) pastLogsFilepath = true.
Proof.
  intros w r.
  destruct (directories_exist_after_write true "[10:30:0] <Info>" "hello"
              initial w [] eq_refl) as (H1 & H2 & _).
  split; [exact H1 | exact H2].
Defined.

(** *** Calls that fail *)

(** X2.  A [LogToFile] call that throws has written nothing: no static
    member has changed (the rotation flag and the persist mask are what
    they were, the stream is closed), the session file is the one of
    before, it has not been opened for truncation or for appending, and
    nothing was inserted; an archive file may be gone by then, none is
    added. *)
Theorem thrown_write_changes_no_session
        (PW : bool) (header message : string) (s : Statics) (w : World)
        (tr : list event) (q : Process) :
  fs s = None ->
  LogToFile PW header message {| statics := s; world := w; trace := tr |} = Thrown q ->
  statics q = s
  /\ session (world q) = session w
  /\ (forall e, In e (entries (world q)) -> In e (entries w))
  /\ exists new,
       trace q = (tr ++ new)%list
       /\ count is_insert new = 0%nat
       /\ count is_truncating_open new = 0%nat
       /\ forall ok, ~ In (ev_open latestLogFilepath ios_app ok) new.
Proof.
  intros Hfs Hq.
  destruct (LogToFile_run PW header message s w tr Hfs)
    as (out & notes & F & _ & _ & _ & E).
  rewrite E in Hq. unfold LogToFile_result in Hq.
  destruct (shouldCreateNewFile s); [|discriminate].
  destruct (session w) as [f|] eqn:Hsess; [|discriminate].
  set (pre := if is_full s (entries w)
              then (notes ++ [ev_printf (notice out); ev_remove out])%list else [])
    in Hq.
  assert (Hpre : count is_insert pre = 0%nat /\ count is_truncating_open pre = 0%nat
                 /\ forall ok, ~ In (ev_open latestLogFilepath ios_app ok) pre).
  { subst pre. destruct (is_full s (entries w)); [|repeat split; auto].
    rewrite !count_app, !(count_notes _ notes) by (reflexivity || assumption).
    split; [reflexivity|]. split; [reflexivity|].
    intros ok H. rewrite in_app_iff in H. destruct H as [H|H].
    - rewrite Forall_forall in F. apply F in H. discriminate.
    - cbn [In] in H. repeat (destruct H as [H|H]); try discriminate; contradiction. }
  destruct Hpre as (Hp1 & Hp2 & Hp3).
  assert (Hb : forall ok, ~ In (ev_open latestLogFilepath ios_app ok) (boot_events w)).
  { intros ok H. unfold boot_events in H. destruct (_ && _)%bool; cbn [In] in H;
      repeat (destruct H as [H|H]); try discriminate; contradiction. }
  assert (Hincl : forall es1,
             (if is_full s (entries w) then without out (entries w)
              else Some (entries w)) = Some es1 ->
             forall e, In e es1 -> In e (entries w)).
  { intros es1. destruct (is_full s (entries w)).
    - intros H. now apply without_incl with (out := out).
    - intros [= <-]. auto. }
  destruct (if is_full s (entries w) then without out (entries w)
            else Some (entries w)) as [es1|].
  - destruct (plain_name PW _); [discriminate|]. injection Hq as <-.
    cbn [statics world trace session settled logs latest_log entries past_logs].
    split; [reflexivity|]. split; [reflexivity|]. split; [now apply Hincl|].
    eexists. split; [rewrite <- !app_assoc; reflexivity|].
    rewrite !count_app, !count_boot, Hp1, Hp2 by reflexivity.
    split; [reflexivity|]. split; [reflexivity|].
    intros ok H. rewrite !in_app_iff in H. destruct H as [H|[H|H]].
    + now apply Hb in H.
    + now apply Hp3 in H.
    + cbn [In] in H. repeat (destruct H as [H|H]); try discriminate; contradiction.
  - injection Hq as <-.
    cbn [statics world trace session settled logs latest_log entries past_logs].
    split; [reflexivity|]. split; [reflexivity|]. split; [auto|].
    eexists. split; [rewrite <- !app_assoc; reflexivity|].
    rewrite !count_app, !count_boot, Hp1, Hp2 by reflexivity.
    split; [reflexivity|]. split; [reflexivity|].
    intros ok H. rewrite !in_app_iff in H. destruct H as [H|H].
    + now apply Hb in H.
    + now apply Hp3 in H.
Qed.

(** The first file write of a process, in an archive directory that is
    full and whose oldest entry is a directory with files in it. *)
Lemma thrown_write_witness :
  let w := settled (Some last_session) blocked_archive true 9 january 0 in
  exists q,
    LogToFile true "[10:30:0] <Info>" "hello"
              {| statics := initial; world := w; trace := [] |} = Thrown q
    /\ statics q = initial
    /\ session (world q) = Some last_session.
Proof.
  intros w.
  assert (E : exists q, LogToFile true "[10:30:0] <Info>" "hello"
                          {| statics := initial; world := w; trace := [] |} = Thrown q)
    by (eexists; vm_compute; reflexivity).
  destruct E as [q E]. exists q. split; [exact E|].
  destruct (thrown_write_changes_no_session true _ _ initial w [] q eq_refl E)
    as (H1 & H2 & _).
  split; assumption.
Defined.

Lemma plain_empty_name (PW : bool) : plain_name PW (format_new_name "") = true.
Proof. now destruct PW. Qed.

(** X3.  The first file write of a process when the session file does not
    open for writing.  The call returns; the rotation flag is down all the
    same and the persist mask is [LOGLEVEL_NONE]; nothing is inserted and
    the session file is the one of before.  A session file of the run
    before has been archived nevertheless, and, its first line not having
    been read, under the name [log_.txt].  The archive directory holds no
    directory that [remove] would refuse. *)
Theorem first_write_that_cannot_open
        (PW : bool) (header message : string) (s : Statics) (w : World)
        (tr : list event) :
  fs s = None ->
  shouldCreateNewFile s = true ->
  writable w = false ->
  (forall e, In e (entries w) -> d_type e <> directory_file true) ->
  exists q new,
    LogToFile PW header message {| statics := s; world := w; trace := tr |}
    = Returned tt q
    /\ statics q = muted (flipped s)
    /\ session (world q) = session w
    /\ trace q = (tr ++ new)%list
    /\ count is_insert new = 0%nat
    /\ In (ev_open latestLogFilepath ios_out false) new
    /\ (session w <> None ->
        In (ev_copy latestLogFilepath "./logs/past_logs/log_.txt") new
        /\ exists e, In e (entries (world q)) /\ d_name e = "log_.txt")
    /\ (session w = None -> entries (world q) = entries w).
Proof.
  intros Hfs Hflag Hw Hdir.
  destruct (LogToFile_run PW header message s w tr Hfs)
    as (out & notes & F & _ & _ & _ & E).
  rewrite E. unfold LogToFile_result. rewrite Hflag, Hw.
  assert (Hn : count is_insert notes = 0%nat) by (apply count_notes; auto).
  destruct (session w) as [f|] eqn:Hsess.
  - rewrite plain_empty_name.
    assert (Hes : exists es1,
               (if is_full s (entries w) then without out (entries w)
                else Some (entries w)) = Some es1).
    { destruct (is_full s (entries w)); [|eexists; reflexivity].
      rewrite (without_some _ _ Hdir). eexists; reflexivity. }
    destruct Hes as [es1 ->]. unfold started.
    eexists. eexists. split; [reflexivity|].
    cbn [statics world trace session settled logs latest_log entries past_logs].
    split; [reflexivity|]. split; [reflexivity|].
    split; [rewrite <- !app_assoc; reflexivity|].
    split.
    { destruct (is_full s (entries w));
        rewrite !count_app, ?count_boot, ?Hn by reflexivity; reflexivity. }
    split; [rewrite !in_app_iff; cbn; auto 10|].
    split; [|discriminate].
    intros _. split; [rewrite !in_app_iff; cbn; auto 10|].
    apply copy_into_has_name.
  - unfold started. eexists. eexists. split; [reflexivity|].
    cbn [statics world trace session settled logs latest_log entries past_logs].
    split; [reflexivity|]. split; [reflexivity|].
    split; [rewrite <- !app_assoc; reflexivity|].
    split; [rewrite !count_app, ?count_boot by reflexivity; reflexivity|].
    split; [rewrite !in_app_iff; cbn; auto|].
    split; [congruence | reflexivity].
Qed.

(** The session file of the run before, read-only. *)
Lemma first_write_that_cannot_open_witness :
  let w := settled (Some last_session) five_logs false 9 january 0 in
  exists q,
    LogToFile true "[10:30:0] <Info>" "hello"
              {| statics := initial; world := w; trace := [] |} = Returned tt q
    /\ shouldCreateNewFile (statics q) = false
    /\ logLevelsToSave (statics q) = LOGLEVEL_NONE
    /\ session (world q) = Some last_session.
Proof.
  intros w.
  destruct (first_write_that_cannot_open true "[10:30:0] <Info>" "hello" initial w [])
    as (q & new & H1 & H2 & H3 & _); try reflexivity.
  - intros e He. cbn in He.
    repeat (destruct He as [<-|He]; [discriminate|]). contradiction.
  - exists q. rewrite H2. repeat split; assumption.
Defined.

(** *** The name of an archive *)

Lemma every_remove_if (p : ascii -> bool) (s : string) :
  every (fun c => negb (p c)) (Text.remove_if p s) = true.
Proof.
  induction s as [|c s IH]; cbn; [reflexivity|].
  destruct (p c) eqn:E; [exact IH|]. cbn. now rewrite E.
Qed.

Lemma every_replace_colon (s : string) :
  every (fun c => negb (Text.isspace c)) s = true ->
  every kept_in_name (Text.replace ":" "-" s) = true.
Proof.
  induction s as [|c s IH]; cbn -[Text.isspace]; [reflexivity|].
  rewrite andb_true_iff. intros [Hc Hs]. rewrite (IH Hs), andb_true_r.
  destruct (Ascii.eqb c ":") eqn:E; [reflexivity|].
  unfold kept_in_name. now rewrite Hc, E.
Qed.

Lemma erase_front_short (n : nat) (s : string) :
  (String.length s <= n)%nat -> Text.erase_front n s = "".
Proof.
  revert s. induction n as [|n IH]; intros [|c s]; cbn; try reflexivity; try lia.
  intros H. apply IH. lia.
Qed.

Lemma erase_front_length (n : nat) (s : string) :
  String.length (Text.erase_front n s) = (String.length s - n)%nat.
Proof.
  revert s. induction n as [|n IH]; intros [|c s]; cbn; try reflexivity; try lia.
  apply IH.
Qed.

Lemma remove_if_length (p : ascii -> bool) (s : string) :
  (String.length (Text.remove_if p s) <= String.length s)%nat.
Proof. induction s as [|c s IH]; cbn; [lia|]. destruct (p c); cbn; lia. Qed.

Lemma replace_length (a b : ascii) (s : string) :
  String.length (Text.replace a b s) = String.length s.
Proof. induction s as [|c s IH]; cbn; [reflexivity|]. now rewrite IH. Qed.

(** X4.  Whatever the first line of the session file, the name of the
    archive is [log_], a body and [.txt], and the body holds no white space
    and no colon and is no longer than the line less its first ten
    characters.  A first line of ten characters or fewer (an empty file
    among them) gives [log_.txt]: all such session files are archived under
    the same name. *)
Theorem archive_name_is_sanitised (firstLine : string) :
  exists body,
    format_new_name firstLine = "log_" ++ body ++ ".txt"
    /\ every kept_in_name body = true
    /\ (String.length body <= String.length firstLine - 10)%nat
    /\ ((String.length firstLine <= 10)%nat -> format_new_name firstLine = "log_.txt").
Proof.
  exists (Text.replace ":" "-"
            (Text.remove_if Text.isspace (Text.erase_front 10 firstLine))).
  split; [reflexivity|]. split; [|split].
  - apply every_replace_colon, every_remove_if.
  - rewrite replace_length, <- erase_front_length. apply remove_if_length.
  - intros H. unfold format_new_name. now rewrite (erase_front_short 10 _ H).
Qed.

(** A first line of five characters. *)
Lemma archive_name_is_sanitised_witness : format_new_name "short" = "log_.txt".
Proof.
  destruct (archive_name_is_sanitised "short") as (body & _ & _ & _ & H).
  apply H. cbn. lia.
Defined.

Lemma plain_name_app (PW : bool) (a b : string) :
  plain_name PW (a ++ b) = (plain_name PW a && plain_name PW b)%bool.
Proof.
  induction a as [|c a IH]; cbn -[refused_in_name]; [reflexivity|].
  now rewrite IH, andb_assoc.
Qed.

Lemma plain_name_numeral (PW : bool) (s : string) :
  every numeral s = true -> plain_name PW s = true.
Proof.
  induction s as [|c s IH]; cbn -[refused_in_name numeral]; [reflexivity|].
  rewrite andb_true_iff. intros [Hc Hs]. rewrite (IH Hs), andb_true_r.
  clear - Hc. destruct PW;
    destruct c as [[|] [|] [|] [|] [|] [|] [|] [|]]; cbn in *;
    try discriminate; reflexivity.
Qed.

Lemma dated_name_plain (PW : bool) (t : tm) :
  plain_name PW
    ("log_" ++ Text.fmt_i (tm_year t + 1900) ++ "."
       ++ Text.fmt_i (tm_mon t + 1) ++ "." ++ Text.fmt_i (tm_mday t) ++ "."
       ++ Text.fmt_i (tm_hour t) ++ "-" ++ Text.fmt_i (tm_min t) ++ "-"
       ++ Text.fmt_i (tm_sec t) ++ ".txt") = true.
Proof.
  repeat (rewrite plain_name_app; apply andb_true_iff; split);
    first [ apply plain_name_numeral, fmt_i_numeral | now destruct PW ].
Qed.

(** X5.  The banner of line 154 and the ten characters dropped by line 209
    agree, for every date: from a session file this class has started, the
    archive transition reads the banner back and derives
    [log_<year>.<month>.<day>.<hour>-<min>-<sec>.txt], and that is the name
    of a file on Windows and elsewhere, so the copy does not throw on it. *)
Theorem own_banner_gives_archive_name (PW : bool) (t : tm) (rest : string) :
  let data := (creation_banner t ++ nl ++ nl) ++ rest in
  let name := "log_" ++ Text.fmt_i (tm_year t + 1900) ++ "."
                ++ Text.fmt_i (tm_mon t + 1) ++ "." ++ Text.fmt_i (tm_mday t) ++ "."
                ++ Text.fmt_i (tm_hour t) ++ "-" ++ Text.fmt_i (tm_min t) ++ "-"
                ++ Text.fmt_i (tm_sec t) ++ ".txt" in
  format_new_name (Text.getline data) = name
  /\ plain_name PW name = true.
Proof.
  intros data name. subst data. rewrite banner_first_line, format_new_name_banner.
  split; [reflexivity | apply dated_name_plain].
Qed.

(** X6.  A process that finds a session file this class has started at
    time [t], with whatever lines were appended since, archives it on its
    first file write under [log_<date of t>.txt] and returns: the copy is
    made to that name, and when no entry of the archive directory has the
    name, the archive directory ends with a file of that name holding all
    of the old session file.  The session file opens, and the archive
    directory holds no directory that [remove] would refuse. *)
Theorem session_archived_under_its_date
        (PW : bool) (header message : string) (s : Statics) (w : World)
        (tr : list event) (f : session_file) (t : tm) (rest : string) :
  fs s = None ->
  shouldCreateNewFile s = true ->
  session w = Some f ->
  s_data f = (creation_banner t ++ nl ++ nl) ++ rest ->
  writable w = true ->
  (forall e, In e (entries w) -> d_type e <> directory_file true) ->
  let name := "log_" ++ Text.fmt_i (tm_year t + 1900) ++ "."
                ++ Text.fmt_i (tm_mon t + 1) ++ "." ++ Text.fmt_i (tm_mday t) ++ "."
                ++ Text.fmt_i (tm_hour t) ++ "-" ++ Text.fmt_i (tm_min t) ++ "-"
                ++ Text.fmt_i (tm_sec t) ++ ".txt" in
  exists q es1,
    LogToFile PW header message {| statics := s; world := w; trace := tr |}
    = Returned tt q
    /\ (forall e, In e es1 -> In e (entries w))
    /\ entries (world q) = copy_into f name (file_time w) es1
    /\ In (ev_copy latestLogFilepath (pastLogsFilepath ++ name)) (trace q)
    /\ ((forall e, In e (entries w) -> d_name e <> name) ->
        In (copy_of f name (file_time w)) (entries (world q))).
Proof.
  intros Hfs Hflag Hsess Hdata Hw Hdir name.
  assert (Hname : format_new_name (Text.getline (s_data f)) = name)
    by (rewrite Hdata, banner_first_line; apply format_new_name_banner).
  assert (Hplain : plain_name PW name = true) by apply dated_name_plain.
  destruct (LogToFile_run PW header message s w tr Hfs)
    as (out & notes & F & _ & _ & _ & E).
  rewrite E. unfold LogToFile_result. rewrite Hflag, Hsess, Hw, Hname, Hplain.
  assert (Hes : exists es1,
             (if is_full s (entries w) then without out (entries w)
              else Some (entries w)) = Some es1
             /\ forall e, In e es1 -> In e (entries w)).
  { destruct (is_full s (entries w)); [|eexists; split; [reflexivity | auto]].
    rewrite (without_some _ _ Hdir). eexists. split; [reflexivity|].
    destruct (is_some _); [apply remove_first_incl | auto]. }
  destruct Hes as (es1 & -> & Hincl). unfold started.
  eexists. exists es1. split; [reflexivity|].
  cbn [world trace settled entries logs past_logs].
  split; [exact Hincl|]. split; [reflexivity|].
  split; [rewrite !in_app_iff; cbn; auto 10|].
  intros Hfree. rewrite copy_into_fresh by (intros e He; apply Hfree, Hincl, He).
  rewrite in_app_iff. right. now left.
Qed.

(** A session file started on the fourth of January 2024 at 8:15:42, with
    one line in it. *)
Lemma session_archived_witness :
  let w := settled (Some last_session) five_logs true 9 january 0 in
  exists q,
    LogToFile true "[10:30:0] <Info>" "hello"
              {| statics := initial; world := w; trace := [] |} = Returned tt q
    /\ In (copy_of last_session "log_2024.1.4.8-15-42.txt" 9) (entries (world q)).
Proof.
  intros w.
  destruct (session_archived_under_its_date true "[10:30:0] <Info>" "hello" initial w []
              last_session (Build_tm 124 0 4 8 15 42)
              ("[8:15:42] <Info> - started" ++ nl))
    as (q & es1 & H1 & _ & _ & _ & H2); try reflexivity.
  - intros e He. cbn in He.
    repeat (destruct He as [<-|He]; [discriminate|]). contradiction.
  - exists q. split; [exact H1|]. apply H2.
    intros e He. cbn in He.
    repeat (destruct He as [<-|He]; [discriminate|]). contradiction.
Defined.

(** *** Which log goes *)

Lemma path_exists_empty (w : World) : path_exists w "" = false.
Proof.
  unfold path_exists. destruct (logs w) as [d|]; [|reflexivity]. cbn.
  unfold find_entry. destruct (find _ _) as [x|] eqn:Hf; [|reflexivity].
  apply find_some in Hf. destruct Hf as [_ Hf]. discriminate.
Qed.

Lemma fold_older_first (rest : list dir_entry) :
  forall c,
  exists a b,
    c :: rest = (a ++ fold_left older rest c :: b)%list
    /\ (forall x, In x a -> d_created (fold_left older rest c) < d_created x)
    /\ (forall x, In x b -> d_created (fold_left older rest c) <= d_created x).
Proof.
  induction rest as [|e rest IH]; intros c; cbn [fold_left].
  - exists [], []. split; [reflexivity|]. split; intros x [].
  - destruct (IH (older c e)) as (a & b & Heq & Ha & Hb).
    set (r := fold_left older rest (older c e)) in *.
    assert (Hr : d_created r <= d_created (older c e)).
    { destruct a as [|x a]; cbn [app] in Heq; injection Heq as Hx Hrest.
      - rewrite <- Hx. lia.
      - rewrite Hx. specialize (Ha x (or_introl eq_refl)). lia. }
    unfold older in Heq, Hr.
    destruct (Z.gtb_spec (d_created c) (d_created e)) as [Hgt|Hle].
    + exists (c :: a), b. split; [cbn [app]; now rewrite <- Heq|].
      split; [|exact Hb].
      intros x [<-|Hx]; [lia | now apply Ha].
    + destruct a as [|x a]; cbn [app] in Heq; injection Heq as Hx Hrest.
      * assert (Hcr := f_equal d_created Hx).
        exists [], (e :: b). cbn [app].
        split; [now rewrite <- Hx, Hrest|]. split; [intros x []|].
        intros x [<-|Hin]; [lia | now apply Hb].
      * assert (Hcx := f_equal d_created Hx).
        assert (Hc := Ha x (or_introl eq_refl)).
        exists (c :: e :: a), b. cbn [app].
        split; [now rewrite Hrest|]. split; [|exact Hb].
        intros y [<-|[<-|Hy]]; [lia | lia | apply Ha; now right].
Qed.

Lemma GetOldestLog_as_fold (p : Process) (d : logs_dir) (c : dir_entry)
      (rest : list dir_entry) :
  logs (world p) = Some d -> past_logs d = Some (c :: rest) ->
  NoDup (map d_name (c :: rest)) ->
  (forall e, In e (c :: rest) -> 0 < d_created e < 2 ^ 64) ->
  GetOldestLog true p = Returned (entry_path (fold_left older rest c)) p.
Proof.
  intros Hl Hp Hnd Hpos.
  assert (Hempty : GetFileCreationTime true "" p = Returned 0 p).
  { unfold GetFileCreationTime, bind, get_world, ret.
    now rewrite path_exists_empty. }
  assert (Hc : In c (c :: rest)) by now left.
  assert (Hc0 := Hpos c Hc).
  unfold GetOldestLog, directory_iterator.
  rewrite (bind_returned _ _ p p (c :: rest))
    by (unfold bind, get_world; cbn; now rewrite Hl, Hp).
  cbn [map GetOldestLog_loop].
  rewrite (bind_returned _ _ p p 0 Hempty).
  rewrite (bind_returned _ _ p p (d_created c))
    by (apply (creation_time_of_entry p d (c :: rest) c); auto; lia).
  replace (0 >? d_created c) with false
    by (symmetry; rewrite Z.gtb_ltb; apply Z.ltb_ge; lia).
  rewrite (bind_returned _ _ p p true)
    by (now rewrite (bind_returned _ _ p p 0 Hempty)).
  apply (GetOldestLog_loop_older p d (c :: rest)); auto.
  intros e He. now right.
Qed.

(** X8.  On Windows, in an archive directory whose entries all have a
    creation time that is not zero, [GetOldestLog] returns the first entry,
    in the order of the directory iterator, among those of smallest
    creation time: every entry before it is younger, no entry after it is
    older.  It prints nothing and changes nothing. *)
Theorem oldest_log_on_windows_is_the_first_oldest
        (p : Process) (d : logs_dir) (es : list dir_entry) :
  logs (world p) = Some d ->
  past_logs d = Some es ->
  NoDup (map d_name es) ->
  (forall e, In e es -> 0 < d_created e < 2 ^ 64) ->
  es <> [] ->
  exists before oldest after,
    es = (before ++ oldest :: after)%list
    /\ GetOldestLog true p = Returned (entry_path oldest) p
    /\ (forall e, In e before -> d_created oldest < d_created e)
    /\ (forall e, In e after -> d_created oldest <= d_created e).
Proof.
  intros Hl Hp Hnd Hpos Hne. destruct es as [|c rest]; [now elim Hne|].
  destruct (fold_older_first rest c) as (a & b & Heq & Ha & Hb).
  exists a, (fold_left older rest c), b.
  split; [exact Heq|]. split; [|split; assumption].
  now apply (GetOldestLog_as_fold p d c rest).
Qed.

(** Three logs, two of them of the same, smallest age. *)
Lemma oldest_log_on_windows_witness :
  let es := [old_log "log_c.txt" 7; old_log "log_a.txt" 3; old_log "log_b.txt" 3] in
  let p := {| statics := initial; world := settled None es true 9 january 0;
              trace := [] |} in
  exists before oldest after,
    es = (before ++ oldest :: after)%list
    /\ GetOldestLog true p = Returned (entry_path oldest) p
    /\ (forall e, In e before -> d_created oldest < d_created e)
    /\ (forall e, In e after -> d_created oldest <= d_created e).
Proof.
  intros es p.
  apply (oldest_log_on_windows_is_the_first_oldest p
           {| latest_log := None; past_logs := Some es |} es eq_refl eq_refl).
  - cbn. repeat constructor; cbn; intuition discriminate.
  - intros e He. cbn in He.
    repeat (destruct He as [<-|He]; [cbn; lia|]). contradiction.
  - discriminate.
Defined.

(** *** Masks *)

Lemma testbit_uint (m : Z) (v : severity) :
  Z.testbit (uint m) (bit_of v) = Z.testbit m (bit_of v).
Proof.
  unfold uint. apply Z.mod_pow2_bits_low.
  destruct (level_is_bit v) as [_ H]. lia.
Qed.

Lemma boot_events_three_reads (w : World) :
  boot_events (three_reads w) = boot_events w.
Proof. now destruct w. Qed.

(** X9.  The masks given to the setters decide bit by bit, whatever the
    integers passed, negative ones and ones wider than 32 bits included:
    after [SetLevelsToDisplay(md)] and [SetLevelsToSave(ms)], with the
    rotation done and a session file that opens, a call at level [v] prints
    its line exactly when bit [v] of [md] is set and writes it to the file
    exactly when bit [v] of [ms] is set, the console first.  So masks
    combine with [|]; [LOGLEVEL_ALL] and [-1] let every level through and
    [LOGLEVEL_NONE] none; and the mask of one level lets that level through
    and no other: levels are not ordered. *)
Theorem masks_decide_bit_by_bit
        (PW : bool) (AO : argument_order) (md ms : Z) (v : severity) (message : string)
        (s : Statics) (w : World) (tr : list event) :
  fs s = None ->
  shouldCreateNewFile s = false ->
  writable w = true ->
  let line := record_line (header_in AO w v) message in
  (exists q,
      (SetLevelsToDisplay md ;; SetLevelsToSave ms ;; call PW AO v message)
        {| statics := s; world := w; trace := tr |} = Returned tt q
      /\ trace q
         = (tr ++ (if Z.testbit md (bit_of v) then [ev_printf line] else [])
               ++ (if Z.testbit ms (bit_of v)
                   then boot_events w
                        ++ [ev_open latestLogFilepath ios_app true; ev_insert line]
                   else []))%list)
  /\ (forall a b, Z.testbit (Z.lor a b) (bit_of v)
                  = (Z.testbit a (bit_of v) || Z.testbit b (bit_of v))%bool)
  /\ Z.testbit LOGLEVEL_ALL (bit_of v) = true
  /\ Z.testbit (-1) (bit_of v) = true
  /\ Z.testbit LOGLEVEL_NONE (bit_of v) = false
  /\ (forall v', Z.testbit (level_of v') (bit_of v) = true <-> v' = v).
Proof.
  intros Hfs Hflag Hw line. split; [|split; [|split; [|split; [|split]]]].
  - unfold SetLevelsToDisplay, SetLevelsToSave, bind at 1 2 3 4, get_statics,
      put_statics.
    cbn [statics world trace logLevelsToDisplay logLevelsToSave pastLogsToKeep
         shouldCreateNewFile fs].
    rewrite call_run. cbv zeta.
    cbn [logLevelsToDisplay logLevelsToSave]. rewrite !testbit_uint. fold line.
    destruct (Z.testbit ms (bit_of v)).
    + rewrite LogToFile_boot, settle_shape, LogToFile_active by assumption.
      unfold appended. cbn [writable three_reads]. rewrite Hw.
      eexists. split; [reflexivity|]. cbn [trace].
      rewrite boot_events_three_reads, <- !app_assoc. reflexivity.
    + eexists. split; [reflexivity|]. cbn [trace]. now rewrite app_nil_r.
  - intros a b. apply Z.lor_spec.
  - now destruct v.
  - now destruct v.
  - now destruct v.
  - intros v'. split.
    + destruct v, v'; cbn; intros H; try reflexivity; discriminate.
    + intros ->. now destruct v.
Qed.

(** [SetLevelsToDisplay(-1)] and [SetLevelsToSave(LOGLEVEL_ERROR)], then a
    warning. *)
Lemma masks_decide_witness :
  let s := {| logLevelsToDisplay := LOGLEVEL_NONE; logLevelsToSave := LOGLEVEL_ALL;
              pastLogsToKeep := 5; shouldCreateNewFile := false; fs := None |} in
  let w := settled (Some last_session) five_logs true 9 january 4 in
  exists q,
    (SetLevelsToDisplay (-1) ;; SetLevelsToSave LOGLEVEL_ERROR ;;
     call true sec_min_hour SevWarning "low disk")
      {| statics := s; world := w; trace := [] |} = Returned tt q
    /\ trace q = [ev_printf (record_line (header_in sec_min_hour w SevWarning) "low disk")].
Proof.
  intros s w.
  destruct (masks_decide_bit_by_bit true sec_min_hour (-1) LOGLEVEL_ERROR SevWarning "low disk"
              s w [] eq_refl eq_refl eq_refl) as [(q & H1 & H2) _].
  exists q. split; [exact H1|]. rewrite H2. reflexivity.
Defined.

(** *** A run of calls *)

(** X10.  Once the rotation is done, and as long as the session file opens
    and nobody else touches the disk, a run of logging calls leaves in the
    session file what it held followed by the lines of the calls whose
    level is in the persist mask, in the order of the calls, and on the
    console the lines of the calls whose level is in the display mask, in
    the order of the calls; a call in both masks gives the same line to
    both.  No static member changes, the archive directory is not touched,
    and nothing is removed, copied or truncated. *)
Theorem calls_append_in_order (PW : bool) (AO : argument_order) (calls : list (severity * string)) :
  forall (s : Statics) (w : World) (tr : list event),
    fs s = None ->
    shouldCreateNewFile s = false ->
    writable w = true ->
    exists q,
      call_each PW AO calls {| statics := s; world := w; trace := tr |} = Returned tt q
      /\ statics q = s
      /\ data_of (session (world q))
         = data_of (session w)
             ++ text_of (lines_in (logLevelsToSave s) AO (time_source w) (time_reads w)
                                  calls)
      /\ console (trace q)
         = (console tr
              ++ lines_in (logLevelsToDisplay s) AO (time_source w) (time_reads w)
                          calls)%list
      /\ entries (world q) = entries w
      /\ writable (world q) = true
      /\ count is_remove (trace q) = count is_remove tr
      /\ count is_copy (trace q) = count is_copy tr
      /\ count is_truncating_open (trace q) = count is_truncating_open tr.
Proof.
  induction calls as [|[v message] rest IH]; intros s w tr Hfs Hflag Hw.
  - eexists. split; [reflexivity|]. cbn [statics world trace lines_in text_of].
    rewrite append_empty_r, app_nil_r. repeat split; assumption.
  - cbn [call_each lines_in].
    set (line := record_line (header_at AO (time_source w) (time_reads w) v) message).
    assert (Hcall := call_run PW AO v message s w tr). cbv zeta in Hcall.
    change (header_in AO w v) with (header_at AO (time_source w) (time_reads w) v) in Hcall.
    fold line in Hcall.
    set (shown := if Z.testbit (logLevelsToDisplay s) (bit_of v)
                  then [ev_printf line] else []) in Hcall.
    assert (Hshown : console shown
                     = if Z.testbit (logLevelsToDisplay s) (bit_of v)
                       then [line] else [])
      by (subst shown;
          now destruct (Z.testbit (logLevelsToDisplay s) (bit_of v))).
    assert (Hq : forall k, k (ev_printf line) = false -> count k shown = 0%nat)
      by (intros k Hk; subst shown;
          destruct (Z.testbit (logLevelsToDisplay s) (bit_of v)); unfold count;
          cbn [filter]; rewrite ?Hk; reflexivity).
    destruct (Z.testbit (logLevelsToSave s) (bit_of v)).
    + rewrite LogToFile_boot, settle_shape, LogToFile_active in Hcall by assumption.
      unfold appended in Hcall. cbn [writable three_reads] in Hcall.
      rewrite Hw in Hcall.
      rewrite (bind_returned _ _ _ _ _ Hcall).
      match goal with
      | |- context [call_each PW AO rest {| statics := _; world := ?w1; trace := ?t1 |}] =>
          destruct (IH s w1 t1 Hfs Hflag eq_refl)
            as (q & E & Hs & Hd & Hc & He & Hwq & Hr & Hcp & Ht)
      end.
      exists q. split; [exact E|]. split; [exact Hs|].
      cbn [session settled logs latest_log data_of s_data time_source time_reads
           entries past_logs] in Hd, Hc, He.
      split; [|split; [|split; [|split; [exact Hwq|]]]].
      * rewrite Hd. cbn [app text_of].
        replace (session (three_reads w)) with (session w) by now destruct w.
        now rewrite !append_assoc.
      * rewrite Hc, !console_app, console_boot, Hshown.
        cbn [console flat_map app]. rewrite <- !app_assoc.
        now destruct (Z.testbit (logLevelsToDisplay s) (bit_of v)).
      * rewrite He. now destruct w.
      * rewrite Hr, Hcp, Ht, !count_app, !Hq, !count_boot by reflexivity.
        cbn. repeat split; lia.
    + rewrite (bind_returned _ _ _ _ _ Hcall).
      destruct (IH s (three_reads w) (tr ++ shown)%list Hfs Hflag Hw)
        as (q & E & Hs & Hd & Hc & He & Hwq & Hr & Hcp & Ht).
      exists q. split; [exact E|]. split; [exact Hs|].
      cbn [three_reads time_source time_reads] in Hd, Hc.
      split; [|split; [|split; [|split; [exact Hwq|]]]].
      * rewrite Hd. cbn [app]. now destruct w.
      * rewrite Hc, console_app, Hshown, <- app_assoc. reflexivity.
      * rewrite He. now destruct w.
      * rewrite Hr, Hcp, Ht, !count_app, !Hq by reflexivity. repeat split; lia.
Qed.

(** Three calls with the debug level out of the persist mask. *)
Lemma calls_append_witness :
  let s := {| logLevelsToDisplay := LOGLEVEL_NONE;
              logLevelsToSave := Z.lor LOGLEVEL_INFO LOGLEVEL_ERROR;
              pastLogsToKeep := 5; shouldCreateNewFile := false; fs := None |} in
  let w := settled (Some last_session) five_logs true 9 january 4 in
  exists q,
    call_each true sec_min_hour [(SevInfo, "one"); (SevDebug, "two"); (SevError, "three")]
              {| statics := s; world := w; trace := [] |} = Returned tt q
    /\ data_of (session (world q))
       = s_data last_session ++ "[10:30:0] <Info> - one" ++ nl
           ++ "[10:30:0] <Error> - three" ++ nl
    /\ console (trace q) = [].
Proof.
  intros s w.
  destruct (calls_append_in_order true sec_min_hour
              [(SevInfo, "one"); (SevDebug, "two"); (SevError, "three")]
              s w [] eq_refl eq_refl eq_refl)
    as (q & H1 & _ & H2 & H3 & _).
  exists q. split; [exact H1|]. split; [rewrite H2 | rewrite H3]; reflexivity.
Defined.

(** *** When the transition evicts *)

Lemma removed_app (a b : list event) : removed (a ++ b) = (removed a ++ removed b)%list.
Proof. apply flat_map_app. Qed.

Lemma removed_notes (notes : list event) : Forall is_note notes -> removed notes = [].
Proof.
  induction 1 as [|e rest He _ IH]; [reflexivity|].
  cbn [removed flat_map]. rewrite He. exact IH.
Qed.

Lemma is_full_count (s : Statics) (es : list dir_entry) :
  Z.of_nat (List.length es) < 2 ^ 32 ->
  is_full s es = (pastLogsToKeep s <=? Z.of_nat (List.length (regular_files es))).
Proof.
  intros Hlen. unfold is_full. rewrite CountFiles_loop_count by lia.
  cbn [Z.add]. now rewrite Z.geb_leb.
Qed.

(** X11.  An archive transition calls [std::filesystem::remove] once when
    the regular files of the archive directory are at least as many as the
    retention limit, and not at all when they are fewer, whether it then
    returns or throws.  Only regular files count toward the limit:
    subdirectories and other entries do not, although the path removed is
    that of any entry of the directory, whatever its kind.  With the limit
    at zero every transition calls [remove], in an empty directory on the
    empty path. *)
Theorem eviction_counts_regular_files
        (PW : bool) (s : Statics) (f : session_file) (es : list dir_entry)
        (wr : bool) (ft : Z) (ts : nat -> tm) (n : nat) (tr : list event) :
  fs s = None ->
  Z.of_nat (List.length es) < 2 ^ 32 ->
  let p := {| statics := s; world := settled (Some f) es wr ft ts n; trace := tr |} in
  exists out,
    (es = [] -> out = "")
    /\ (es <> [] -> In out (map entry_path es))
    /\ removed (trace (final (SaveLatestLog PW p)))
       = (removed tr
            ++ (if pastLogsToKeep s <=? Z.of_nat (List.length (regular_files es))
                then [out] else []))%list.
Proof.
  intros Hfs Hlen p.
  destruct (SaveLatestLog_run PW s f es wr ft ts n tr Hfs)
    as (out & notes & F & O1 & O2 & _ & E).
  cbv zeta in E. fold p in E. exists out. split; [exact O1|]. split; [exact O2|].
  rewrite E, <- (is_full_count s es Hlen).
  destruct (is_full s es).
  - destruct (without out es) as [es1|]; [destruct (plain_name PW _)|];
      cbn [final trace add_events p];
      rewrite !removed_app, (removed_notes notes F); cbn; now rewrite ?app_nil_r.
  - destruct (plain_name PW _); cbn [final trace]; now rewrite !removed_app.
Qed.

(** Limit 5, four logs and a subdirectory: nothing is removed. *)
Lemma eviction_counts_witness :
  let p := {| statics := initial;
              world := settled (Some last_session) with_subdirectory true 9 january 0;
              trace := [] |} in
  removed (trace (final (SaveLatestLog true p))) = [].
Proof.
  intros p.
  destruct (eviction_counts_regular_files true initial last_session with_subdirectory
              true 9 january 0 [] eq_refl ltac:(cbn; lia)) as (out & _ & _ & H).
  exact H.
Defined.

(** *** Archiving the same session file again *)

Lemma copy_into_again (f : session_file) (name : string) (now now' : Z)
      (es : list dir_entry) :
  copy_into f name now' (copy_into f name now es) = copy_into f name now es.
Proof.
  induction es as [|e rest IH]; cbn [copy_into].
  - rewrite String.eqb_refl. cbn [d_name d_type d_written].
    now rewrite Z.ltb_irrefl.
  - destruct (String.eqb (d_name e) name) eqn:En.
    + destruct (d_type e) eqn:Ty.
      * destruct (d_written e <? s_written f) eqn:Lt; cbn [copy_into d_name d_type d_written].
        -- now rewrite String.eqb_refl, Z.ltb_irrefl.
        -- now rewrite En, Ty, Lt.
      * cbn [copy_into d_name d_type d_written d_created d_data].
        now rewrite String.eqb_refl.
    + cbn [copy_into]. now rewrite En, IH.
Qed.

(** X12.  Archiving is idempotent.  When an archive transition has
    returned and the session file is the same at the next one (a process
    that could not truncate it, or that was started again before it wrote),
    the second transition returns and leaves the archive directory exactly
    as the first left it, as long as the directory is below the retention
    limit: the copy goes to the same name, and with
    [copy_options::update_existing] a destination that is not older than
    the source is left alone. *)
Theorem archiving_again_changes_nothing
        (PW : bool) (s : Statics) (f : session_file) (es : list dir_entry)
        (wr : bool) (ft ft' : Z) (ts ts' : nat -> tm) (n n' : nat)
        (tr tr' : list event) (q : Process) :
  fs s = None ->
  SaveLatestLog PW {| statics := s; world := settled (Some f) es wr ft ts n;
                      trace := tr |} = Returned tt q ->
  is_full s (entries (world q)) = false ->
  exists q',
    SaveLatestLog PW {| statics := s;
                        world := settled (Some f) (entries (world q)) wr ft' ts' n';
                        trace := tr' |} = Returned tt q'
    /\ entries (world q') = entries (world q)
    /\ session (world q') = Some f
    /\ removed (trace q') = removed tr'.
Proof.
  intros Hfs E1 Hfull.
  destruct (SaveLatestLog_run PW s f es wr ft ts n tr Hfs)
    as (out & notes & _ & _ & _ & _ & E).
  cbv zeta in E. rewrite E in E1. clear E.
  destruct (if is_full s es then without out es else Some es) as [es1|];
    [|discriminate].
  destruct (plain_name PW _) eqn:Hplain; [|discriminate].
  injection E1 as <-. cbn [world settled entries logs past_logs] in *.
  destruct (SaveLatestLog_run PW s f
              (copy_into f (format_new_name (if wr then Text.getline (s_data f) else ""))
                         ft es1) wr ft' ts' n' tr' Hfs)
    as (out' & notes' & _ & _ & _ & _ & E').
  cbv zeta in E'. rewrite Hfull, Hplain in E'.
  eexists. split; [exact E'|].
  cbn [world settled entries logs past_logs session latest_log trace].
  split; [apply copy_into_again|]. split; [reflexivity|].
  rewrite !removed_app. cbn. now rewrite app_nil_r.
Qed.

(** A session file that cannot be opened, archived twice. *)
Lemma archiving_again_witness :
  let p := {| statics := initial;
              world := settled (Some last_session) [] false 9 january 0;
              trace := [] |} in
  exists q q',
    SaveLatestLog true p = Returned tt q
    /\ SaveLatestLog true
         {| statics := initial;
            world := settled (Some last_session) (entries (world q)) false 12 january 3;
            trace := trace q |} = Returned tt q'
    /\ entries (world q') = entries (world q).
Proof.
  intros p.
  assert (E : SaveLatestLog true p
              = Returned tt (final (SaveLatestLog true p))) by reflexivity.
  destruct (archiving_again_changes_nothing true initial last_session [] false 9 12
              january january 0 3 [] (trace (final (SaveLatestLog true p))) _
              eq_refl E eq_refl) as (q' & H1 & H2 & _).
  exists (final (SaveLatestLog true p)), q'. split; [exact E|].
  split; [exact H1 | exact H2].
Defined.

(** *** Two sessions, two names *)

Lemma digits_of_uint (d : Decimal.uint) :
  every digit (NilZero.string_of_uint d) = true.
Proof.
  assert (H : forall d, every digit (NilEmpty.string_of_uint d) = true)
    by (intros d'; induction d'; cbn; auto).
  destruct d; try apply H. reflexivity.
Qed.

Lemma fmt_i_digits (z : Z) : 0 <= z -> every digit (Text.fmt_i z) = true.
Proof.
  intros Hz. unfold Text.fmt_i. destruct z as [|p|p]; [reflexivity | | lia].
  apply digits_of_uint.
Qed.

Lemma to_int_not_nil (z : Z) :
  Z.to_int z <> Decimal.Pos Decimal.Nil /\ Z.to_int z <> Decimal.Neg Decimal.Nil.
Proof.
  split; intros H; assert (Hz := DecimalZ.of_to z); rewrite H in Hz; cbn in Hz;
    subst z; discriminate H.
Qed.

Lemma fmt_i_inj (z z' : Z) : Text.fmt_i z = Text.fmt_i z' -> z = z'.
Proof.
  unfold Text.fmt_i. intros H. apply DecimalZ.to_int_inj.
  apply (f_equal NilZero.int_of_string) in H.
  destruct (to_int_not_nil z) as [H1 H2]. destruct (to_int_not_nil z') as [H3 H4].
  rewrite !NilZero.isi in H by assumption. now injection H.
Qed.

(** Two strings of digits, each followed by something that is no digit,
    are read apart at the same place. *)
Lemma digits_then (a a' : string) (c c' : ascii) (r r' : string) :
  every digit a = true -> every digit a' = true ->
  digit c = false -> digit c' = false ->
  a ++ String c r = a' ++ String c' r' ->
  a = a' /\ r = r'.
Proof.
  revert a'. induction a as [|x a IH]; intros [|x' a'] Ha Ha' Hc Hc' E;
    cbn [append every] in *.
  - injection E as _ E. auto.
  - injection E as E _. subst x'. apply andb_true_iff in Ha'. destruct Ha' as [Hx _].
    congruence.
  - injection E as E _. subst x. apply andb_true_iff in Ha. destruct Ha as [Hx _].
    congruence.
  - injection E as -> E. apply andb_true_iff in Ha, Ha'.
    destruct (IH a' (proj2 Ha) (proj2 Ha') Hc Hc' E) as [-> ->]. auto.
Qed.

(** X13.  The archive name tells sessions apart.  Two session files this
    class has started give the same archive name only when their banners
    carry the same date and time, to the second: sessions started in
    different seconds are never archived over one another, and sessions
    started within the same second are archived under one name.  The
    numbers of the banners are those of a calendar date: none is negative. *)
Theorem archive_names_tell_sessions_apart (t t' : tm) (rest rest' : string) :
  no_minus_sign t ->
  no_minus_sign t' ->
  format_new_name (Text.getline ((creation_banner t ++ nl ++ nl) ++ rest))
  = format_new_name (Text.getline ((creation_banner t' ++ nl ++ nl) ++ rest'))
  <-> t = t'.
Proof.
  intros (Y & M & D & h & m & s) (Y' & M' & D' & h' & m' & s').
  rewrite !banner_first_line, !format_new_name_banner.
  split; [|intros ->; reflexivity].
  intros E. cbn [append] in E. injection E as E.
  repeat match type of E with
         | Text.fmt_i ?z ++ String _ _ = Text.fmt_i ?z' ++ String _ _ =>
             let H := fresh "F" in
             apply digits_then in E;
             [destruct E as [H E]; apply fmt_i_inj in H; cbn [append] in E
             | now apply fmt_i_digits | now apply fmt_i_digits
             | reflexivity | reflexivity]
         end.
  destruct t, t'. cbn in *. f_equal; lia.
Qed.

(** The banner of the fifth of January 2024, 10:30:00, before two different
    runs of lines. *)
Lemma archive_names_witness :
  format_new_name (Text.getline ((creation_banner (january 0) ++ nl ++ nl)
                                   ++ "one line"))
  = format_new_name (Text.getline ((creation_banner (january 0) ++ nl ++ nl) ++ "")).
Proof.
  apply (archive_names_tell_sessions_apart (january 0) (january 0) "one line" "").
  - unfold no_minus_sign. cbn. lia.
  - unfold no_minus_sign. cbn. lia.
  - reflexivity.
Defined.

(** *** What a logging call leaves alone *)

(** X14.  A logging call, whether it returns or throws, changes neither
    the display mask nor the retention limit, and leaves the stream
    closed.  It changes the persist mask only to [LOGLEVEL_NONE], and only
    when its level is in the persist mask and the session file did not
    open; it changes the rotation flag only by taking it down, and only
    when its level is in the persist mask.  A call whose level is not in
    the persist mask changes no static member, leaves [./logs] as it is and
    makes no call to the file system. *)
Theorem logging_call_frame
        (PW : bool) (AO : argument_order) (v : severity) (message : string)
        (s : Statics) (w : World) (tr : list event) :
  fs s = None ->
  let q := final (call PW AO v message {| statics := s; world := w; trace := tr |}) in
  let saved := Z.testbit (logLevelsToSave s) (bit_of v) in
  logLevelsToDisplay (statics q) = logLevelsToDisplay s
  /\ pastLogsToKeep (statics q) = pastLogsToKeep s
  /\ fs (statics q) = None
  /\ (logLevelsToSave (statics q) = logLevelsToSave s
      \/ (logLevelsToSave (statics q) = LOGLEVEL_NONE
          /\ saved = true /\ writable w = false))
  /\ (shouldCreateNewFile (statics q) = shouldCreateNewFile s
      \/ (shouldCreateNewFile (statics q) = false /\ saved = true))
  /\ (saved = false ->
      statics q = s /\ logs (world q) = logs w
      /\ count is_file_call (trace q) = count is_file_call tr).
Proof.
  intros Hfs q saved. subst q saved. rewrite call_run. cbv zeta.
  destruct (Z.testbit (logLevelsToSave s) (bit_of v)).
  - destruct (LogToFile_run PW (header_in AO w v) message s (three_reads w)
                (tr ++ (if Z.testbit (logLevelsToDisplay s) (bit_of v)
                        then [ev_printf (record_line (header_in AO w v) message)]
                        else []))%list Hfs) as (out & notes & _ & _ & _ & _ & E).
    rewrite E. clear E.
    replace (writable (three_reads w)) with (writable w) by now destruct w.
    unfold LogToFile_result, started, appended, muted, flipped.
    destruct (shouldCreateNewFile s) eqn:Hflag;
      [destruct (session (three_reads w)) as [f|];
       [destruct (if is_full s (entries (three_reads w))
                  then without out (entries (three_reads w))
                  else Some (entries (three_reads w)));
        [destruct (plain_name PW _)|]|]|];
      destruct (writable w); cbn [final statics logLevelsToDisplay logLevelsToSave
                                  pastLogsToKeep shouldCreateNewFile fs];
      rewrite ?Hflag;
      (split; [reflexivity|]); (split; [reflexivity|]); (split; [assumption|]);
      (split; [auto|]); (split; [auto|]); discriminate.
  - cbn [final statics world trace]. split; [reflexivity|]. split; [reflexivity|].
    split; [assumption|]. split; [now left|]. split; [now left|]. intros _.
    split; [reflexivity|]. split; [now destruct w|].
    rewrite count_app.
    destruct (Z.testbit (logLevelsToDisplay s) (bit_of v)); cbn; lia.
Qed.

(** A debug call on a new process after [SetLevelsToSave(LOGLEVEL_ERROR)]. *)
Lemma logging_call_frame_witness :
  let s := {| logLevelsToDisplay := LOGLEVEL_ALL; logLevelsToSave := LOGLEVEL_ERROR;
              pastLogsToKeep := 5; shouldCreateNewFile := true; fs := None |} in
  let w := settled (Some last_session) five_logs true 9 january 0 in
  statics (final (call true sec_min_hour SevDebug "probe"
                       {| statics := s; world := w; trace := [] |})) = s.
Proof.
  intros s w.
  destruct (logging_call_frame true sec_min_hour SevDebug "probe" s w [] eq_refl)
    as (_ & _ & _ & _ & _ & H).
  destruct (H eq_refl) as [H1 _]. exact H1.
Defined.
